(** * go-llm: registry, option application, vendor adapters, streams, router

    A shallow embedding of the Go packages [llm], [providers/anthropic],
    [providers/google], [providers/openai] and of the task router, followed
    by the properties of the specification that are settled on it.

    Conventions of the embedding.
    - A Go [string] and a Go [[]byte] are both sequences of bytes: they are
      Rocq [string]s (lists of 8-bit [ascii]); the conversions [string(b)]
      and [[]byte(s)] are the identity.
    - A Go [int] is a [Z] in the signed 64-bit range, arithmetic wraps
      ([go.int_add]).  A [*int] or [*float64] is an [option]; [nil] is [None].
    - A [float64] is a binary64 [float].
    - A slice is a [list]; a nil slice and an empty slice are both [[]]
      (the code only ranges over them, takes [len], or encodes them under
      [omitempty], none of which tells them apart) except where noted.
    - An [error] is a value of [go.error]; [(v, nil)] is [Ok v] and
      [(nil, err)] is [Err err].
    - The network, the clock and the URL parser are the [go.World] that every
      effectful function threads; [context.Context] is not represented: what
      cancellation does to a request is part of how the world answers it.
    - Locks are not represented: every function is modelled as it runs on its
      own. *)

From Stdlib Require Import ZArith String Ascii List Lia Floats Sorted Permutation.
From stdpp Require Import gmap strings list pretty.

Set Default Proof Using "Type".
Set Warnings "-register-all".
Local Open Scope Z_scope.
Local Open Scope string_scope.

(** ** The Go runtime and standard library, as far as the code uses them *)

Module go.

(** [error]: [io.EOF], an [errors.New]/[fmt.Errorf] value without [%w],
    and [fmt.Errorf("<msg>%w", err)], whose text is [msg] followed by the
    text of the wrapped error. *)
Inductive error : Type :=
| io_EOF
| errorString (msg : string)
| wrapError (msg : string) (err : error).

Fixpoint Error (e : error) : string :=
  match e with
  | io_EOF => "EOF"
  | errorString msg => msg
  | wrapError msg err => msg +:+ Error err
  end.

(** [err == io.EOF] compares with the sentinel itself: a wrapped EOF is
    not equal to it. *)
Definition is_EOF (e : error) : bool :=
  match e with io_EOF => true | _ => false end.

Inductive result (A : Type) : Type :=
| Ok (a : A)
| Err (e : error).
Arguments Ok {A} a.
Arguments Err {A} e.

(** [interface{}]: the dynamic values the code can tell apart with a type
    assertion, and any other value carried opaquely. *)
Inductive any : Type :=
| any_nil
| any_bool (b : bool)
| any_int (n : Z)
| any_float64 (f : float)
| any_string (s : string)
| any_struct {T : Type} (v : T).

(** [v.(int)] *)
Definition assert_int (v : option any) : option Z :=
  match v with Some (any_int n) => Some n | _ => None end.

(** *** int *)

Definition int_min : Z := - 2 ^ 63.
Definition int_max : Z := 2 ^ 63 - 1.
Definition in_int (n : Z) : Prop := int_min <= n <= int_max.
Definition int_wrap (n : Z) : Z := (n + 2 ^ 63) mod 2 ^ 64 - 2 ^ 63.
Definition int_add (a b : Z) : Z := int_wrap (a + b).

(** *** strings and bytes *)

Fixpoint drop (n : nat) (s : string) : string :=
  match n, s with
  | O, _ => s
  | S n', String _ s' => drop n' s'
  | S _, EmptyString => EmptyString
  end.

Fixpoint take (n : nat) (s : string) : string :=
  match n, s with
  | S n', String c s' => String c (take n' s')
  | _, _ => EmptyString
  end.

(** [strings.Index(s, sep)] / [bytes.Index]: offset of the first
    occurrence of [sep] in [s], [None] for -1. *)
Fixpoint strings_Index (s sep : string) : option nat :=
  if String.prefix sep s then Some O
  else match s with
       | EmptyString => None
       | String _ s' => option_map S (strings_Index s' sep)
       end.

(** [strings.Contains(s, substr)] *)
Definition strings_Contains (s substr : string) : bool :=
  match strings_Index s substr with Some _ => true | None => false end.

(** The loop of [strings.genSplit] for a non-empty separator: at most
    [cuts] cuts, each at the first occurrence of [sep] in what is left. *)
Fixpoint genSplit (s sep : string) (cuts : nat) : list string :=
  match cuts with
  | O => [s]
  | S cuts' =>
      match strings_Index s sep with
      | None => [s]
      | Some m => take m s :: genSplit (drop (m + String.length sep) s) sep cuts'
      end
  end.

(** [strings.SplitN(s, sep, n)] for [n >= 0] and a non-empty [sep] (the
    only use is [SplitN(modelID, "/", 2)]): [n = 0] gives no substring,
    otherwise at most [n] substrings, the last one the unsplit
    remainder. *)
Definition strings_SplitN (s sep : string) (n : nat) : list string :=
  match n with
  | O => []
  | S cuts => genSplit s sep cuts
  end.

(** [bytes.HasPrefix] and [bytes.TrimPrefix] *)
Definition bytes_HasPrefix (s prefix : string) : bool := String.prefix prefix s.
Definition bytes_TrimPrefix (s prefix : string) : string :=
  if bytes_HasPrefix s prefix then drop (String.length prefix) s else s.

(** White space for [bytes.TrimSpace]: the six ASCII bytes of
    [asciiSpace], and the UTF-8 encodings of the other code points of
    [unicode.IsSpace] (U+0085, U+00A0, U+1680, U+2000..U+200A, U+2028,
    U+2029, U+202F, U+205F, U+3000). *)
Definition bs (l : list nat) : string :=
  string_of_list_ascii (List.map ascii_of_nat l).

Definition spaces : list string :=
  List.map bs
    [ [9]; [10]; [11]; [12]; [13]; [32];
      [194; 133]; [194; 160]; [225; 154; 128];
      [226; 128; 128]; [226; 128; 129]; [226; 128; 130]; [226; 128; 131];
      [226; 128; 132]; [226; 128; 133]; [226; 128; 134]; [226; 128; 135];
      [226; 128; 136]; [226; 128; 137]; [226; 128; 138];
      [226; 128; 168]; [226; 128; 169]; [226; 128; 175];
      [226; 129; 159]; [227; 128; 128] ]%nat.

(** The length of the white-space rune [s] starts with, if it starts
    with one. *)
Definition leading_space (s : string) : option nat :=
  option_map String.length (List.find (fun sp => String.prefix sp s) spaces).

Fixpoint trim_left (fuel : nat) (s : string) : string :=
  match fuel with
  | O => s
  | S fuel' =>
      match leading_space s with
      | Some n => trim_left fuel' (drop n s)
      | None => s
      end
  end.

Definition rev_string (s : string) : string :=
  string_of_list_ascii (List.rev (list_ascii_of_string s)).

Definition trailing_space (s : string) : option nat :=
  option_map String.length
    (List.find (fun sp => String.prefix (rev_string sp) (rev_string s)) spaces).

Fixpoint trim_right (fuel : nat) (s : string) : string :=
  match fuel with
  | O => s
  | S fuel' =>
      match trailing_space s with
      | Some n => trim_right fuel' (take (String.length s - n) s)
      | None => s
      end
  end.

(** [bytes.TrimSpace]: every rune is at least one byte, so [length s]
    rounds strip all the white space there is. *)
Definition bytes_TrimSpace (s : string) : string :=
  let s1 := trim_left (String.length s) s in
  trim_right (String.length s1) s1.

(** [buf.ReadBytes(delim)] of a [bytes.Buffer] holding [buf], for a
    one-byte [delim]: the bytes up
    to and including the first [delim] and the rest of the buffer, with
    [true] for a nil error; or, when there is no [delim], everything that
    was buffered (the buffer is left empty) with [false] for [io.EOF]. *)
Definition Buffer_ReadBytes (buf : string) (delim : string)
  : string * bool * string :=
  match strings_Index buf delim with
  | Some i => (take (S i) buf, true, drop (S i) buf)
  | None => (buf, false, EmptyString)
  end.

Definition LF : string := bs [10%nat].

(** *** io.Reader *)

(** What one [Read(buffer)] on an open connection returned: the bytes
    ([n] is their number; the callers pass 1024-byte buffers) and the
    error. *)
Record ReadResult : Type := { rd_data : string; rd_err : option error }.

(** An [io.ReadCloser]: the results its future [Read]s will give, in
    order; once they are used up every [Read] gives [(0, io.EOF)]. *)
Definition Conn : Type := list ReadResult.

(** [io.ReadAll]: reads until an error; [io.EOF] is not reported as
    one. *)
Fixpoint io_ReadAll (c : Conn) : string * option error :=
  match c with
  | [] => ("", None)
  | r :: c' =>
      match rd_err r with
      | None => let '(d, e) := io_ReadAll c' in (rd_data r +:+ d, e)
      | Some io_EOF => (rd_data r, None)
      | Some e => (rd_data r, Some e)
      end
  end.

(** *** encoding/json *)

(** The JSON value [json.Marshal] writes for a request; the body of an
    HTTP request is this value (its text is not modelled).  A string value
    is held as its UTF-8 encoding. *)
Inductive JSON : Type :=
| JNull
| JBool (b : bool)
| JInt (n : Z)
| JFloat (f : float)
| JString (s : string)
| JArray (l : list JSON)
| JObject (fields : list (string * JSON)).

(** The member [k] of an object. *)
Definition member (k : string) (j : JSON) : option JSON :=
  match j with
  | JObject fields =>
      option_map snd (List.find (fun kv => String.eqb (fst kv) k) fields)
  | _ => None
  end.

(** *** unicode/utf8, and the strings of encoding/json *)

(** The first byte of [s] is in [lo..hi]. *)
Definition byte_in (lo hi : N) (s : string) : bool :=
  match s with
  | String c _ => (lo <=? N_of_ascii c)%N && (N_of_ascii c <=? hi)%N
  | EmptyString => false
  end.

Definition tail (s : string) : string :=
  match s with String _ s' => s' | EmptyString => EmptyString end.

(** [utf8.DecodeRuneInString(s)] for a non-empty [s], as far as
    [encoding/json] looks at it: the size of the encoding [s] starts with,
    or [None] where the library returns [(RuneError, 1)]: the first byte is
    no start byte, or the bytes after it are missing or outside the ranges
    the start byte accepts (the table [first] and [acceptRanges]: 80..BF,
    but A0..BF after E0, 80..9F after ED, 90..BF after F0 and 80..8F after
    F4, so that overlong forms, surrogates and values above U+10FFFF are
    invalid). *)
Definition utf8_DecodeRune_size (s : string) : option nat :=
  match s with
  | EmptyString => None
  | String c s1 =>
      let p0 := N_of_ascii c in
      let s2 := tail s1 in
      let s3 := tail s2 in
      if (p0 <? 128)%N then Some 1%nat
      else if (p0 <? 194)%N then None
      else if (p0 <? 224)%N then
        if byte_in 128 191 s1 then Some 2%nat else None
      else if (p0 <? 240)%N then
        let lo := if (p0 =? 224)%N then 160%N else 128%N in
        let hi := if (p0 =? 237)%N then 159%N else 191%N in
        if byte_in lo hi s1 && byte_in 128 191 s2 then Some 3%nat else None
      else if (p0 <? 245)%N then
        let lo := if (p0 =? 240)%N then 144%N else 128%N in
        let hi := if (p0 =? 244)%N then 143%N else 191%N in
        if byte_in lo hi s1 && byte_in 128 191 s2 && byte_in 128 191 s3
        then Some 4%nat else None
      else None
  end.

(** [utf8.ValidString(s)], with [skip] bytes of the current encoding still
    to pass over. *)
Fixpoint utf8_Valid_from (skip : nat) (s : string) : bool :=
  match s with
  | EmptyString => true
  | String _ s' =>
      match skip with
      | S n => utf8_Valid_from n s'
      | O =>
          match utf8_DecodeRune_size s with
          | Some size => utf8_Valid_from (Nat.pred size) s'
          | None => false
          end
      end
  end.

Definition utf8_ValidString (s : string) : bool := utf8_Valid_from 0 s.

(** U+FFFD, the replacement character, in UTF-8. *)
Definition replacement : string := bs [239; 191; 189]%nat.

(** The string value [json.Marshal] writes for the Go string [s] (the loop
    of [appendString]): the bytes of every valid encoding as they are, and
    U+FFFD for every byte that starts none.  The escapes of the JSON text
    (quotes, control characters, the HTML characters, U+2028 and U+2029)
    do not change the value and are not modelled. *)
Fixpoint json_string_from (copy : nat) (s : string) : string :=
  match s with
  | EmptyString => EmptyString
  | String c s' =>
      match copy with
      | S n => String c (json_string_from n s')
      | O =>
          match utf8_DecodeRune_size s with
          | Some size => String c (json_string_from (Nat.pred size) s')
          | None => replacement +:+ json_string_from 0 s'
          end
      end
  end.

Definition json_string (s : string) : string := json_string_from 0 s.

(** [json.Marshal] of a [string]. *)
Definition Marshal_string (s : string) : JSON := JString (json_string s).

(** [json.Marshal] of a [float64]: NaN and the infinities are an
    [UnsupportedValueError]. *)
Definition Marshal_float64 (f : float) : result JSON :=
  if PrimFloat.is_nan f then Err (errorString "json: unsupported value: NaN")
  else if PrimFloat.is_infinity f then
    Err (errorString (if PrimFloat.ltb f 0 then "json: unsupported value: -Inf"
                      else "json: unsupported value: +Inf"))
  else Ok (JFloat f).

(** A struct field with its tag: [None] when [omitempty] leaves it
    out. *)
Definition field : Type := result (option (string * JSON)).

Definition always (k : string) (j : JSON) : field := Ok (Some (k, j)).
Definition omitempty (k : string) (empty : bool) (j : JSON) : field :=
  Ok (if empty then None else Some (k, j)).
Definition omitempty_ptr {A : Type} (k : string) (enc : A -> result JSON)
  (p : option A) : field :=
  match p with
  | None => Ok None
  | Some v => match enc v with Ok j => Ok (Some (k, j)) | Err e => Err e end
  end.
Definition omitempty_float64 (k : string) (f : float) : field :=
  if PrimFloat.eqb f 0 then Ok None
  else match Marshal_float64 f with Ok j => Ok (Some (k, j)) | Err e => Err e end.

(** The fields of a struct in declaration order; the first field that
    cannot be encoded fails the whole value. *)
Fixpoint fields (l : list field) : result (list (string * JSON)) :=
  match l with
  | [] => Ok []
  | Err e :: _ => Err e
  | Ok o :: l' =>
      match fields l' with
      | Err e => Err e
      | Ok r => Ok (match o with Some kv => kv :: r | None => r end)
      end
  end.

Definition object (l : list field) : result JSON :=
  match fields l with Ok r => Ok (JObject r) | Err e => Err e end.

Fixpoint array (l : list (result JSON)) : result (list JSON) :=
  match l with
  | [] => Ok []
  | Err e :: _ => Err e
  | Ok j :: l' => match array l' with Ok r => Ok (j :: r) | Err e => Err e end
  end.

(** [json.Unmarshal(data, &v)] for a target type [T]: the decoder of the
    standard library is taken as given. *)
Class Unmarshal (T : Type) : Type := json_Unmarshal : string -> result T.

(** *** net/http, time *)

Record Request : Type := {
  Method : string;
  URL : string;
  Header : list (string * string);
  Body : JSON
}.

Definition Header_Set (r : Request) (k v : string) : Request :=
  {| Method := Method r; URL := URL r;
     Header := List.filter (fun kv => negb (String.eqb (fst kv) k)) (Header r) ++ [(k, v)];
     Body := Body r |}.

Record Response : Type := {
  StatusCode : Z;
  Status : string;
  RespBody : Conn
}.

Definition StatusOK : Z := 200.

(** The world outside the process: the requests handed to
    [http.Client.Do] so far, how the network answers a request given the
    ones before it, whether [url.Parse] accepts a URL, and the clock (its
    reading at the n-th call of [time.Now], in nanoseconds since the
    epoch). *)
Record World : Type := {
  sent : list Request;
  respond : list Request -> Request -> result Response;
  url_error : string -> option error;
  clock : nat -> Z;
  ticks : nat
}.

(** Effectful code: a state transformer over the world. *)
Definition M (A : Type) : Type := World -> A * World.

Definition ret {A : Type} (a : A) : M A := fun w => (a, w).
Definition bind {A B : Type} (m : M A) (k : A -> M B) : M B :=
  fun w => let '(a, w') := m w in k a w'.

(** [http.NewRequestWithContext(ctx, method, url, body)] *)
Definition NewRequestWithContext (method url : string) (body : JSON)
  : M (result Request) :=
  fun w =>
    match url_error w url with
    | Some e => (Err e, w)
    | None => (Ok {| Method := method; URL := url; Header := []; Body := body |}, w)
    end.

(** [client.Do(req)] *)
Definition Client_Do (req : Request) : M (result Response) :=
  fun w =>
    (respond w (sent w) req,
     {| sent := sent w ++ [req]; respond := respond w;
        url_error := url_error w; clock := clock w; ticks := ticks w |}).

(** [time.Now()], as nanoseconds since the epoch. *)
Definition time_Now : M Z :=
  fun w =>
    (clock w (ticks w),
     {| sent := sent w; respond := respond w;
        url_error := url_error w; clock := clock w; ticks := S (ticks w) |}).

Definition Unix (t : Z) : Z := t / 1000000000.
Definition UnixNano (t : Z) : Z := t.

(** [fmt.Sprintf("%d", n)] *)
Definition itoa (n : Z) : string := pretty n.

End go.

Export go (error, io_EOF, errorString, wrapError, result, Ok, Err).

Declare Scope go_scope.
Delimit Scope go_scope with go.
Notation "x <- m ;; k" := (go.bind m (fun x => k))
  (at level 100, m at next level, right associativity) : go_scope.


(** ** Package llm: the canonical model, the registry, option application *)

Module llm.

Module Message.
Record t : Type := { Role : string; Content : string }.
End Message.

Module CompletionRequest.
Record t : Type := {
  Model : string;
  Messages : list Message.t;
  Temperature : option float;
  MaxTokens : option Z;
  TopP : option float;
  FrequencyPenalty : option float;
  PresencePenalty : option float;
  Stop : list string;
  Stream : bool;
  LogitBias : gmap string Z;
  User : string;
  (** a [map[string]interface{}]; [None] is the nil map, which the
      adapters tell apart from an empty one *)
  ExtraParams : option (gmap string go.any)
}.
End CompletionRequest.

Module CompletionChoice.
Record t : Type := {
  Index : Z;
  Message : Message.t;
  FinishReason : string
}.
End CompletionChoice.

Module CompletionUsage.
Record t : Type := {
  PromptTokens : Z;
  CompletionTokens : Z;
  TotalTokens : Z
}.
End CompletionUsage.

Module CompletionResponse.
Record t : Type := {
  ID : string;
  Object : string;
  Created : Z;
  Model : string;
  Choices : list CompletionChoice.t;
  Usage : CompletionUsage.t;
  SystemFingerprint : string;
  Provider : string;
  RawResponse : go.any
}.
End CompletionResponse.

(** [type CompletionOption]: a function on a pointer to the request;
    here the request it is given, as the function leaves it. *)
Definition CompletionOption : Type := CompletionRequest.t -> CompletionRequest.t.

(** [interface ResponseStream]: an object with a state of its own; [Recv]
    returns the object as the call leaves it.  [Close] only releases the
    connection and is not modelled. *)
Module ResponseStream.
Record t : Type := {
  state : Type;
  self : state;
  Recv : state -> go.M (result CompletionResponse.t * state)
}.
End ResponseStream.

(** [interface Provider] *)
Module Provider.
Record t : Type := {
  Completion : CompletionRequest.t -> go.M (result CompletionResponse.t);
  CompletionStream : CompletionRequest.t -> go.M (result ResponseStream.t);
  Name : string;
  SupportsModel : string -> bool
}.
End Provider.

(** The process-wide table [registeredProviders], passed explicitly. *)
Abbreviation Registry := (gmap string Provider.t).

Definition RegisterProvider (provider : Provider.t) (registeredProviders : Registry)
  : Registry :=
  <[Provider.Name provider := provider]> registeredProviders.

Definition GetProvider (registeredProviders : Registry) (name : string)
  : option Provider.t :=
  registeredProviders !! name.

(** The order of the names is Go's map iteration order, which is not
    specified; here it is the order of [map_to_list]. *)
Definition ListProviders (registeredProviders : Registry) : list string :=
  (map_to_list registeredProviders).*1.

Definition parseModelIdentifier (modelID : string) : result (string * string) :=
  match go.strings_SplitN modelID "/" 2 with
  | [provider; model] => Ok (provider, model)
  | _ =>
      Err (errorString ("invalid model identifier: " +:+ modelID
                        +:+ ", expected format 'provider/model'"))
  end.

Definition getProviderForModel (registeredProviders : Registry) (modelID : string)
  : result (Provider.t * string) :=
  match parseModelIdentifier modelID with
  | Err err => Err err
  | Ok (providerName, modelName) =>
      match registeredProviders !! providerName with
      | None => Err (errorString ("provider not found: " +:+ providerName))
      | Some provider =>
          if negb (Provider.SupportsModel provider modelName) then
            Err (errorString ("model " +:+ modelName +:+ " not supported by provider "
                              +:+ providerName))
          else Ok (provider, modelName)
      end
  end.

(** [&CompletionRequest{Model: modelName, Messages: messages, Stream: stream}] *)
Definition newRequest (modelName : string) (messages : list Message.t) (stream : bool)
  : CompletionRequest.t :=
  {| CompletionRequest.Model := modelName;
     CompletionRequest.Messages := messages;
     CompletionRequest.Temperature := None;
     CompletionRequest.MaxTokens := None;
     CompletionRequest.TopP := None;
     CompletionRequest.FrequencyPenalty := None;
     CompletionRequest.PresencePenalty := None;
     CompletionRequest.Stop := [];
     CompletionRequest.Stream := stream;
     CompletionRequest.LogitBias := ∅;
     CompletionRequest.User := "";
     CompletionRequest.ExtraParams := None |}.

(** [for _, opt := range opts { opt(req) }] *)
Definition applyOptions (opts : list CompletionOption) (req : CompletionRequest.t)
  : CompletionRequest.t :=
  fold_left (fun req opt => opt req) opts req.

Definition Completion (registeredProviders : Registry) (modelID : string)
  (messages : list Message.t) (opts : list CompletionOption)
  : go.M (result CompletionResponse.t) :=
  match getProviderForModel registeredProviders modelID with
  | Err err => go.ret (Err err)
  | Ok (provider, modelName) =>
      let req := newRequest modelName messages false in
      let req := applyOptions opts req in
      Provider.Completion provider req
  end.

Definition CompletionStream (registeredProviders : Registry) (modelID : string)
  (messages : list Message.t) (opts : list CompletionOption)
  : go.M (result ResponseStream.t) :=
  match getProviderForModel registeredProviders modelID with
  | Err err => go.ret (Err err)
  | Ok (provider, modelName) =>
      let req := newRequest modelName messages true in
      let req := applyOptions opts req in
      Provider.CompletionStream provider req
  end.

Definition WithTemperature (temp : float) : CompletionOption :=
  fun req =>
    {| CompletionRequest.Model := CompletionRequest.Model req;
       CompletionRequest.Messages := CompletionRequest.Messages req;
       CompletionRequest.Temperature := Some temp;
       CompletionRequest.MaxTokens := CompletionRequest.MaxTokens req;
       CompletionRequest.TopP := CompletionRequest.TopP req;
       CompletionRequest.FrequencyPenalty := CompletionRequest.FrequencyPenalty req;
       CompletionRequest.PresencePenalty := CompletionRequest.PresencePenalty req;
       CompletionRequest.Stop := CompletionRequest.Stop req;
       CompletionRequest.Stream := CompletionRequest.Stream req;
       CompletionRequest.LogitBias := CompletionRequest.LogitBias req;
       CompletionRequest.User := CompletionRequest.User req;
       CompletionRequest.ExtraParams := CompletionRequest.ExtraParams req |}.

Definition WithMaxTokens (tokens : Z) : CompletionOption :=
  fun req =>
    {| CompletionRequest.Model := CompletionRequest.Model req;
       CompletionRequest.Messages := CompletionRequest.Messages req;
       CompletionRequest.Temperature := CompletionRequest.Temperature req;
       CompletionRequest.MaxTokens := Some tokens;
       CompletionRequest.TopP := CompletionRequest.TopP req;
       CompletionRequest.FrequencyPenalty := CompletionRequest.FrequencyPenalty req;
       CompletionRequest.PresencePenalty := CompletionRequest.PresencePenalty req;
       CompletionRequest.Stop := CompletionRequest.Stop req;
       CompletionRequest.Stream := CompletionRequest.Stream req;
       CompletionRequest.LogitBias := CompletionRequest.LogitBias req;
       CompletionRequest.User := CompletionRequest.User req;
       CompletionRequest.ExtraParams := CompletionRequest.ExtraParams req |}.

Definition WithTopP (topP : float) : CompletionOption :=
  fun req =>
    {| CompletionRequest.Model := CompletionRequest.Model req;
       CompletionRequest.Messages := CompletionRequest.Messages req;
       CompletionRequest.Temperature := CompletionRequest.Temperature req;
       CompletionRequest.MaxTokens := CompletionRequest.MaxTokens req;
       CompletionRequest.TopP := Some topP;
       CompletionRequest.FrequencyPenalty := CompletionRequest.FrequencyPenalty req;
       CompletionRequest.PresencePenalty := CompletionRequest.PresencePenalty req;
       CompletionRequest.Stop := CompletionRequest.Stop req;
       CompletionRequest.Stream := CompletionRequest.Stream req;
       CompletionRequest.LogitBias := CompletionRequest.LogitBias req;
       CompletionRequest.User := CompletionRequest.User req;
       CompletionRequest.ExtraParams := CompletionRequest.ExtraParams req |}.

Definition WithUser (user : string) : CompletionOption :=
  fun req =>
    {| CompletionRequest.Model := CompletionRequest.Model req;
       CompletionRequest.Messages := CompletionRequest.Messages req;
       CompletionRequest.Temperature := CompletionRequest.Temperature req;
       CompletionRequest.MaxTokens := CompletionRequest.MaxTokens req;
       CompletionRequest.TopP := CompletionRequest.TopP req;
       CompletionRequest.FrequencyPenalty := CompletionRequest.FrequencyPenalty req;
       CompletionRequest.PresencePenalty := CompletionRequest.PresencePenalty req;
       CompletionRequest.Stop := CompletionRequest.Stop req;
       CompletionRequest.Stream := CompletionRequest.Stream req;
       CompletionRequest.LogitBias := CompletionRequest.LogitBias req;
       CompletionRequest.User := user;
       CompletionRequest.ExtraParams := CompletionRequest.ExtraParams req |}.

(** The bag is created when it is nil, then every entry of [params] is
    stored into it: an entry of [params] replaces an entry with the same
    key, every other entry of the bag stays.  ([∪] keeps the left entry
    where both maps have the key.) *)
Definition WithExtraParams (params : gmap string go.any) : CompletionOption :=
  fun req =>
    let bag := match CompletionRequest.ExtraParams req with
               | None => ∅
               | Some m => m
               end in
    {| CompletionRequest.Model := CompletionRequest.Model req;
       CompletionRequest.Messages := CompletionRequest.Messages req;
       CompletionRequest.Temperature := CompletionRequest.Temperature req;
       CompletionRequest.MaxTokens := CompletionRequest.MaxTokens req;
       CompletionRequest.TopP := CompletionRequest.TopP req;
       CompletionRequest.FrequencyPenalty := CompletionRequest.FrequencyPenalty req;
       CompletionRequest.PresencePenalty := CompletionRequest.PresencePenalty req;
       CompletionRequest.Stop := CompletionRequest.Stop req;
       CompletionRequest.Stream := CompletionRequest.Stream req;
       CompletionRequest.LogitBias := CompletionRequest.LogitBias req;
       CompletionRequest.User := CompletionRequest.User req;
       CompletionRequest.ExtraParams := Some (params ∪ bag) |}.

End llm.


(** *** The options, listed

    The five options the package offers, the field each one writes, and a
    uniform way to read a field of a request: what the statements about
    option application quantify over. *)

Module options.

Inductive Field : Type :=
| Model | Messages | Temperature | MaxTokens | TopP | FrequencyPenalty
| PresencePenalty | Stop | Stream | LogitBias | User | ExtraParams.

Definition content (f : Field) : Type :=
  match f with
  | Model => string
  | Messages => list llm.Message.t
  | Temperature => option float
  | MaxTokens => option Z
  | TopP => option float
  | FrequencyPenalty => option float
  | PresencePenalty => option float
  | Stop => list string
  | Stream => bool
  | LogitBias => gmap string Z
  | User => string
  | ExtraParams => option (gmap string go.any)
  end.

Definition get (f : Field) (req : llm.CompletionRequest.t) : content f :=
  match f with
  | Model => llm.CompletionRequest.Model req
  | Messages => llm.CompletionRequest.Messages req
  | Temperature => llm.CompletionRequest.Temperature req
  | MaxTokens => llm.CompletionRequest.MaxTokens req
  | TopP => llm.CompletionRequest.TopP req
  | FrequencyPenalty => llm.CompletionRequest.FrequencyPenalty req
  | PresencePenalty => llm.CompletionRequest.PresencePenalty req
  | Stop => llm.CompletionRequest.Stop req
  | Stream => llm.CompletionRequest.Stream req
  | LogitBias => llm.CompletionRequest.LogitBias req
  | User => llm.CompletionRequest.User req
  | ExtraParams => llm.CompletionRequest.ExtraParams req
  end.

Inductive t : Type :=
| WithTemperature (temp : float)
| WithMaxTokens (tokens : Z)
| WithTopP (topP : float)
| WithUser (user : string)
| WithExtraParams (params : gmap string go.any).

Definition apply (o : t) : llm.CompletionOption :=
  match o with
  | WithTemperature temp => llm.WithTemperature temp
  | WithMaxTokens tokens => llm.WithMaxTokens tokens
  | WithTopP topP => llm.WithTopP topP
  | WithUser user => llm.WithUser user
  | WithExtraParams params => llm.WithExtraParams params
  end.

Definition owns (o : t) : Field :=
  match o with
  | WithTemperature _ => Temperature
  | WithMaxTokens _ => MaxTokens
  | WithTopP _ => TopP
  | WithUser _ => User
  | WithExtraParams _ => ExtraParams
  end.

(** What the option stores in the field it owns, given the request it is
    applied to. *)
Definition writes (o : t) (req : llm.CompletionRequest.t) : content (owns o) :=
  match o with
  | WithTemperature temp => Some temp
  | WithMaxTokens tokens => Some tokens
  | WithTopP topP => Some topP
  | WithUser user => user
  | WithExtraParams params =>
      Some (params ∪ default ∅ (llm.CompletionRequest.ExtraParams req))
  end.

(** "The later application overrides the earlier one": after both, the
    request is what the later one alone leaves. *)
Definition overrides (later earlier : llm.CompletionOption) : Prop :=
  forall req, later (earlier req) = later req.

End options.


(** ** Server-sent events: the line reader of the three adapters

    Each adapter package declares the same [bufReader] with the same
    [ReadLine], word for word; it is embedded once. *)

Module bufReader.

Record t : Type := {
  reader : go.Conn;   (** the open HTTP body *)
  buf : string        (** the [bytes.Buffer] *)
}.

Definition newBufReader (reader : go.Conn) : t :=
  {| reader := reader; buf := "" |}.

(** One turn of the loop reads a line from the buffer and returns it when
    it ends in a line feed.  Otherwise [ReadBytes] has emptied the buffer
    into [line], and the connection is read once: an error other than
    [io.EOF] is returned; when no byte came, [line] is returned if it is
    not empty and [io.EOF] otherwise; and when bytes came they are written
    to the (empty) buffer and the loop turns again, with a [line] of its
    own: an unfinished line taken from the buffer is dropped.  The loop
    turns once per [Read] at most, so it recurses on the connection. *)
Fixpoint ReadLine_loop (conn : go.Conn) (buf : string) : result string * t :=
  let '(line, found, buf') := go.Buffer_ReadBytes buf go.LF in
  if found then (Ok (go.bytes_TrimSpace line), {| reader := conn; buf := buf' |})
  else
    let at_end (conn' : go.Conn) : result string * t :=
      (if (0 <? String.length line)%nat then Ok (go.bytes_TrimSpace line)
       else Err io_EOF,
       {| reader := conn'; buf := buf' |}) in
    match conn with
    | [] => at_end []
    | r :: conn' =>
        match go.rd_err r with
        | Some (errorString _ as err) | Some (wrapError _ _ as err) =>
            (Err err, {| reader := conn'; buf := buf' |})
        | Some io_EOF | None =>
            if (String.length (go.rd_data r) =? 0)%nat then at_end conn'
            else ReadLine_loop conn' (buf' +:+ go.rd_data r)
        end
    end.

Definition ReadLine (b : t) : result string * t :=
  ReadLine_loop (reader b) (buf b).

(** The bytes a connection still holds, one more per read. *)
Definition pending (conn : go.Conn) : nat :=
  list_sum (List.map (fun r => S (String.length (go.rd_data r))) conn).

(** What is left to read: a bound on the number of lines [ReadLine] can
    still return. *)
Definition left (b : t) : nat := (String.length (buf b) + pending (reader b))%nat.

End bufReader.

(** ** Package providers/anthropic *)

Module anthropic.

Definition defaultAPIEndpoint : string := "https://api.anthropic.com/v1/messages".
Definition defaultAPIVersion : string := "2023-06-01".

(** The [client] field, an [http.Client], is the [go.World]. *)
Module Provider.
Record t : Type := {
  apiKey : string;
  apiVersion : string;
  endpoint : string;
  modelList : list string
}.
End Provider.

Definition NewProviderWithKey (apiKey : string) : Provider.t :=
  {| Provider.apiKey := apiKey;
     Provider.apiVersion := defaultAPIVersion;
     Provider.endpoint := defaultAPIEndpoint;
     Provider.modelList :=
       [ "claude-3-7-sonnet-20250219"; "claude-3-opus-20240229";
         "claude-3-sonnet-20240229"; "claude-3-haiku-20240307";
         "claude-2.1"; "claude-2.0"; "claude-instant-1.2" ] |}.

(** [os.Getenv] gives the empty string for a variable that is not set. *)
Definition NewProvider (environ : gmap string string) : Provider.t :=
  NewProviderWithKey (default "" (environ !! "ANTHROPIC_API_KEY")).

Definition Name (p : Provider.t) : string := "anthropic".

Definition SupportsModel (p : Provider.t) (model : string) : bool :=
  existsb (fun m => String.eqb m model) (Provider.modelList p).

Module anthropicMessage.
Record t : Type := { Role : string; Content : string }.
End anthropicMessage.

Module anthropicRequest.
Record t : Type := {
  Model : string;
  Messages : list anthropicMessage.t;
  System : string;
  MaxTokens : Z;
  Temperature : float;
  TopP : float;
  Stream : bool;
  StopSequences : list string
}.
End anthropicRequest.

Module anthropicResponseContent.
Record t : Type := { Type_ : string; Text : string }.
End anthropicResponseContent.

Module anthropicUsage.
Record t : Type := { InputTokens : Z; OutputTokens : Z }.
End anthropicUsage.

Module anthropicResponse.
Record t : Type := {
  ID : string;
  Type_ : string;
  Role : string;
  Content : list anthropicResponseContent.t;
  Model : string;
  StopReason : string;
  StopSequence : string;
  Usage : anthropicUsage.t
}.
End anthropicResponse.

Definition convertMessages (messages : list llm.Message.t)
  : list anthropicMessage.t * string :=
  fold_left
    (fun '((anthropicMessages, system) : list anthropicMessage.t * string) msg =>
       if String.eqb (llm.Message.Role msg) "system" then
         (anthropicMessages, llm.Message.Content msg)
       else
         let role := llm.Message.Role msg in
         let role := if String.eqb role "assistant" then "assistant" else "user" in
         ((anthropicMessages
             ++ [ {| anthropicMessage.Role := role;
                     anthropicMessage.Content := llm.Message.Content msg |} ])%list,
          system))
    messages ([], "").

(** The [anthropicRequest] that [Completion] ([stream = false]) and
    [CompletionStream] ([stream = true]) build, each with the same
    statements. *)
Definition newAnthropicRequest (req : llm.CompletionRequest.t) (stream : bool)
  : anthropicRequest.t :=
  let '(messages, system) := convertMessages (llm.CompletionRequest.Messages req) in
  {| anthropicRequest.Model := llm.CompletionRequest.Model req;
     anthropicRequest.Messages := messages;
     anthropicRequest.System := system;
     anthropicRequest.Stream := stream;
     anthropicRequest.MaxTokens :=
       match llm.CompletionRequest.MaxTokens req with
       | Some tokens => tokens
       | None => 4096
       end;
     anthropicRequest.Temperature :=
       match llm.CompletionRequest.Temperature req with
       | Some temp => temp
       | None => 0%float
       end;
     anthropicRequest.TopP :=
       match llm.CompletionRequest.TopP req with
       | Some topP => topP
       | None => 0%float
       end;
     anthropicRequest.StopSequences := llm.CompletionRequest.Stop req |}.

(** [json.Marshal(anthropicReq)], by the tags of the struct. *)
Definition Marshal_anthropicMessage (m : anthropicMessage.t) : result go.JSON :=
  go.object
    [ go.always "role" (go.Marshal_string (anthropicMessage.Role m));
      go.always "content" (go.Marshal_string (anthropicMessage.Content m)) ].

Definition Marshal_anthropicRequest (r : anthropicRequest.t) : result go.JSON :=
  match go.array (List.map Marshal_anthropicMessage (anthropicRequest.Messages r)) with
  | Err e => Err e
  | Ok messages =>
      go.object
        [ go.always "model" (go.Marshal_string (anthropicRequest.Model r));
          go.always "messages" (go.JArray messages);
          go.omitempty "system" (String.eqb (anthropicRequest.System r) "")
            (go.Marshal_string (anthropicRequest.System r));
          go.omitempty "max_tokens" (Z.eqb (anthropicRequest.MaxTokens r) 0)
            (go.JInt (anthropicRequest.MaxTokens r));
          go.omitempty_float64 "temperature" (anthropicRequest.Temperature r);
          go.omitempty_float64 "top_p" (anthropicRequest.TopP r);
          go.omitempty "stream" (negb (anthropicRequest.Stream r))
            (go.JBool (anthropicRequest.Stream r));
          go.omitempty "stop_sequences"
            (match anthropicRequest.StopSequences r with [] => true | _ => false end)
            (go.JArray (List.map go.Marshal_string (anthropicRequest.StopSequences r))) ]
  end.

(** The HTTP request of both calls; [net/http] stores the header names in
    canonical form, they are kept here as the code writes them. *)
Definition setHeaders (p : Provider.t) (stream : bool) (httpReq : go.Request) : go.Request :=
  let httpReq := go.Header_Set httpReq "Content-Type" "application/json" in
  let httpReq := go.Header_Set httpReq "x-api-key" (Provider.apiKey p) in
  let httpReq := go.Header_Set httpReq "anthropic-version" (Provider.apiVersion p) in
  if stream then go.Header_Set httpReq "Accept" "text/event-stream" else httpReq.

Definition apiError (resp : go.Response) (body : string) : error :=
  errorString ("Anthropic API returned error: " +:+ go.Status resp +:+ " - " +:+ body).

(** [for _, c := range anthropicResp.Content { if c.Type == "text" { content += c.Text } }] *)
Definition textOf (content : list anthropicResponseContent.t) : string :=
  fold_left
    (fun content c =>
       if String.eqb (anthropicResponseContent.Type_ c) "text"
       then content +:+ anthropicResponseContent.Text c else content)
    content "".

Section Completion.
Context `{!go.Unmarshal anthropicResponse.t}.

Definition Completion (p : Provider.t) (req : llm.CompletionRequest.t)
  : go.M (result llm.CompletionResponse.t) :=
  if String.eqb (Provider.apiKey p) "" then
    go.ret (Err (errorString "Anthropic API key not set"))
  else
    let anthropicReq := newAnthropicRequest req false in
    match Marshal_anthropicRequest anthropicReq with
    | Err err => go.ret (Err (wrapError "failed to marshal request: " err))
    | Ok reqBody =>
        (r <- go.NewRequestWithContext "POST" (Provider.endpoint p) reqBody ;;
         match r with
         | Err err => go.ret (Err (wrapError "failed to create request: " err))
         | Ok httpReq =>
             let httpReq := setHeaders p false httpReq in
             r <- go.Client_Do httpReq ;;
             match r with
             | Err err => go.ret (Err (wrapError "failed to send request: " err))
             | Ok resp =>
                 match go.io_ReadAll (go.RespBody resp) with
                 | (_, Some err) =>
                     go.ret (Err (wrapError "failed to read response body: " err))
                 | (body, None) =>
                     if negb (Z.eqb (go.StatusCode resp) go.StatusOK) then
                       go.ret (Err (apiError resp body))
                     else
                       match go.json_Unmarshal body with
                       | Err err =>
                           go.ret (Err (wrapError "failed to parse response: " err))
                       | Ok anthropicResp =>
                           let content := textOf (anthropicResponse.Content anthropicResp) in
                           now <- go.time_Now ;;
                           go.ret (Ok
                             {| llm.CompletionResponse.ID := anthropicResponse.ID anthropicResp;
                                llm.CompletionResponse.Object := "chat.completion";
                                llm.CompletionResponse.Created := go.Unix now;
                                llm.CompletionResponse.Model :=
                                  anthropicResponse.Model anthropicResp;
                                llm.CompletionResponse.SystemFingerprint := "";
                                llm.CompletionResponse.Provider := Name p;
                                llm.CompletionResponse.RawResponse :=
                                  go.any_struct anthropicResp;
                                llm.CompletionResponse.Usage :=
                                  let usage := anthropicResponse.Usage anthropicResp in
                                  {| llm.CompletionUsage.PromptTokens :=
                                       anthropicUsage.InputTokens usage;
                                     llm.CompletionUsage.CompletionTokens :=
                                       anthropicUsage.OutputTokens usage;
                                     llm.CompletionUsage.TotalTokens :=
                                       go.int_add (anthropicUsage.InputTokens usage)
                                         (anthropicUsage.OutputTokens usage) |};
                                llm.CompletionResponse.Choices :=
                                  [ {| llm.CompletionChoice.Index := 0;
                                       llm.CompletionChoice.Message :=
                                         {| llm.Message.Role := "assistant";
                                            llm.Message.Content := content |};
                                       llm.CompletionChoice.FinishReason :=
                                         anthropicResponse.StopReason anthropicResp |} ] |})
                       end
                 end
             end
         end)%go
    end.

End Completion.


(** *** The stream *)

Module AnthropicResponseStream.
Record t : Type := {
  reader : bufReader.t;
  provider : string;
  id : string;
  streamFinished : bool
}.

Definition with_reader (s : t) (rd : bufReader.t) : t :=
  {| reader := rd; provider := provider s; id := id s;
     streamFinished := streamFinished s |}.

Definition with_id (s : t) (i : string) : t :=
  {| reader := reader s; provider := provider s; id := i;
     streamFinished := streamFinished s |}.

Definition finished (s : t) : t :=
  {| reader := reader s; provider := provider s; id := id s;
     streamFinished := true |}.
End AnthropicResponseStream.

(** The two anonymous structs of [anthropicEvent]. *)
Module ContentBlock.
Record t : Type := { Type_ : string; Text : string }.
End ContentBlock.

Module Delta.
Record t : Type := { Type_ : string; Text : string; StopReason : string }.
End Delta.

Module anthropicEvent.
Record t : Type := {
  Type_ : string;
  Message : option anthropicResponse.t;
  ContentBlock : option ContentBlock.t;
  Delta : option Delta.t
}.
End anthropicEvent.

Section Stream.
Context `{!go.Unmarshal anthropicEvent.t}.

(** The [for] loop of [Recv]; [None] when [fuel] turns were not enough to
    leave it. *)
Fixpoint Recv_loop (fuel : nat) (s : AnthropicResponseStream.t)
  : go.M (option (result llm.CompletionResponse.t * AnthropicResponseStream.t)) :=
  match fuel with
  | O => go.ret None
  | S fuel' =>
      let '(r, rd) := bufReader.ReadLine (AnthropicResponseStream.reader s) in
      let s := AnthropicResponseStream.with_reader s rd in
      match r with
      | Err err => go.ret (Some (Err err, s))
      | Ok line =>
          if (String.length line =? 0)%nat then Recv_loop fuel' s
          else if negb (go.bytes_HasPrefix line "data: ") then Recv_loop fuel' s
          else
            let data := go.bytes_TrimPrefix line "data: " in
            if String.eqb data "[DONE]" then
              go.ret (Some (Err io_EOF, AnthropicResponseStream.finished s))
            else
              match go.json_Unmarshal data with
              | Err err =>
                  go.ret (Some (Err (wrapError "failed to parse stream event: " err), s))
              | Ok event =>
                  if String.eqb (anthropicEvent.Type_ event) "content_block_start"
                     || String.eqb (anthropicEvent.Type_ event) "content_block_delta"
                  then
                    let '(content, s) :=
                      match anthropicEvent.ContentBlock event with
                      | Some block => (ContentBlock.Text block, s)
                      | None =>
                          match anthropicEvent.Delta event with
                          | Some delta =>
                              (Delta.Text delta,
                               if negb (String.eqb (Delta.StopReason delta) "")
                               then AnthropicResponseStream.finished s else s)
                          | None => ("", s)
                          end
                      end in
                    (now <- go.time_Now ;;
                     go.ret (Some (Ok
                       {| llm.CompletionResponse.ID := AnthropicResponseStream.id s;
                          llm.CompletionResponse.Object := "chat.completion.chunk";
                          llm.CompletionResponse.Created := go.Unix now;
                          llm.CompletionResponse.Model := "";
                          llm.CompletionResponse.SystemFingerprint := "";
                          llm.CompletionResponse.Provider :=
                            AnthropicResponseStream.provider s;
                          llm.CompletionResponse.RawResponse := go.any_nil;
                          llm.CompletionResponse.Usage :=
                            {| llm.CompletionUsage.PromptTokens := 0;
                               llm.CompletionUsage.CompletionTokens := 0;
                               llm.CompletionUsage.TotalTokens := 0 |};
                          llm.CompletionResponse.Choices :=
                            [ {| llm.CompletionChoice.Index := 0;
                                 llm.CompletionChoice.Message :=
                                   {| llm.Message.Role := "assistant";
                                      llm.Message.Content := content |};
                                 llm.CompletionChoice.FinishReason := "" |} ] |}, s)))%go
                  else
                    match String.eqb (anthropicEvent.Type_ event) "message_start",
                          anthropicEvent.Message event with
                    | true, Some message =>
                        Recv_loop fuel'
                          (AnthropicResponseStream.with_id s (anthropicResponse.ID message))
                    | _, _ => Recv_loop fuel' s
                    end
              end
      end
  end.

(** [Recv]: the loop is given one turn more than there are lines left to
    read, which is enough ([anthropic_Recv_loop_returns]). *)
Definition Recv (s : AnthropicResponseStream.t)
  : go.M (result llm.CompletionResponse.t * AnthropicResponseStream.t) :=
  if AnthropicResponseStream.streamFinished s then go.ret (Err io_EOF, s)
  else
    fun w =>
      match Recv_loop (S (bufReader.left (AnthropicResponseStream.reader s))) s w with
      | (Some r, w') => (r, w')
      | (None, w') => ((Err io_EOF, s), w')
      end.

Definition CompletionStream (p : Provider.t) (req : llm.CompletionRequest.t)
  : go.M (result AnthropicResponseStream.t) :=
  if String.eqb (Provider.apiKey p) "" then
    go.ret (Err (errorString "Anthropic API key not set"))
  else
    let anthropicReq := newAnthropicRequest req true in
    match Marshal_anthropicRequest anthropicReq with
    | Err err => go.ret (Err (wrapError "failed to marshal request: " err))
    | Ok reqBody =>
        (r <- go.NewRequestWithContext "POST" (Provider.endpoint p) reqBody ;;
         match r with
         | Err err => go.ret (Err (wrapError "failed to create request: " err))
         | Ok httpReq =>
             let httpReq := setHeaders p true httpReq in
             r <- go.Client_Do httpReq ;;
             match r with
             | Err err => go.ret (Err (wrapError "failed to send request: " err))
             | Ok resp =>
                 if negb (Z.eqb (go.StatusCode resp) go.StatusOK) then
                   let '(body, _) := go.io_ReadAll (go.RespBody resp) in
                   go.ret (Err (apiError resp body))
                 else
                   go.ret (Ok
                     {| AnthropicResponseStream.reader :=
                          bufReader.newBufReader (go.RespBody resp);
                        AnthropicResponseStream.provider := Name p;
                        AnthropicResponseStream.id := "";
                        AnthropicResponseStream.streamFinished := false |})
             end
         end)%go
    end.

End Stream.

(** The adapter as a value of [llm.Provider], which is what [Initialize]
    registers. *)
Definition asProvider `{!go.Unmarshal anthropicResponse.t} `{!go.Unmarshal anthropicEvent.t}
  (p : Provider.t) : llm.Provider.t :=
  {| llm.Provider.Completion := Completion p;
     llm.Provider.CompletionStream := fun req =>
       (r <- CompletionStream p req ;;
        go.ret match r with
               | Err err => Err err
               | Ok s => Ok {| llm.ResponseStream.self := s;
                               llm.ResponseStream.Recv := Recv |}
               end)%go;
     llm.Provider.Name := Name p;
     llm.Provider.SupportsModel := SupportsModel p |}.

Definition Initialize `{!go.Unmarshal anthropicResponse.t} `{!go.Unmarshal anthropicEvent.t}
  (environ : gmap string string) (registeredProviders : llm.Registry) : llm.Registry :=
  llm.RegisterProvider (asProvider (NewProvider environ)) registeredProviders.

End anthropic.


(** ** Package providers/google *)

Module google.

Definition defaultAPIEndpoint : string :=
  "https://generativelanguage.googleapis.com/v1beta/models".

Module Provider.
Record t : Type := {
  apiKey : string;
  endpoint : string;
  modelList : list string
}.
End Provider.

Definition NewProviderWithKey (apiKey : string) : Provider.t :=
  {| Provider.apiKey := apiKey;
     Provider.endpoint := defaultAPIEndpoint;
     Provider.modelList :=
       [ "gemini-1.5-pro"; "gemini-1.5-flash"; "gemini-2.0-pro"; "gemini-2.0-flash" ] |}.

Definition NewProvider (environ : gmap string string) : Provider.t :=
  NewProviderWithKey (default "" (environ !! "GEMINI_API_KEY")).

Definition Name (p : Provider.t) : string := "google".

Definition SupportsModel (p : Provider.t) (model : string) : bool :=
  existsb (fun m => String.eqb m model) (Provider.modelList p).

Module geminiPart.
Record t : Type := { Text : string; Role : string }.
End geminiPart.

Module geminiContent.
Record t : Type := { Role : string; Parts : list geminiPart.t }.
End geminiContent.

(** The anonymous struct behind [GenerationConfig]. *)
Module GenerationConfig.
Record t : Type := {
  Temperature : option float;
  MaxOutputTokens : option Z;
  TopP : option float;
  TopK : option Z;
  StopSequences : list string
}.

Definition with_TopK (c : t) (topK : Z) : t :=
  {| Temperature := Temperature c; MaxOutputTokens := MaxOutputTokens c;
     TopP := TopP c; TopK := Some topK; StopSequences := StopSequences c |}.
End GenerationConfig.

Module SafetySetting.
Record t : Type := { Category : string; Threshold : string }.
End SafetySetting.

Module geminiRequest.
Record t : Type := {
  (** nil exactly when it is empty: it is only ever appended to *)
  Contents : list geminiContent.t;
  GenerationConfig : option GenerationConfig.t;
  SafetySettings : list SafetySetting.t;
  Stream : bool
}.
End geminiRequest.

Module geminiResponsePart.
Record t : Type := { Text : string }.
End geminiResponsePart.

Module geminiResponseContent.
Record t : Type := { Role : string; Parts : list geminiResponsePart.t }.
End geminiResponseContent.

Module geminiCandidate.
Record t : Type := {
  Content : geminiResponseContent.t;
  FinishReason : string;
  Index : Z
}.
End geminiCandidate.

Module geminiUsage.
Record t : Type := {
  PromptTokenCount : Z;
  CandidatesTokenCount : Z;
  TotalTokenCount : Z
}.
End geminiUsage.

Module geminiResponse.
Record t : Type := {
  Candidates : list geminiCandidate.t;
  (** an [interface{}] filled by the decoder: whatever JSON value came *)
  PromptFeedback : go.JSON;
  Usage : geminiUsage.t
}.
End geminiResponse.

Definition convertMessagesToGeminiFormat (messages : list llm.Message.t)
  : list geminiContent.t :=
  let systemMessage :=
    match List.find (fun msg => String.eqb (llm.Message.Role msg) "system") messages with
    | Some msg => llm.Message.Content msg
    | None => ""
    end in
  let geminiContents : list geminiContent.t :=
    if negb (String.eqb systemMessage "") then
      [ {| geminiContent.Role := "user";
           geminiContent.Parts :=
             [ {| geminiPart.Text := systemMessage; geminiPart.Role := "" |} ] |} ]
    else [] in
  fold_left
    (fun (geminiContents : list geminiContent.t) msg =>
       if String.eqb (llm.Message.Role msg) "system" then geminiContents
       else
         let role := llm.Message.Role msg in
         let role :=
           if String.eqb role "assistant" then "model"
           else if negb (String.eqb role "user") then "user"
           else role in
         (geminiContents
            ++ [ {| geminiContent.Role := role;
                    geminiContent.Parts :=
                      [ {| geminiPart.Text := llm.Message.Content msg;
                           geminiPart.Role := "" |} ] |} ])%list)
    messages geminiContents.

(** The [geminiRequest] of [Completion] ([stream = false]) and of
    [CompletionStream] ([stream = true]). *)
Definition newGeminiRequest (req : llm.CompletionRequest.t) (stream : bool)
  : geminiRequest.t :=
  let contents := convertMessagesToGeminiFormat (llm.CompletionRequest.Messages req) in
  let config :=
    {| GenerationConfig.Temperature := llm.CompletionRequest.Temperature req;
       GenerationConfig.MaxOutputTokens := llm.CompletionRequest.MaxTokens req;
       GenerationConfig.TopP := llm.CompletionRequest.TopP req;
       GenerationConfig.TopK := None;
       GenerationConfig.StopSequences := llm.CompletionRequest.Stop req |} in
  let config :=
    match llm.CompletionRequest.ExtraParams req with
    | Some extra =>
        match go.assert_int (extra !! "topK") with
        | Some topK => GenerationConfig.with_TopK config topK
        | None => config
        end
    | None => config
    end in
  {| geminiRequest.Contents := contents;
     geminiRequest.GenerationConfig := Some config;
     geminiRequest.SafetySettings := [];
     geminiRequest.Stream := stream |}.

Definition Marshal_geminiPart (p : geminiPart.t) : result go.JSON :=
  go.object
    [ go.omitempty "text" (String.eqb (geminiPart.Text p) "") (go.Marshal_string (geminiPart.Text p));
      go.omitempty "role" (String.eqb (geminiPart.Role p) "") (go.Marshal_string (geminiPart.Role p)) ].

Definition Marshal_geminiContent (c : geminiContent.t) : result go.JSON :=
  match go.array (List.map Marshal_geminiPart (geminiContent.Parts c)) with
  | Err e => Err e
  | Ok parts =>
      go.object
        [ go.omitempty "role" (String.eqb (geminiContent.Role c) "")
            (go.Marshal_string (geminiContent.Role c));
          go.always "parts" (go.JArray parts) ]
  end.

Definition Marshal_GenerationConfig (c : GenerationConfig.t) : result go.JSON :=
  go.object
    [ go.omitempty_ptr "temperature" go.Marshal_float64 (GenerationConfig.Temperature c);
      go.omitempty_ptr "maxOutputTokens" (fun n => Ok (go.JInt n))
        (GenerationConfig.MaxOutputTokens c);
      go.omitempty_ptr "topP" go.Marshal_float64 (GenerationConfig.TopP c);
      go.omitempty_ptr "topK" (fun n => Ok (go.JInt n)) (GenerationConfig.TopK c);
      go.omitempty "stopSequences"
        (match GenerationConfig.StopSequences c with [] => true | _ => false end)
        (go.JArray (List.map go.Marshal_string (GenerationConfig.StopSequences c))) ].

Definition Marshal_SafetySetting (x : SafetySetting.t) : result go.JSON :=
  go.object
    [ go.always "category" (go.Marshal_string (SafetySetting.Category x));
      go.always "threshold" (go.Marshal_string (SafetySetting.Threshold x)) ].

(** [contents] has no [omitempty]: the nil slice is written as [null]. *)
Definition Marshal_geminiRequest (r : geminiRequest.t) : result go.JSON :=
  match go.array (List.map Marshal_geminiContent (geminiRequest.Contents r)),
        go.array (List.map Marshal_SafetySetting (geminiRequest.SafetySettings r)) with
  | Err e, _ => Err e
  | Ok _, Err e => Err e
  | Ok contents, Ok safety =>
      go.object
        [ go.always "contents"
            (match contents with [] => go.JNull | _ => go.JArray contents end);
          go.omitempty_ptr "generationConfig" Marshal_GenerationConfig
            (geminiRequest.GenerationConfig r);
          go.omitempty "safetySettings" (match safety with [] => true | _ => false end)
            (go.JArray safety);
          go.omitempty "stream" (negb (geminiRequest.Stream r))
            (go.JBool (geminiRequest.Stream r)) ]
  end.

Definition apiError (resp : go.Response) (body : string) : error :=
  errorString ("Google API returned error: " +:+ go.Status resp +:+ " - " +:+ body).

(** [for _, part := range parts { content += part.Text }] *)
Definition textOf (parts : list geminiResponsePart.t) : string :=
  fold_left (fun content part => content +:+ geminiResponsePart.Text part) parts "".

Section Completion.
Context `{!go.Unmarshal geminiResponse.t}.

Definition Completion (p : Provider.t) (req : llm.CompletionRequest.t)
  : go.M (result llm.CompletionResponse.t) :=
  if String.eqb (Provider.apiKey p) "" then
    go.ret (Err (errorString "Google API key not set"))
  else
    let url := Provider.endpoint p +:+ "/" +:+ llm.CompletionRequest.Model req
               +:+ ":generateContent?key=" +:+ Provider.apiKey p in
    let geminiReq := newGeminiRequest req false in
    match Marshal_geminiRequest geminiReq with
    | Err err => go.ret (Err (wrapError "failed to marshal request: " err))
    | Ok reqBody =>
        (r <- go.NewRequestWithContext "POST" url reqBody ;;
         match r with
         | Err err => go.ret (Err (wrapError "failed to create request: " err))
         | Ok httpReq =>
             let httpReq := go.Header_Set httpReq "Content-Type" "application/json" in
             r <- go.Client_Do httpReq ;;
             match r with
             | Err err => go.ret (Err (wrapError "failed to send request: " err))
             | Ok resp =>
                 match go.io_ReadAll (go.RespBody resp) with
                 | (_, Some err) =>
                     go.ret (Err (wrapError "failed to read response body: " err))
                 | (body, None) =>
                     if negb (Z.eqb (go.StatusCode resp) go.StatusOK) then
                       go.ret (Err (apiError resp body))
                     else
                       match go.json_Unmarshal body with
                       | Err err =>
                           go.ret (Err (wrapError "failed to parse response: " err))
                       | Ok geminiResp =>
                           if (List.length (geminiResponse.Candidates geminiResp) =? 0)%nat
                           then
                             go.ret (Err (errorString
                               "Google API returned no completion candidates"))
                           else
                             now1 <- go.time_Now ;;
                             now2 <- go.time_Now ;;
                             go.ret (Ok
                               {| llm.CompletionResponse.ID :=
                                    "google-" +:+ go.itoa (go.UnixNano now1);
                                  llm.CompletionResponse.Object := "chat.completion";
                                  llm.CompletionResponse.Created := go.Unix now2;
                                  llm.CompletionResponse.Model :=
                                    llm.CompletionRequest.Model req;
                                  llm.CompletionResponse.SystemFingerprint := "";
                                  llm.CompletionResponse.Provider := Name p;
                                  llm.CompletionResponse.RawResponse :=
                                    go.any_struct geminiResp;
                                  llm.CompletionResponse.Usage :=
                                    let usage := geminiResponse.Usage geminiResp in
                                    {| llm.CompletionUsage.PromptTokens :=
                                         geminiUsage.PromptTokenCount usage;
                                       llm.CompletionUsage.CompletionTokens :=
                                         geminiUsage.CandidatesTokenCount usage;
                                       llm.CompletionUsage.TotalTokens :=
                                         geminiUsage.TotalTokenCount usage |};
                                  llm.CompletionResponse.Choices :=
                                    List.map
                                      (fun candidate =>
                                         {| llm.CompletionChoice.Index :=
                                              geminiCandidate.Index candidate;
                                            llm.CompletionChoice.FinishReason :=
                                              geminiCandidate.FinishReason candidate;
                                            llm.CompletionChoice.Message :=
                                              {| llm.Message.Role := "assistant";
                                                 llm.Message.Content :=
                                                   textOf (geminiResponseContent.Parts
                                                     (geminiCandidate.Content candidate)) |} |})
                                      (geminiResponse.Candidates geminiResp) |})
                       end
                 end
             end
         end)%go
    end.

(** *** The stream *)

Record GeminiResponseStream : Type := {
  reader : bufReader.t;
  provider : string;
  streamFinished : bool
}.

Definition with_reader (s : GeminiResponseStream) (rd : bufReader.t) : GeminiResponseStream :=
  {| reader := rd; provider := provider s; streamFinished := streamFinished s |}.

Definition finished (s : GeminiResponseStream) : GeminiResponseStream :=
  {| reader := reader s; provider := provider s; streamFinished := true |}.

(** The [for] loop of [Recv]; [None] when [fuel] turns were not enough to
    leave it. *)
Fixpoint Recv_loop (fuel : nat) (s : GeminiResponseStream)
  : go.M (option (result llm.CompletionResponse.t * GeminiResponseStream)) :=
  match fuel with
  | O => go.ret None
  | S fuel' =>
      let '(r, rd) := bufReader.ReadLine (reader s) in
      let s := with_reader s rd in
      match r with
      | Err err => go.ret (Some (Err err, s))
      | Ok line =>
          if (String.length line =? 0)%nat then Recv_loop fuel' s
          else if negb (go.bytes_HasPrefix line "data: ") then Recv_loop fuel' s
          else
            let data := go.bytes_TrimPrefix line "data: " in
            if String.eqb data "[DONE]" then go.ret (Some (Err io_EOF, finished s))
            else
              match go.json_Unmarshal data with
              | Err _ =>
                  if go.strings_Contains data "finishReason" then
                    go.ret (Some (Err io_EOF, finished s))
                  else Recv_loop fuel' s
              | Ok chunkResp =>
                  match geminiResponse.Candidates chunkResp with
                  | [] => Recv_loop fuel' s
                  | candidate :: _ =>
                      let content :=
                        textOf (geminiResponseContent.Parts
                                  (geminiCandidate.Content candidate)) in
                      (now1 <- go.time_Now ;;
                       now2 <- go.time_Now ;;
                       go.ret (Some (Ok
                         {| llm.CompletionResponse.ID :=
                              "google-" +:+ go.itoa (go.UnixNano now1);
                            llm.CompletionResponse.Object := "chat.completion.chunk";
                            llm.CompletionResponse.Created := go.Unix now2;
                            llm.CompletionResponse.Model := "";
                            llm.CompletionResponse.SystemFingerprint := "";
                            llm.CompletionResponse.Provider := provider s;
                            llm.CompletionResponse.RawResponse := go.any_nil;
                            llm.CompletionResponse.Usage :=
                              {| llm.CompletionUsage.PromptTokens := 0;
                                 llm.CompletionUsage.CompletionTokens := 0;
                                 llm.CompletionUsage.TotalTokens := 0 |};
                            llm.CompletionResponse.Choices :=
                              [ {| llm.CompletionChoice.Index := 0;
                                   llm.CompletionChoice.Message :=
                                     {| llm.Message.Role := "assistant";
                                        llm.Message.Content := content |};
                                   llm.CompletionChoice.FinishReason :=
                                     geminiCandidate.FinishReason candidate |} ] |}, s)))%go
                  end
              end
      end
  end.

(** [Recv]: one turn more than there are lines left to read is enough
    ([google_Recv_loop_returns]). *)
Definition Recv (s : GeminiResponseStream)
  : go.M (result llm.CompletionResponse.t * GeminiResponseStream) :=
  if streamFinished s then go.ret (Err io_EOF, s)
  else
    fun w =>
      match Recv_loop (S (bufReader.left (reader s))) s w with
      | (Some r, w') => (r, w')
      | (None, w') => ((Err io_EOF, s), w')
      end.

Definition CompletionStream (p : Provider.t) (req : llm.CompletionRequest.t)
  : go.M (result GeminiResponseStream) :=
  if String.eqb (Provider.apiKey p) "" then
    go.ret (Err (errorString "Google API key not set"))
  else
    let url := Provider.endpoint p +:+ "/" +:+ llm.CompletionRequest.Model req
               +:+ ":streamGenerateContent?key=" +:+ Provider.apiKey p in
    let geminiReq := newGeminiRequest req true in
    match Marshal_geminiRequest geminiReq with
    | Err err => go.ret (Err (wrapError "failed to marshal request: " err))
    | Ok reqBody =>
        (r <- go.NewRequestWithContext "POST" url reqBody ;;
         match r with
         | Err err => go.ret (Err (wrapError "failed to create request: " err))
         | Ok httpReq =>
             let httpReq := go.Header_Set httpReq "Content-Type" "application/json" in
             let httpReq := go.Header_Set httpReq "Accept" "text/event-stream" in
             r <- go.Client_Do httpReq ;;
             match r with
             | Err err => go.ret (Err (wrapError "failed to send request: " err))
             | Ok resp =>
                 if negb (Z.eqb (go.StatusCode resp) go.StatusOK) then
                   let '(body, _) := go.io_ReadAll (go.RespBody resp) in
                   go.ret (Err (apiError resp body))
                 else
                   go.ret (Ok
                     {| reader := bufReader.newBufReader (go.RespBody resp);
                        provider := Name p;
                        streamFinished := false |})
             end
         end)%go
    end.

Definition asProvider (p : Provider.t) : llm.Provider.t :=
  {| llm.Provider.Completion := Completion p;
     llm.Provider.CompletionStream := fun req =>
       (r <- CompletionStream p req ;;
        go.ret match r with
               | Err err => Err err
               | Ok s => Ok {| llm.ResponseStream.self := s;
                               llm.ResponseStream.Recv := Recv |}
               end)%go;
     llm.Provider.Name := Name p;
     llm.Provider.SupportsModel := SupportsModel p |}.

Definition Initialize (environ : gmap string string) (registeredProviders : llm.Registry)
  : llm.Registry :=
  llm.RegisterProvider (asProvider (NewProvider environ)) registeredProviders.

End Completion.

End google.


(** ** Package providers/openai

    The package as it reads with [getModelMaxTokensParam] (the later of the
    two versions of the file). *)

Module openai.

Definition defaultAPIEndpoint : string := "https://api.openai.com/v1/chat/completions".

Module Provider.
Record t : Type := {
  apiKey : string;
  endpoint : string;
  modelList : list string
}.
End Provider.

Definition NewProviderWithKey (apiKey : string) : Provider.t :=
  {| Provider.apiKey := apiKey;
     Provider.endpoint := defaultAPIEndpoint;
     Provider.modelList :=
       [ "gpt-4"; "gpt-4.1"; "gpt-4.1-2025-04-14"; "gpt-4.1-mini";
         "gpt-4.1-mini-2025-04-14"; "gpt-4.1-nano"; "gpt-4.1-nano-2025-04-14";
         "gpt-4o"; "gpt-4.5-preview"; "gpt-4.5-preview-2025-02-27"; "gpt-4o-mini";
         "gpt-4o-mini-2024-07-18"; "o1"; "o1-mini"; "o3-mini"; "o3-mini-2025-01-31";
         "o4-mini"; "o4-mini-2025-04-16"; "o1-mini-2024-09-12"; "o1-preview";
         "o1-preview-2024-09-12"; "o1-2024-12-17"; "chatgpt-4o-latest";
         "gpt-4o-2024-05-13"; "gpt-4o-2024-08-06"; "gpt-4o-2024-11-20";
         "gpt-4-turbo-preview"; "gpt-4-0613"; "gpt-4-turbo"; "gpt-4-turbo-2024-04-09";
         "gpt-4-1106-preview"; "gpt-4-0125-preview"; "gpt-3.5-turbo";
         "gpt-3.5-turbo-1106"; "gpt-3.5-turbo-0125"; "gpt-3.5-turbo-16k" ] |}.

Definition NewProvider (environ : gmap string string) : Provider.t :=
  NewProviderWithKey (default "" (environ !! "OPENAI_API_KEY")).

Definition Name (p : Provider.t) : string := "openai".

Definition SupportsModel (p : Provider.t) (model : string) : bool :=
  existsb (fun m => String.eqb m model) (Provider.modelList p).

Module openAIMessage.
Record t : Type := { Role : string; Content : string }.
End openAIMessage.

Module openAIRequest.
Record t : Type := {
  Model : string;
  Messages : list openAIMessage.t;
  Temperature : option float;
  MaxTokens : option Z;
  MaxCompletionTokens : option Z;
  TopP : option float;
  FrequencyPenalty : option float;
  PresencePenalty : option float;
  Stop : list string;
  Stream : bool;
  N : Z;
  LogitBias : gmap string Z;
  User : string
}.
End openAIRequest.

Module openAIResponseChoice.
Record t : Type := {
  Index : Z;
  Message : openAIMessage.t;
  FinishReason : string
}.
End openAIResponseChoice.

Module openAIResponseUsage.
Record t : Type := {
  PromptTokens : Z;
  CompletionTokens : Z;
  TotalTokens : Z
}.
End openAIResponseUsage.

Module openAIResponse.
Record t : Type := {
  ID : string;
  Object : string;
  Created : Z;
  Model : string;
  Choices : list openAIResponseChoice.t;
  Usage : openAIResponseUsage.t;
  SystemFingerprint : string
}.
End openAIResponse.

Definition completionTokenModels : gmap string bool :=
  list_to_map
    [ ("o1", true); ("o1-mini", true); ("o3-mini", true); ("o3-mini-2025-01-31", true);
      ("o4-mini", true); ("o4-mini-2025-04-16", true); ("o1-mini-2024-09-12", true);
      ("o1-preview", true); ("o1-preview-2024-09-12", true); ("o1-2024-12-17", true) ].

Definition getModelMaxTokensParam (model : string) : string :=
  if default false (completionTokenModels !! model) then "max_completion_tokens"
  else "max_tokens".

(** The [openAIRequest] of [Completion] ([stream = false]) and of
    [CompletionStream] ([stream = true]). *)
Definition newOpenAIRequest (req : llm.CompletionRequest.t) (stream : bool)
  : openAIRequest.t :=
  let maxTokensParam := getModelMaxTokensParam (llm.CompletionRequest.Model req) in
  let completion := String.eqb maxTokensParam "max_completion_tokens" in
  {| openAIRequest.Model := llm.CompletionRequest.Model req;
     openAIRequest.Temperature := llm.CompletionRequest.Temperature req;
     openAIRequest.TopP := llm.CompletionRequest.TopP req;
     openAIRequest.FrequencyPenalty := llm.CompletionRequest.FrequencyPenalty req;
     openAIRequest.PresencePenalty := llm.CompletionRequest.PresencePenalty req;
     openAIRequest.Stop := llm.CompletionRequest.Stop req;
     openAIRequest.Stream := stream;
     openAIRequest.LogitBias := llm.CompletionRequest.LogitBias req;
     openAIRequest.User := llm.CompletionRequest.User req;
     openAIRequest.N := 1;
     openAIRequest.MaxCompletionTokens :=
       if completion then llm.CompletionRequest.MaxTokens req else None;
     openAIRequest.MaxTokens :=
       if completion then None else llm.CompletionRequest.MaxTokens req;
     openAIRequest.Messages :=
       List.map
         (fun msg => {| openAIMessage.Role := llm.Message.Role msg;
                        openAIMessage.Content := llm.Message.Content msg |})
         (llm.CompletionRequest.Messages req) |}.

(** [encoding/json] writes the keys of a map in sorted order. *)
Fixpoint insert_by_key (kv : string * Z) (l : list (string * Z)) : list (string * Z) :=
  match l with
  | [] => [kv]
  | kv' :: l' =>
      if String.leb (fst kv) (fst kv') then kv :: l else kv' :: insert_by_key kv l'
  end.

Definition sorted_entries (m : gmap string Z) : list (string * Z) :=
  fold_right insert_by_key [] (map_to_list m).

Definition Marshal_openAIMessage (m : openAIMessage.t) : result go.JSON :=
  go.object
    [ go.always "role" (go.Marshal_string (openAIMessage.Role m));
      go.always "content" (go.Marshal_string (openAIMessage.Content m)) ].

Definition Marshal_openAIRequest (r : openAIRequest.t) : result go.JSON :=
  match go.array (List.map Marshal_openAIMessage (openAIRequest.Messages r)) with
  | Err e => Err e
  | Ok messages =>
      go.object
        [ go.always "model" (go.Marshal_string (openAIRequest.Model r));
          go.always "messages" (go.JArray messages);
          go.omitempty_ptr "temperature" go.Marshal_float64 (openAIRequest.Temperature r);
          go.omitempty_ptr "max_tokens" (fun n => Ok (go.JInt n)) (openAIRequest.MaxTokens r);
          go.omitempty_ptr "max_completion_tokens" (fun n => Ok (go.JInt n))
            (openAIRequest.MaxCompletionTokens r);
          go.omitempty_ptr "top_p" go.Marshal_float64 (openAIRequest.TopP r);
          go.omitempty_ptr "frequency_penalty" go.Marshal_float64
            (openAIRequest.FrequencyPenalty r);
          go.omitempty_ptr "presence_penalty" go.Marshal_float64
            (openAIRequest.PresencePenalty r);
          go.omitempty "stop"
            (match openAIRequest.Stop r with [] => true | _ => false end)
            (go.JArray (List.map go.Marshal_string (openAIRequest.Stop r)));
          go.omitempty "stream" (negb (openAIRequest.Stream r))
            (go.JBool (openAIRequest.Stream r));
          go.omitempty "n" (Z.eqb (openAIRequest.N r) 0) (go.JInt (openAIRequest.N r));
          go.omitempty "logit_bias"
            (match sorted_entries (openAIRequest.LogitBias r) with [] => true | _ => false end)
            (go.JObject (List.map (fun kv => (go.json_string (fst kv), go.JInt (snd kv)))
                           (sorted_entries (openAIRequest.LogitBias r))));
          go.omitempty "user" (String.eqb (openAIRequest.User r) "")
            (go.Marshal_string (openAIRequest.User r)) ]
  end.

Definition setHeaders (p : Provider.t) (stream : bool) (httpReq : go.Request) : go.Request :=
  let httpReq := go.Header_Set httpReq "Content-Type" "application/json" in
  let httpReq := go.Header_Set httpReq "Authorization" ("Bearer " +:+ Provider.apiKey p) in
  if stream then go.Header_Set httpReq "Accept" "text/event-stream" else httpReq.

Definition apiError (resp : go.Response) (body : string) : error :=
  errorString ("OpenAI API returned error: " +:+ go.Status resp +:+ " - " +:+ body).

Section Completion.
Context `{!go.Unmarshal openAIResponse.t}.

Definition Completion (p : Provider.t) (req : llm.CompletionRequest.t)
  : go.M (result llm.CompletionResponse.t) :=
  if String.eqb (Provider.apiKey p) "" then
    go.ret (Err (errorString "OpenAI API key not set"))
  else
    let openAIReq := newOpenAIRequest req false in
    match Marshal_openAIRequest openAIReq with
    | Err err => go.ret (Err (wrapError "failed to marshal request: " err))
    | Ok reqBody =>
        (r <- go.NewRequestWithContext "POST" (Provider.endpoint p) reqBody ;;
         match r with
         | Err err => go.ret (Err (wrapError "failed to create request: " err))
         | Ok httpReq =>
             let httpReq := setHeaders p false httpReq in
             r <- go.Client_Do httpReq ;;
             match r with
             | Err err => go.ret (Err (wrapError "failed to send request: " err))
             | Ok resp =>
                 match go.io_ReadAll (go.RespBody resp) with
                 | (_, Some err) =>
                     go.ret (Err (wrapError "failed to read response body: " err))
                 | (body, None) =>
                     if negb (Z.eqb (go.StatusCode resp) go.StatusOK) then
                       go.ret (Err (apiError resp body))
                     else
                       match go.json_Unmarshal body with
                       | Err err =>
                           go.ret (Err (wrapError "failed to parse response: " err))
                       | Ok openAIResp =>
                           go.ret (Ok
                             {| llm.CompletionResponse.ID := openAIResponse.ID openAIResp;
                                llm.CompletionResponse.Object :=
                                  openAIResponse.Object openAIResp;
                                llm.CompletionResponse.Created :=
                                  openAIResponse.Created openAIResp;
                                llm.CompletionResponse.Model :=
                                  openAIResponse.Model openAIResp;
                                llm.CompletionResponse.SystemFingerprint :=
                                  openAIResponse.SystemFingerprint openAIResp;
                                llm.CompletionResponse.Provider := Name p;
                                llm.CompletionResponse.RawResponse :=
                                  go.any_struct openAIResp;
                                llm.CompletionResponse.Usage :=
                                  let usage := openAIResponse.Usage openAIResp in
                                  {| llm.CompletionUsage.PromptTokens :=
                                       openAIResponseUsage.PromptTokens usage;
                                     llm.CompletionUsage.CompletionTokens :=
                                       openAIResponseUsage.CompletionTokens usage;
                                     llm.CompletionUsage.TotalTokens :=
                                       openAIResponseUsage.TotalTokens usage |};
                                llm.CompletionResponse.Choices :=
                                  List.map
                                    (fun choice =>
                                       {| llm.CompletionChoice.Index :=
                                            openAIResponseChoice.Index choice;
                                          llm.CompletionChoice.FinishReason :=
                                            openAIResponseChoice.FinishReason choice;
                                          llm.CompletionChoice.Message :=
                                            {| llm.Message.Role :=
                                                 openAIMessage.Role
                                                   (openAIResponseChoice.Message choice);
                                               llm.Message.Content :=
                                                 openAIMessage.Content
                                                   (openAIResponseChoice.Message choice) |} |})
                                    (openAIResponse.Choices openAIResp) |})
                       end
                 end
             end
         end)%go
    end.

End Completion.

(** *** The stream *)

Module openAIStreamDelta.
Record t : Type := { Role : string; Content : string }.
End openAIStreamDelta.

Module openAIStreamChoice.
Record t : Type := {
  Index : Z;
  Delta : openAIStreamDelta.t;
  FinishReason : string
}.
End openAIStreamChoice.

Module openAIStreamChunk.
Record t : Type := {
  ID : string;
  Object : string;
  Created : Z;
  Model : string;
  Choices : list openAIStreamChoice.t;
  SystemFingerprint : string
}.
End openAIStreamChunk.

Module OpenAIResponseStream.
Record t : Type := {
  reader : bufReader.t;
  currentRole : string;
  model : string;
  provider : string;
  id : string;
  created : Z;
  fingerprint : string;
  chunkIndex : Z;
  streamFinished : bool
}.

Definition with_reader (s : t) (rd : bufReader.t) : t :=
  {| reader := rd; currentRole := currentRole s; model := model s;
     provider := provider s; id := id s; created := created s;
     fingerprint := fingerprint s; chunkIndex := chunkIndex s;
     streamFinished := streamFinished s |}.

Definition finished (s : t) : t :=
  {| reader := reader s; currentRole := currentRole s; model := model s;
     provider := provider s; id := id s; created := created s;
     fingerprint := fingerprint s; chunkIndex := chunkIndex s;
     streamFinished := true |}.

(** [s.id = ...; s.model = ...; s.created = ...; s.fingerprint = ...] *)
Definition with_header (s : t) (i m : string) (c : Z) (f : string) : t :=
  {| reader := reader s; currentRole := currentRole s; model := m;
     provider := provider s; id := i; created := c;
     fingerprint := f; chunkIndex := chunkIndex s;
     streamFinished := streamFinished s |}.

Definition with_currentRole (s : t) (role : string) : t :=
  {| reader := reader s; currentRole := role; model := model s;
     provider := provider s; id := id s; created := created s;
     fingerprint := fingerprint s; chunkIndex := chunkIndex s;
     streamFinished := streamFinished s |}.

(** [s.chunkIndex++] *)
Definition next_chunk (s : t) : t :=
  {| reader := reader s; currentRole := currentRole s; model := model s;
     provider := provider s; id := id s; created := created s;
     fingerprint := fingerprint s; chunkIndex := go.int_add (chunkIndex s) 1;
     streamFinished := streamFinished s |}.
End OpenAIResponseStream.

Section Stream.
Context `{!go.Unmarshal openAIStreamChunk.t}.

(** The [for] loop of [Recv]; [None] when [fuel] turns were not enough to
    leave it. *)
Fixpoint Recv_loop (fuel : nat) (s : OpenAIResponseStream.t)
  : option (result llm.CompletionResponse.t * OpenAIResponseStream.t) :=
  match fuel with
  | O => None
  | S fuel' =>
      let '(r, rd) := bufReader.ReadLine (OpenAIResponseStream.reader s) in
      let s := OpenAIResponseStream.with_reader s rd in
      match r with
      | Err err => Some (Err err, s)
      | Ok line =>
          if (String.length line =? 0)%nat || go.bytes_HasPrefix line ":" then
            Recv_loop fuel' s
          else if negb (go.bytes_HasPrefix line "data: ") then Recv_loop fuel' s
          else
            let data := go.bytes_TrimPrefix line "data: " in
            if String.eqb data "[DONE]" then
              Some (Err io_EOF, OpenAIResponseStream.finished s)
            else
              match go.json_Unmarshal data with
              | Err err => Some (Err (wrapError "failed to parse stream chunk: " err), s)
              | Ok chunk =>
                  let s :=
                    if String.eqb (OpenAIResponseStream.id s) "" then
                      OpenAIResponseStream.with_header s
                        (openAIStreamChunk.ID chunk) (openAIStreamChunk.Model chunk)
                        (openAIStreamChunk.Created chunk)
                        (openAIStreamChunk.SystemFingerprint chunk)
                    else s in
                  match openAIStreamChunk.Choices chunk with
                  | choice :: _ =>
                      let delta := openAIStreamChoice.Delta choice in
                      let s :=
                        if negb (String.eqb (openAIStreamDelta.Role delta) "") then
                          OpenAIResponseStream.with_currentRole s
                            (openAIStreamDelta.Role delta)
                        else s in
                      let resp :=
                        {| llm.CompletionResponse.ID := OpenAIResponseStream.id s;
                           llm.CompletionResponse.Object := "chat.completion.chunk";
                           llm.CompletionResponse.Created := OpenAIResponseStream.created s;
                           llm.CompletionResponse.Model := OpenAIResponseStream.model s;
                           llm.CompletionResponse.SystemFingerprint :=
                             OpenAIResponseStream.fingerprint s;
                           llm.CompletionResponse.Provider := OpenAIResponseStream.provider s;
                           llm.CompletionResponse.RawResponse := go.any_nil;
                           llm.CompletionResponse.Usage :=
                             {| llm.CompletionUsage.PromptTokens := 0;
                                llm.CompletionUsage.CompletionTokens := 0;
                                llm.CompletionUsage.TotalTokens := 0 |};
                           llm.CompletionResponse.Choices :=
                             [ {| llm.CompletionChoice.Index :=
                                    openAIStreamChoice.Index choice;
                                  llm.CompletionChoice.FinishReason :=
                                    openAIStreamChoice.FinishReason choice;
                                  llm.CompletionChoice.Message :=
                                    {| llm.Message.Role := OpenAIResponseStream.currentRole s;
                                       llm.Message.Content :=
                                         openAIStreamDelta.Content delta |} |} ] |} in
                      Some (Ok resp, OpenAIResponseStream.next_chunk s)
                  | [] => Recv_loop fuel' s
                  end
              end
      end
  end.

(** [Recv]: one turn more than there are lines left to read is enough
    ([openai_Recv_loop_returns]). *)
Definition Recv (s : OpenAIResponseStream.t)
  : result llm.CompletionResponse.t * OpenAIResponseStream.t :=
  if OpenAIResponseStream.streamFinished s then (Err io_EOF, s)
  else
    match Recv_loop (S (bufReader.left (OpenAIResponseStream.reader s))) s with
    | Some r => r
    | None => (Err io_EOF, s)
    end.

Definition CompletionStream (p : Provider.t) (req : llm.CompletionRequest.t)
  : go.M (result OpenAIResponseStream.t) :=
  if String.eqb (Provider.apiKey p) "" then
    go.ret (Err (errorString "OpenAI API key not set"))
  else
    let openAIReq := newOpenAIRequest req true in
    match Marshal_openAIRequest openAIReq with
    | Err err => go.ret (Err (wrapError "failed to marshal request: " err))
    | Ok reqBody =>
        (r <- go.NewRequestWithContext "POST" (Provider.endpoint p) reqBody ;;
         match r with
         | Err err => go.ret (Err (wrapError "failed to create request: " err))
         | Ok httpReq =>
             let httpReq := setHeaders p true httpReq in
             r <- go.Client_Do httpReq ;;
             match r with
             | Err err => go.ret (Err (wrapError "failed to send request: " err))
             | Ok resp =>
                 if negb (Z.eqb (go.StatusCode resp) go.StatusOK) then
                   let '(body, _) := go.io_ReadAll (go.RespBody resp) in
                   go.ret (Err (apiError resp body))
                 else
                   go.ret (Ok
                     {| OpenAIResponseStream.reader :=
                          bufReader.newBufReader (go.RespBody resp);
                        OpenAIResponseStream.currentRole := "";
                        OpenAIResponseStream.model := "";
                        OpenAIResponseStream.provider := Name p;
                        OpenAIResponseStream.id := "";
                        OpenAIResponseStream.created := 0;
                        OpenAIResponseStream.fingerprint := "";
                        OpenAIResponseStream.chunkIndex := 0;
                        OpenAIResponseStream.streamFinished := false |})
             end
         end)%go
    end.

End Stream.

Definition asProvider `{!go.Unmarshal openAIResponse.t} `{!go.Unmarshal openAIStreamChunk.t}
  (p : Provider.t) : llm.Provider.t :=
  {| llm.Provider.Completion := Completion p;
     llm.Provider.CompletionStream := fun req =>
       (r <- CompletionStream p req ;;
        go.ret match r with
               | Err err => Err err
               | Ok s => Ok {| llm.ResponseStream.self := s;
                               llm.ResponseStream.Recv := fun s => go.ret (Recv s) |}
               end)%go;
     llm.Provider.Name := Name p;
     llm.Provider.SupportsModel := SupportsModel p |}.

Definition Initialize `{!go.Unmarshal openAIResponse.t} `{!go.Unmarshal openAIStreamChunk.t}
  (environ : gmap string string) (registeredProviders : llm.Registry) : llm.Registry :=
  llm.RegisterProvider (asProvider (NewProvider environ)) registeredProviders.

End openai.


(** ** Package providers

    Importing the package runs the [init] function of each adapter
    package, which registers the adapter built from the environment. *)

Module providers.

Section Initialize.
Context `{!go.Unmarshal anthropic.anthropicResponse.t}
        `{!go.Unmarshal anthropic.anthropicEvent.t}
        `{!go.Unmarshal google.geminiResponse.t}
        `{!go.Unmarshal openai.openAIResponse.t}
        `{!go.Unmarshal openai.openAIStreamChunk.t}.

Definition Initialize (environ : gmap string string) : llm.Registry :=
  openai.Initialize environ
    (google.Initialize environ
       (anthropic.Initialize environ ∅)).

End Initialize.

End providers.

(** ** Package router

    The package itself is not part of the sources at hand (only its callers
    are: the facade [gollm] below and the example programs); it is modelled
    from the specification, sections 3 and 4.5. *)

Module router.

(** Modelled from the spec: the type [router.TaskType], a name for a kind
    of task. *)
Definition TaskType : Type := string.

(** Modelled from the spec: [router.ModelRoute], "task-type, qualified model
    id, priority (integer, higher = preferred), advertised max-tokens
    ceiling"; the field names are those the example program writes. *)
Module ModelRoute.
Record t : Type := {
  TaskType : string;
  ModelID : string;
  Priority : Z;
  MaxTokens : Z
}.
End ModelRoute.

(** Modelled from the spec: the configuration of [router.Router], an
    "ordered-by-insertion mapping task-type → list of ModelRoute, plus one
    fallback qualified model id". *)
Module Router.
Record t : Type := {
  routes : list (string * list ModelRoute.t);
  fallbackModel : string
}.
End Router.

(** Modelled from the spec: step 1 of [Route], "look up the route list for
    taskType"; an absent list and an empty one are treated alike. *)
Definition routesFor (r : Router.t) (taskType : TaskType) : list ModelRoute.t :=
  match List.find (fun kv => String.eqb (fst kv) taskType) (Router.routes r) with
  | Some kv => snd kv
  | None => []
  end.

(** Modelled from the spec: step 2 of [Route], "stable-sort candidates by
    descending priority, ties broken by original insertion order
    (first-registered wins)": each route is put in front of the sorted rest
    unless a route of strictly higher priority comes first there. *)
Fixpoint insertRoute (c : ModelRoute.t) (sorted : list ModelRoute.t) : list ModelRoute.t :=
  match sorted with
  | [] => [c]
  | c' :: rest =>
      if Z.ltb (ModelRoute.Priority c) (ModelRoute.Priority c')
      then c' :: insertRoute c rest
      else c :: sorted
  end.

(** Modelled from the spec: the candidates of step 2 in the order of
    step 3, the routes inserted one by one, the last registered first. *)
Definition sortRoutes (candidates : list ModelRoute.t) : list ModelRoute.t :=
  fold_right insertRoute [] candidates.

(** "Descending priority", between a candidate and one that comes later. *)
Definition descending (a b : ModelRoute.t) : Prop :=
  ModelRoute.Priority b <= ModelRoute.Priority a.

(** The routes of priority [p], in the order they have in [l]. *)
Definition withPriority (p : Z) (l : list ModelRoute.t) : list ModelRoute.t :=
  List.filter (fun c => Z.eqb (ModelRoute.Priority c) p) l.

(** Modelled from the spec: steps 3 to 5 of [Route], "iterate candidates in
    that order; for each, attempt Completion ... using the candidate's
    qualified model id", "on the first candidate that succeeds, return its
    response immediately", "if a candidate call fails for any reason ...
    continue to the next candidate".  Beside the response, the model ids
    handed to [llm.Completion] are recorded, in the order of the calls. *)
Fixpoint tryCandidates (registeredProviders : llm.Registry)
  (candidates : list ModelRoute.t)
  (messages : list llm.Message.t) (opts : list llm.CompletionOption)
  : go.M (option llm.CompletionResponse.t * list string) :=
  match candidates with
  | [] => go.ret (None, [])
  | c :: rest =>
      (r <- llm.Completion registeredProviders (ModelRoute.ModelID c) messages opts ;;
       match r with
       | Ok resp => go.ret (Some resp, [ModelRoute.ModelID c])
       | Err _ =>
           r' <- tryCandidates registeredProviders rest messages opts ;;
           go.ret (fst r', ModelRoute.ModelID c :: snd r')
       end)%go
  end.

(** Modelled from the spec: [Route], steps 1 to 7; steps 6 and 7 are "if
    every candidate in the list fails (or the list was empty), attempt the
    single configured fallback model exactly once" and "if the fallback
    also fails, the call fails, surfacing the fallback's error".  The
    second component is the record of the calls of [llm.Completion]. *)
Definition Route_calls (r : Router.t) (registeredProviders : llm.Registry)
  (taskType : TaskType) (messages : list llm.Message.t)
  (opts : list llm.CompletionOption)
  : go.M (result llm.CompletionResponse.t * list string) :=
  (tried <- tryCandidates registeredProviders (sortRoutes (routesFor r taskType))
              messages opts ;;
   match fst tried with
   | Some resp => go.ret (Ok resp, snd tried)
   | None =>
       res <- llm.Completion registeredProviders (Router.fallbackModel r) messages opts ;;
       go.ret (res, (snd tried ++ [Router.fallbackModel r])%list)
   end)%go.

(** Modelled from the spec: [Route], what the caller gets. *)
Definition Route (r : Router.t) (registeredProviders : llm.Registry)
  (taskType : TaskType) (messages : list llm.Message.t)
  (opts : list llm.CompletionOption)
  : go.M (result llm.CompletionResponse.t) :=
  (res <- Route_calls r registeredProviders taskType messages opts ;;
   go.ret (fst res))%go.

(** The world after the attempts on [ids] when every one of them fails,
    [None] when one of them succeeds. *)
Fixpoint allFail (registeredProviders : llm.Registry) (ids : list string)
  (messages : list llm.Message.t) (opts : list llm.CompletionOption)
  (w : go.World) : option go.World :=
  match ids with
  | [] => Some w
  | id :: rest =>
      match llm.Completion registeredProviders id messages opts w with
      | (Ok _, _) => None
      | (Err _, w') => allFail registeredProviders rest messages opts w'
      end
  end.

End router.

(** ** Package gollm: the facade *)

Module gollm.

Definition Completion := llm.Completion.
Definition CompletionStream := llm.CompletionStream.
Definition WithTemperature := llm.WithTemperature.
Definition WithMaxTokens := llm.WithMaxTokens.
Definition WithTopP := llm.WithTopP.
Definition WithUser := llm.WithUser.
Definition WithExtraParams := llm.WithExtraParams.

Definition RouteCompletion (r : router.Router.t) (registeredProviders : llm.Registry)
  (taskType : router.TaskType) (messages : list llm.Message.t)
  (opts : list llm.CompletionOption)
  : go.M (result llm.CompletionResponse.t) :=
  router.Route r registeredProviders taskType messages opts.

End gollm.

(** ** Concrete inputs for the examples

    Bodies, decoders, worlds and registries on which the statements below
    are run.  A JSON text is written with ['] where JSON has the double
    quote; a decoder is given by the values [encoding/json] computes on the
    texts of the example at hand, and rejects every other text the way the
    library rejects a text that ends too early. *)

Module fixtures.

Definition json (s : string) : string :=
  string_of_list_ascii
    (List.map (fun c => if Ascii.eqb c "'" then ascii_of_nat 34 else c)
       (list_ascii_of_string s)).

Definition decoder {T : Type} (table : list (string * T)) : go.Unmarshal T :=
  fun data =>
    match List.find (fun kv => String.eqb (fst kv) data) table with
    | Some kv => Ok (snd kv)
    | None => Err (errorString "unexpected end of JSON input")
    end.

(** A world whose network answers every request with [answer], whose URL
    parser accepts every URL, and whose clock advances by a nanosecond per
    reading. *)
Definition world (answer : go.Request -> result go.Response) : go.World :=
  {| go.sent := [];
     go.respond := fun _ req => answer req;
     go.url_error := fun _ => None;
     go.clock := fun n => Z.of_nat n;
     go.ticks := 0 |}.

(** The world [w] after [n] more readings of the clock. *)
Definition after (n : nat) (w : go.World) : go.World :=
  {| go.sent := go.sent w;
     go.respond := go.respond w;
     go.url_error := go.url_error w;
     go.clock := go.clock w;
     go.ticks := (n + go.ticks w)%nat |}.

(** The answer [200 OK] with [body], delivered in one read. *)
Definition ok200 (body : string) : go.Request -> result go.Response :=
  fun _ => Ok {| go.StatusCode := 200; go.Status := "200 OK";
                 go.RespBody := [ {| go.rd_data := body; go.rd_err := None |} ] |}.

Definition hello : list llm.Message.t :=
  [ {| llm.Message.Role := "user"; llm.Message.Content := "Hello" |} ].

(** An OpenAI completion whose usage object has no [total_tokens]. *)
Definition openai_body : string :=
  json ("{'id':'chatcmpl-1','object':'chat.completion','created':1700000000,"
        +:+ "'model':'gpt-4o','choices':[{'index':0,'message':{'role':'assistant',"
        +:+ "'content':'Hi'},'finish_reason':'stop'}],"
        +:+ "'usage':{'prompt_tokens':3,'completion_tokens':4}}").

Definition openai_response : openai.openAIResponse.t :=
  {| openai.openAIResponse.ID := "chatcmpl-1";
     openai.openAIResponse.Object := "chat.completion";
     openai.openAIResponse.Created := 1700000000;
     openai.openAIResponse.Model := "gpt-4o";
     openai.openAIResponse.Choices :=
       [ {| openai.openAIResponseChoice.Index := 0;
            openai.openAIResponseChoice.Message :=
              {| openai.openAIMessage.Role := "assistant";
                 openai.openAIMessage.Content := "Hi" |};
            openai.openAIResponseChoice.FinishReason := "stop" |} ];
     openai.openAIResponse.Usage :=
       {| openai.openAIResponseUsage.PromptTokens := 3;
          openai.openAIResponseUsage.CompletionTokens := 4;
          openai.openAIResponseUsage.TotalTokens := 0 |};
     openai.openAIResponse.SystemFingerprint := "" |}.

Definition openai_decoder : go.Unmarshal openai.openAIResponse.t :=
  decoder [ (openai_body, openai_response) ].

(** An Anthropic message. *)
Definition anthropic_body : string :=
  json ("{'id':'msg_1','type':'message','role':'assistant',"
        +:+ "'content':[{'type':'text','text':'Hi'}],'model':'claude-3-haiku-20240307',"
        +:+ "'stop_reason':'end_turn','usage':{'input_tokens':3,'output_tokens':4}}").

Definition anthropic_response : anthropic.anthropicResponse.t :=
  {| anthropic.anthropicResponse.ID := "msg_1";
     anthropic.anthropicResponse.Type_ := "message";
     anthropic.anthropicResponse.Role := "assistant";
     anthropic.anthropicResponse.Content :=
       [ {| anthropic.anthropicResponseContent.Type_ := "text";
            anthropic.anthropicResponseContent.Text := "Hi" |} ];
     anthropic.anthropicResponse.Model := "claude-3-haiku-20240307";
     anthropic.anthropicResponse.StopReason := "end_turn";
     anthropic.anthropicResponse.StopSequence := "";
     anthropic.anthropicResponse.Usage :=
       {| anthropic.anthropicUsage.InputTokens := 3;
          anthropic.anthropicUsage.OutputTokens := 4 |} |}.

Definition anthropic_decoder : go.Unmarshal anthropic.anthropicResponse.t :=
  decoder [ (anthropic_body, anthropic_response) ].

(** A Gemini answer with a [usage] object. *)
Definition gemini_body : string :=
  json ("{'candidates':[{'content':{'role':'model','parts':[{'text':'Hi'}]},"
        +:+ "'finishReason':'STOP','index':0}],"
        +:+ "'usage':{'promptTokenCount':3,'candidatesTokenCount':4,'totalTokenCount':7}}").

Definition gemini_response : google.geminiResponse.t :=
  {| google.geminiResponse.Candidates :=
       [ {| google.geminiCandidate.Content :=
              {| google.geminiResponseContent.Role := "model";
                 google.geminiResponseContent.Parts :=
                   [ {| google.geminiResponsePart.Text := "Hi" |} ] |};
            google.geminiCandidate.FinishReason := "STOP";
            google.geminiCandidate.Index := 0 |} ];
     google.geminiResponse.PromptFeedback := go.JNull;
     google.geminiResponse.Usage :=
       {| google.geminiUsage.PromptTokenCount := 3;
          google.geminiUsage.CandidatesTokenCount := 4;
          google.geminiUsage.TotalTokenCount := 7 |} |}.

Definition gemini_decoder : go.Unmarshal google.geminiResponse.t :=
  decoder [ (gemini_body, gemini_response) ].

(** *** Streams *)

(** The server-sent-event text of the payloads [events]: each on a
    [data: ] line followed by an empty line. *)
Definition sse (events : list string) : string :=
  String.concat "" (List.map (fun e => "data: " +:+ e +:+ go.LF +:+ go.LF) events).

(** A read that brought [data] and no error. *)
Definition read (data : string) : go.ReadResult :=
  {| go.rd_data := data; go.rd_err := None |}.

(** The three events of the OpenAI example, as the vendor writes them and
    as they decode. *)
Definition event_role : string :=
  json "{'choices':[{'index':0,'delta':{'role':'assistant'}}]}".
Definition event_hi : string :=
  json "{'choices':[{'index':0,'delta':{'content':'Hi'}}]}".
Definition event_there : string :=
  json "{'choices':[{'index':0,'delta':{'content':' there'},'finish_reason':'stop'}]}".

Definition chunk (role content finish : string) : openai.openAIStreamChunk.t :=
  {| openai.openAIStreamChunk.ID := "";
     openai.openAIStreamChunk.Object := "";
     openai.openAIStreamChunk.Created := 0;
     openai.openAIStreamChunk.Model := "";
     openai.openAIStreamChunk.Choices :=
       [ {| openai.openAIStreamChoice.Index := 0;
            openai.openAIStreamChoice.Delta :=
              {| openai.openAIStreamDelta.Role := role;
                 openai.openAIStreamDelta.Content := content |};
            openai.openAIStreamChoice.FinishReason := finish |} ];
     openai.openAIStreamChunk.SystemFingerprint := "" |}.

Definition openai_chunk_decoder : go.Unmarshal openai.openAIStreamChunk.t :=
  decoder [ (event_role, chunk "assistant" "" "");
            (event_hi, chunk "" "Hi" "");
            (event_there, chunk "" " there" "stop") ].

(** The stream [CompletionStream] returns over the body [conn]. *)
Definition openai_stream (conn : go.Conn) : openai.OpenAIResponseStream.t :=
  {| openai.OpenAIResponseStream.reader := bufReader.newBufReader conn;
     openai.OpenAIResponseStream.currentRole := "";
     openai.OpenAIResponseStream.model := "";
     openai.OpenAIResponseStream.provider := "openai";
     openai.OpenAIResponseStream.id := "";
     openai.OpenAIResponseStream.created := 0;
     openai.OpenAIResponseStream.fingerprint := "";
     openai.OpenAIResponseStream.chunkIndex := 0;
     openai.OpenAIResponseStream.streamFinished := false |}.

(** The chunk the OpenAI stream returns for that example: one choice, with
    the role, the text and the finish reason given. *)
Definition openai_chunk (role content finish : string) : llm.CompletionResponse.t :=
  {| llm.CompletionResponse.ID := "";
     llm.CompletionResponse.Object := "chat.completion.chunk";
     llm.CompletionResponse.Created := 0;
     llm.CompletionResponse.Model := "";
     llm.CompletionResponse.SystemFingerprint := "";
     llm.CompletionResponse.Provider := "openai";
     llm.CompletionResponse.RawResponse := go.any_nil;
     llm.CompletionResponse.Usage :=
       {| llm.CompletionUsage.PromptTokens := 0;
          llm.CompletionUsage.CompletionTokens := 0;
          llm.CompletionUsage.TotalTokens := 0 |};
     llm.CompletionResponse.Choices :=
       [ {| llm.CompletionChoice.Index := 0;
            llm.CompletionChoice.FinishReason := finish;
            llm.CompletionChoice.Message :=
              {| llm.Message.Role := role; llm.Message.Content := content |} |} ] |}.

(** The texts of the chunks among [results] that carry text, in order. *)
Definition contents (results : list (result llm.CompletionResponse.t)) : list string :=
  List.filter (fun c => negb (String.eqb c ""))
    (List.concat
       (List.map
          (fun r => match r with
                    | Ok resp =>
                        List.map (fun c => llm.Message.Content (llm.CompletionChoice.Message c))
                          (llm.CompletionResponse.Choices resp)
                    | Err _ => []
                    end)
          results)).

(** A Gemini event cut short, and a whole one. *)
Definition gemini_event_cut : string :=
  json "{'candidates':[{'finishReason':'STOP'".
Definition gemini_event : string :=
  json "{'candidates':[{'content':{'role':'model','parts':[{'text':'Hi'}]},'index':0}]}".

Definition gemini_chunk : google.geminiResponse.t :=
  {| google.geminiResponse.Candidates :=
       [ {| google.geminiCandidate.Content :=
              {| google.geminiResponseContent.Role := "model";
                 google.geminiResponseContent.Parts :=
                   [ {| google.geminiResponsePart.Text := "Hi" |} ] |};
            google.geminiCandidate.FinishReason := "";
            google.geminiCandidate.Index := 0 |} ];
     google.geminiResponse.PromptFeedback := go.JNull;
     google.geminiResponse.Usage :=
       {| google.geminiUsage.PromptTokenCount := 0;
          google.geminiUsage.CandidatesTokenCount := 0;
          google.geminiUsage.TotalTokenCount := 0 |} |}.

Definition gemini_chunk_decoder : go.Unmarshal google.geminiResponse.t :=
  decoder [ (gemini_event, gemini_chunk) ].

Definition gemini_stream (conn : go.Conn) : google.GeminiResponseStream :=
  {| google.reader := bufReader.newBufReader conn;
     google.provider := "google";
     google.streamFinished := false |}.

Definition anthropic_event_decoder : go.Unmarshal anthropic.anthropicEvent.t :=
  decoder [].

Definition anthropic_stream (conn : go.Conn) : anthropic.AnthropicResponseStream.t :=
  {| anthropic.AnthropicResponseStream.reader := bufReader.newBufReader conn;
     anthropic.AnthropicResponseStream.provider := "anthropic";
     anthropic.AnthropicResponseStream.id := "";
     anthropic.AnthropicResponseStream.streamFinished := false |}.

(** An Anthropic text delta, as the vendor writes it and as it decodes. *)
Definition anthropic_event_text : string :=
  json ("{'type':'content_block_delta','index':0,"
        +:+ "'delta':{'type':'text_delta','text':'Hi'}}").

Definition anthropic_text_delta : anthropic.anthropicEvent.t :=
  {| anthropic.anthropicEvent.Type_ := "content_block_delta";
     anthropic.anthropicEvent.Message := None;
     anthropic.anthropicEvent.ContentBlock := None;
     anthropic.anthropicEvent.Delta :=
       Some {| anthropic.Delta.Type_ := "text_delta";
               anthropic.Delta.Text := "Hi";
               anthropic.Delta.StopReason := "" |} |}.

(** A delta that carries a stop reason. *)
Definition anthropic_event_stop : string :=
  json ("{'type':'content_block_delta','index':0,"
        +:+ "'delta':{'type':'text_delta','text':'','stop_reason':'end_turn'}}").

Definition anthropic_stop_delta : anthropic.anthropicEvent.t :=
  {| anthropic.anthropicEvent.Type_ := "content_block_delta";
     anthropic.anthropicEvent.Message := None;
     anthropic.anthropicEvent.ContentBlock := None;
     anthropic.anthropicEvent.Delta :=
       Some {| anthropic.Delta.Type_ := "text_delta";
               anthropic.Delta.Text := "";
               anthropic.Delta.StopReason := "end_turn" |} |}.

Definition anthropic_delta_decoder : go.Unmarshal anthropic.anthropicEvent.t :=
  decoder [ (anthropic_event_text, anthropic_text_delta);
            (anthropic_event_stop, anthropic_stop_delta) ].

(** *** The router example

    A provider registered as ["a"] that supports the models [x], [y] and
    [z]: its [Completion] answers for the models listed in [up] and fails
    for the others, and counts every call by reading the clock once. *)
Definition answer (model : string) : llm.CompletionResponse.t :=
  {| llm.CompletionResponse.ID := "answer";
     llm.CompletionResponse.Object := "chat.completion";
     llm.CompletionResponse.Created := 0;
     llm.CompletionResponse.Model := model;
     llm.CompletionResponse.SystemFingerprint := "";
     llm.CompletionResponse.Provider := "a";
     llm.CompletionResponse.RawResponse := go.any_nil;
     llm.CompletionResponse.Usage :=
       {| llm.CompletionUsage.PromptTokens := 0;
          llm.CompletionUsage.CompletionTokens := 0;
          llm.CompletionUsage.TotalTokens := 0 |};
     llm.CompletionResponse.Choices := [] |}.

Definition provider_a (up : list string) : llm.Provider.t :=
  {| llm.Provider.Name := "a";
     llm.Provider.SupportsModel := fun model =>
       existsb (String.eqb model) ["x"; "y"; "z"];
     llm.Provider.Completion := fun req =>
       (_ <- go.time_Now ;;
        go.ret (if existsb (String.eqb (llm.CompletionRequest.Model req)) up
                then Ok (answer (llm.CompletionRequest.Model req))
                else Err (errorString ("a: " +:+ llm.CompletionRequest.Model req
                                       +:+ " is down"))))%go;
     llm.Provider.CompletionStream := fun req =>
       go.ret (Err (errorString "a: no streaming")) |}.

Definition registry_a (up : list string) : llm.Registry :=
  llm.RegisterProvider (provider_a up) ∅.

(** Routes for the task type [T]: ["a/x"] with priority 3 and ["a/y"] with
    priority 2, registered in the other order; the fallback is ["a/z"]. *)
Definition router_T : router.Router.t :=
  {| router.Router.routes :=
       [ ("T", [ {| router.ModelRoute.TaskType := "T";
                    router.ModelRoute.ModelID := "a/y";
                    router.ModelRoute.Priority := 2;
                    router.ModelRoute.MaxTokens := 4096 |};
                 {| router.ModelRoute.TaskType := "T";
                    router.ModelRoute.ModelID := "a/x";
                    router.ModelRoute.Priority := 3;
                    router.ModelRoute.MaxTokens := 8192 |} ]) ];
     router.Router.fallbackModel := "a/z" |}.

(** The registry of a process started without any key in its
    environment. *)
Definition registry : llm.Registry :=
  @providers.Initialize anthropic_decoder anthropic_event_decoder gemini_chunk_decoder
    openai_decoder openai_chunk_decoder ∅.

End fixtures.

(** ** Vocabulary of the statements *)

Module expected.

(** What the body of an Anthropic request carries under [max_tokens], by
    the caller's max-tokens option: 4096 without the option, the caller's
    number when it is not 0, and no member at all for 0. *)
Definition max_tokens (req : llm.CompletionRequest.t) : option go.JSON :=
  match llm.CompletionRequest.MaxTokens req with
  | None => Some (go.JInt 4096)
  | Some tokens => if Z.eqb tokens 0 then None else Some (go.JInt tokens)
  end.

(** [n] calls of a method on an object, one after the other: the results
    in order, and the object as the last call leaves it. *)
Fixpoint calls {S R : Type} (method : S -> R * S) (n : nat) (s : S) : list R * S :=
  match n with
  | O => ([], s)
  | S n' =>
      let '(r, s') := method s in
      let '(rs, s'') := calls method n' s' in
      (r :: rs, s'')
  end.

(** A method that also reads the world, as a method on the object and the
    world together. *)
Definition with_world {S R : Type} (method : S -> go.M (R * S))
  : S * go.World -> R * (S * go.World) :=
  fun '(s, w) => let '((r, s'), w') := method s w in (r, (s', w')).

End expected.

(** ** Further vocabulary *)

Module notions.

(** Every provider of the table is stored under its own name. *)
Definition keyed (registeredProviders : llm.Registry) : Prop :=
  forall name provider,
    registeredProviders !! name = Some provider -> llm.Provider.Name provider = name.

(** The fields of a request that none of the five options writes. *)
Definition unowned (f : options.Field) : Prop := forall o, options.owns o <> f.

(** [reached b b']: the line reader [b'] is [b] after some number of calls
    of [ReadLine], each of which returned a line. *)
Inductive reached : bufReader.t -> bufReader.t -> Prop :=
| reached_now (b : bufReader.t) : reached b b
| reached_line (b b' b'' : bufReader.t) (line : string) :
    bufReader.ReadLine b = (Ok line, b') -> reached b' b'' -> reached b b''.

End notions.

(** * Properties *)

(** ** Strings *)

Lemma prefix_slash (c : ascii) (s : string) :
  String.prefix "/" (String c s) = if ascii_dec "/" c then true else false.
Proof.
  change (String.prefix "/" (String c s))
    with (if ascii_dec "/" c then String.prefix "" s else false).
  destruct (ascii_dec "/" c); [destruct s|]; reflexivity.
Qed.

Lemma Contains_slash_cons (c : ascii) (s : string) :
  go.strings_Contains (String c s) "/" = false ->
  c <> "/"%char /\ go.strings_Contains s "/" = false.
Proof.
  unfold go.strings_Contains. cbn [go.strings_Index]. rewrite prefix_slash.
  destruct (ascii_dec "/" c) as [->|Hc]; [discriminate|].
  destruct (go.strings_Index s "/"); [discriminate|]. intros _. split; congruence.
Qed.

(** The first ["/"] of [provider/model] is the one after [provider] when
    [provider] has none. *)
Lemma Index_first_slash (provider model : string) :
  go.strings_Contains provider "/" = false ->
  go.strings_Index (provider +:+ "/" +:+ model) "/" = Some (String.length provider).
Proof.
  induction provider as [|c p IH]; intros H.
  - change ("" +:+ "/" +:+ model) with (String "/" model).
    cbn [go.strings_Index]. rewrite prefix_slash.
    destruct (ascii_dec "/" "/"); [reflexivity|congruence].
  - apply Contains_slash_cons in H as [Hc Hp].
    change ((String c p) +:+ "/" +:+ model) with (String c (p +:+ "/" +:+ model)).
    cbn [go.strings_Index]. rewrite prefix_slash.
    destruct (ascii_dec "/" c) as [E|_]; [congruence|].
    rewrite (IH Hp). reflexivity.
Qed.

Lemma app_cons (c : ascii) (s t : string) : String c s +:+ t = String c (s +:+ t).
Proof. reflexivity. Qed.

Lemma app_nil (t : string) : "" +:+ t = t.
Proof. reflexivity. Qed.

Lemma take_app (s t : string) : go.take (String.length s) (s +:+ t) = s.
Proof.
  induction s as [|c s IH]; [destruct t; reflexivity|].
  rewrite app_cons. cbn [String.length go.take]. now rewrite IH.
Qed.

Lemma drop_app (s t : string) : go.drop (String.length s) (s +:+ t) = t.
Proof.
  induction s as [|c s IH]; [reflexivity|].
  rewrite app_cons. cbn [String.length go.drop]. exact IH.
Qed.

Lemma take_drop (n : nat) (s : string) : go.take n s +:+ go.drop n s = s.
Proof.
  revert s; induction n as [|n IH]; intros [|c s]; try reflexivity.
  cbn [go.take go.drop]. rewrite app_cons. now rewrite IH.
Qed.

Lemma length_take_Index (s : string) (i : nat) :
  go.strings_Index s "/" = Some i ->
  String.length (go.take i s) = i /\ go.strings_Contains (go.take i s) "/" = false
  /\ go.drop i s = "/" +:+ go.drop (S i) s.
Proof.
  revert i; induction s as [|c s IH]; intros i.
  - cbn. discriminate.
  - cbn [go.strings_Index]. rewrite prefix_slash.
    destruct (ascii_dec "/" c) as [<-|Hc].
    + intros [= <-]. repeat split.
    + destruct (go.strings_Index s "/") as [j|] eqn:Hj; [|discriminate].
      intros [= <-]. destruct (IH j eq_refl) as (Hl & Hn & Hd).
      cbn [go.take go.drop String.length]. rewrite Hl. repeat split; [|exact Hd].
      unfold go.strings_Contains in *. cbn [go.strings_Index]. rewrite prefix_slash.
      destruct (ascii_dec "/" c); [congruence|].
      destruct (go.strings_Index (go.take j s) "/"); [discriminate|reflexivity].
Qed.

(** ** Package llm: resolution *)

Lemma string_length_app (s t : string) :
  String.length (s +:+ t) = (String.length s + String.length t)%nat.
Proof.
  induction s as [|c s IH]; [reflexivity|].
  rewrite app_cons. cbn [String.length]. now rewrite IH.
Qed.

Lemma string_app_assoc (s t u : string) : (s +:+ t) +:+ u = s +:+ (t +:+ u).
Proof.
  induction s as [|c s IH]; [reflexivity|]. rewrite !app_cons. now rewrite IH.
Qed.

Lemma parseModelIdentifier_split (provider model : string) :
  go.strings_Contains provider "/" = false ->
  llm.parseModelIdentifier (provider +:+ "/" +:+ model) = Ok (provider, model).
Proof.
  intros H. unfold llm.parseModelIdentifier, go.strings_SplitN.
  cbn [go.genSplit]. rewrite (Index_first_slash _ _ H), take_app.
  rewrite <- string_length_app, <- string_app_assoc, drop_app. reflexivity.
Qed.

Lemma parseModelIdentifier_no_slash (modelID : string) :
  go.strings_Contains modelID "/" = false ->
  llm.parseModelIdentifier modelID =
  Err (errorString ("invalid model identifier: " +:+ modelID
                    +:+ ", expected format 'provider/model'")).
Proof.
  unfold go.strings_Contains, llm.parseModelIdentifier, go.strings_SplitN.
  cbn [go.genSplit]. destruct (go.strings_Index modelID "/"); [discriminate|reflexivity].
Qed.

(** An identifier with a ["/"] is [provider/model] for a [provider] without
    one. *)
Lemma slash_decompose (modelID : string) :
  go.strings_Contains modelID "/" = true ->
  exists provider model,
    modelID = provider +:+ "/" +:+ model /\ go.strings_Contains provider "/" = false.
Proof.
  unfold go.strings_Contains at 1.
  destruct (go.strings_Index modelID "/") as [i|] eqn:Hi; [intros _|discriminate].
  destruct (length_take_Index _ _ Hi) as (_ & Hn & Hd).
  exists (go.take i modelID), (go.drop (S i) modelID). split; [|exact Hn].
  rewrite <- (take_drop i modelID) at 1. now rewrite Hd.
Qed.

(** C8. An identifier with at least one ["/"] is split at the first one
    only: the provider name is what precedes it (and has no ["/"]), the
    model name is everything after it, which may contain further ["/"];
    there is no other way to read the identifier as [provider/model] with
    a provider name free of ["/"], and resolution hands the provider
    registered under that name the whole remainder. *)
Theorem parseModelIdentifier_first_slash (modelID : string) :
  go.strings_Contains modelID "/" = true ->
  exists provider model,
    modelID = provider +:+ "/" +:+ model
    /\ go.strings_Contains provider "/" = false
    /\ llm.parseModelIdentifier modelID = Ok (provider, model)
    /\ (forall provider' model',
          modelID = provider' +:+ "/" +:+ model' ->
          go.strings_Contains provider' "/" = false ->
          provider' = provider /\ model' = model)
    /\ (forall (registeredProviders : llm.Registry) (p : llm.Provider.t),
          registeredProviders !! provider = Some p ->
          llm.Provider.SupportsModel p model = true ->
          llm.getProviderForModel registeredProviders modelID = Ok (p, model)).
Proof.
  intros H. destruct (slash_decompose _ H) as (provider & model & -> & Hn).
  exists provider, model. pose proof (parseModelIdentifier_split _ model Hn) as Hp.
  repeat split; try assumption.
  - pose proof (parseModelIdentifier_split _ model' H1) as Hp'.
    rewrite <- H0, Hp in Hp'. congruence.
  - pose proof (parseModelIdentifier_split _ model' H1) as Hp'.
    rewrite <- H0, Hp in Hp'. congruence.
  - intros reg p Hreg Hs. unfold llm.getProviderForModel. rewrite Hp, Hreg, Hs. reflexivity.
Qed.

(** ["p/a/b"] is provider ["p"], model ["a/b"]. *)
Example parseModelIdentifier_p_a_b :
  llm.parseModelIdentifier "p/a/b" = Ok ("p", "a/b").
Proof. reflexivity. Qed.

Lemma parseModelIdentifier_first_slash_witness :
  go.strings_Contains "p/a/b" "/" = true
  /\ exists provider model,
       "p/a/b" = provider +:+ "/" +:+ model
       /\ go.strings_Contains provider "/" = false
       /\ llm.parseModelIdentifier "p/a/b" = Ok (provider, model)
       /\ (forall provider' model',
             "p/a/b" = provider' +:+ "/" +:+ model' ->
             go.strings_Contains provider' "/" = false ->
             provider' = provider /\ model' = model)
       /\ (forall (registeredProviders : llm.Registry) (p : llm.Provider.t),
             registeredProviders !! provider = Some p ->
             llm.Provider.SupportsModel p model = true ->
             llm.getProviderForModel registeredProviders "p/a/b" = Ok (p, model)).
Proof.
  split; [reflexivity|]. apply (parseModelIdentifier_first_slash "p/a/b"). reflexivity.
Defined.

(** C2. Resolution of a qualified model identifier: without a ["/"] it
    fails with the invalid-identifier error; otherwise, with [providerName]
    the text before the first ["/"] and [modelName] the rest, it fails with
    the provider-not-found error when no provider is registered under
    [providerName], with the model-unsupported error when that provider's
    [SupportsModel] rejects [modelName], and returns the provider and
    [modelName] when it accepts it. *)
Theorem getProviderForModel_cases (registeredProviders : llm.Registry) (modelID : string) :
  (go.strings_Contains modelID "/" = false ->
   llm.getProviderForModel registeredProviders modelID =
   Err (errorString ("invalid model identifier: " +:+ modelID
                     +:+ ", expected format 'provider/model'")))
  /\ (forall providerName modelName,
        modelID = providerName +:+ "/" +:+ modelName ->
        go.strings_Contains providerName "/" = false ->
        (registeredProviders !! providerName = None ->
         llm.getProviderForModel registeredProviders modelID =
         Err (errorString ("provider not found: " +:+ providerName)))
        /\ (forall provider,
              registeredProviders !! providerName = Some provider ->
              (llm.Provider.SupportsModel provider modelName = false ->
               llm.getProviderForModel registeredProviders modelID =
               Err (errorString ("model " +:+ modelName +:+ " not supported by provider "
                                 +:+ providerName)))
              /\ (llm.Provider.SupportsModel provider modelName = true ->
                  llm.getProviderForModel registeredProviders modelID =
                  Ok (provider, modelName)))).
Proof.
  split.
  - intros H. unfold llm.getProviderForModel.
    now rewrite (parseModelIdentifier_no_slash _ H).
  - intros providerName modelName -> Hn.
    unfold llm.getProviderForModel. rewrite (parseModelIdentifier_split _ _ Hn).
    split; [intros ->; reflexivity|].
    intros provider ->. split; intros ->; reflexivity.
Qed.

(** The examples of the specification, on the registry of the three
    adapters. *)
Lemma getProviderForModel_cases_witness :
  llm.getProviderForModel fixtures.registry "gpt-4o"
  = Err (errorString "invalid model identifier: gpt-4o, expected format 'provider/model'")
  /\ llm.getProviderForModel fixtures.registry "unknownvendor/x"
     = Err (errorString "provider not found: unknownvendor")
  /\ llm.getProviderForModel fixtures.registry "openai/not-a-real-model"
     = Err (errorString "model not-a-real-model not supported by provider openai")
  /\ exists provider,
       llm.getProviderForModel fixtures.registry "openai/gpt-4o" = Ok (provider, "gpt-4o")
       /\ llm.Provider.Name provider = "openai".
Proof.
  destruct (getProviderForModel_cases fixtures.registry "gpt-4o") as [H1 _].
  destruct (getProviderForModel_cases fixtures.registry "unknownvendor/x") as [_ H2].
  destruct (getProviderForModel_cases fixtures.registry "openai/not-a-real-model") as [_ H3].
  destruct (getProviderForModel_cases fixtures.registry "openai/gpt-4o") as [_ H4].
  destruct (H2 "unknownvendor" "x" eq_refl eq_refl) as [H2' _].
  destruct (H3 "openai" "not-a-real-model" eq_refl eq_refl) as [_ H3'].
  destruct (H4 "openai" "gpt-4o" eq_refl eq_refl) as [_ H4'].
  destruct (fixtures.registry !! "openai") as [provider|] eqn:E; [|discriminate E].
  assert (Hn : llm.Provider.Name provider = "openai").
  { replace provider with (default provider (fixtures.registry !! "openai"))
      by now rewrite E.
    reflexivity. }
  assert (Hs : forall m, llm.Provider.SupportsModel provider m
                         = openai.SupportsModel (openai.NewProviderWithKey "") m).
  { replace provider with (default provider (fixtures.registry !! "openai"))
      by now rewrite E.
    reflexivity. }
  destruct (H3' provider eq_refl) as [H3'' _].
  destruct (H4' provider eq_refl) as [_ H4''].
  split; [exact (H1 eq_refl)|].
  split; [exact (H2' eq_refl)|].
  split; [apply H3''; rewrite Hs; reflexivity|].
  exists provider. split; [apply H4''; rewrite Hs; reflexivity|exact Hn].
Defined.

(** ** Package llm: option application *)

(** C7 as the claim states it fails for [WithExtraParams]: applied after
    [WithExtraParams {a: 1}], [WithExtraParams {b: 2}] does not override
    it: the bag then holds both entries, while the later option alone
    leaves only [b]. *)
Lemma WithExtraParams_does_not_override :
  let earlier := llm.WithExtraParams {[ "a" := go.any_int 1 ]} in
  let later := llm.WithExtraParams {[ "b" := go.any_int 2 ]} in
  let req := llm.newRequest "gpt-4o" [] false in
  ~ options.overrides later earlier
  /\ (default ∅ (llm.CompletionRequest.ExtraParams (later (earlier req)))) !! "a"
     = Some (go.any_int 1)
  /\ (default ∅ (llm.CompletionRequest.ExtraParams (later req))) !! "a" = None.
Proof.
  intros earlier later req.
  assert (Ha : (default ∅ (llm.CompletionRequest.ExtraParams (later (earlier req)))) !! "a"
               = Some (go.any_int 1)) by reflexivity.
  assert (Hb : (default ∅ (llm.CompletionRequest.ExtraParams (later req))) !! "a" = None)
    by reflexivity.
  repeat split; try assumption.
  intros H. specialize (H req). rewrite H in Ha. congruence.
Qed.

(** C7, amended. Each option writes the field it owns and leaves every
    other field as it was.  Of two options on the same field among
    temperature, max-tokens, top-p and user, the later one overrides the
    earlier one.  [WithExtraParams] stores its entries into the bag that
    is there: after two of them the bag holds, under each key, the entry of
    the later one if it has one, and otherwise what the earlier one
    left. *)
Theorem option_frame_and_order (o : options.t) (req : llm.CompletionRequest.t) :
  (forall f, f <> options.owns o ->
             options.get f (options.apply o req) = options.get f req)
  /\ options.get (options.owns o) (options.apply o req) = options.writes o req
  /\ (forall earlier,
        options.owns earlier = options.owns o ->
        options.owns o <> options.ExtraParams ->
        options.overrides (options.apply o) (options.apply earlier))
  /\ (forall earlier later k,
        default ∅ (llm.CompletionRequest.ExtraParams
                     (llm.WithExtraParams later (llm.WithExtraParams earlier req))) !! k
        = match later !! k with
          | Some v => Some v
          | None =>
              default ∅ (llm.CompletionRequest.ExtraParams
                           (llm.WithExtraParams earlier req)) !! k
          end).
Proof.
  split; [|split; [|split]].
  - intros f Hf. destruct o, f; try reflexivity; contradiction.
  - destruct o; reflexivity.
  - intros earlier Ho Hx req'.
    destruct o, earlier; try discriminate; try reflexivity; contradiction.
  - intros earlier later k. cbn. rewrite lookup_union.
    destruct (later !! k) as [v|].
    + apply union_Some_l.
    + match goal with |- None ∪ ?x = _ => destruct x; reflexivity end.
Qed.

Lemma option_frame_and_order_witness :
  options.get options.MaxTokens
    (llm.WithTemperature 0.5 (llm.WithMaxTokens 100 (llm.newRequest "gpt-4o" [] false)))
  = Some 100
  /\ options.overrides (llm.WithTemperature 0.25) (llm.WithTemperature 0.5).
Proof.
  pose proof (option_frame_and_order (options.WithTemperature 0.5)
                (llm.WithMaxTokens 100 (llm.newRequest "gpt-4o" [] false))) as (H1 & _).
  pose proof (option_frame_and_order (options.WithTemperature 0.25)
                (llm.newRequest "gpt-4o" [] false)) as (_ & _ & H3 & _).
  split.
  - apply (H1 options.MaxTokens). discriminate.
  - apply (H3 (options.WithTemperature 0.5)); [reflexivity|discriminate].
Defined.

(** ** The adapters: [Completion] and [CompletionStream] *)

(** Runs the world-passing code of a hypothesis or of the goal, one case
    of the code at a time. *)
Ltac run_M :=
  cbv beta delta [go.bind go.ret go.NewRequestWithContext go.Client_Do go.time_Now] in *;
  repeat (case_match; simplify_eq/=; try done).

Section adapters.
Context `{!go.Unmarshal anthropic.anthropicResponse.t}
        `{!go.Unmarshal anthropic.anthropicEvent.t}
        `{!go.Unmarshal google.geminiResponse.t}
        `{!go.Unmarshal openai.openAIResponse.t}
        `{!go.Unmarshal openai.openAIStreamChunk.t}.

(** C6. With an empty credential, [Completion] and [CompletionStream] of
    each adapter fail with the adapter's missing-credential error and
    leave the world as it was: no request has been created or sent and the
    clock has not been read.  Construction does not fail: the constructor
    returns an adapter for every key, the empty one included, and the
    adapter built from an environment without the variable has the empty
    key. *)
Theorem missing_credential_at_call_time
  (pa : anthropic.Provider.t) (pg : google.Provider.t) (po : openai.Provider.t)
  (req : llm.CompletionRequest.t) (w : go.World) :
  anthropic.Provider.apiKey pa = "" ->
  google.Provider.apiKey pg = "" ->
  openai.Provider.apiKey po = "" ->
  anthropic.Completion pa req w = (Err (errorString "Anthropic API key not set"), w)
  /\ anthropic.CompletionStream pa req w
     = (Err (errorString "Anthropic API key not set"), w)
  /\ google.Completion pg req w = (Err (errorString "Google API key not set"), w)
  /\ google.CompletionStream pg req w = (Err (errorString "Google API key not set"), w)
  /\ openai.Completion po req w = (Err (errorString "OpenAI API key not set"), w)
  /\ openai.CompletionStream po req w = (Err (errorString "OpenAI API key not set"), w)
  /\ (forall environ : gmap string string,
        (environ !! "ANTHROPIC_API_KEY" = None ->
         anthropic.Provider.apiKey (anthropic.NewProvider environ) = "")
        /\ (environ !! "GEMINI_API_KEY" = None ->
            google.Provider.apiKey (google.NewProvider environ) = "")
        /\ (environ !! "OPENAI_API_KEY" = None ->
            openai.Provider.apiKey (openai.NewProvider environ) = "")).
Proof.
  intros Ha Hg Ho.
  unfold anthropic.Completion, anthropic.CompletionStream, google.Completion,
    google.CompletionStream, openai.Completion, openai.CompletionStream.
  rewrite Ha, Hg, Ho. repeat split; try reflexivity;
    unfold anthropic.NewProvider, google.NewProvider, openai.NewProvider;
    intros ->; reflexivity.
Qed.

End adapters.

Lemma missing_credential_at_call_time_witness :
  let w := fixtures.world (fixtures.ok200 fixtures.openai_body) in
  let req := llm.newRequest "gpt-4o" fixtures.hello false in
  @openai.Completion fixtures.openai_decoder (openai.NewProviderWithKey "") req w
  = (Err (errorString "OpenAI API key not set"), w)
  /\ @anthropic.Completion fixtures.anthropic_decoder (anthropic.NewProviderWithKey "") req w
     = (Err (errorString "Anthropic API key not set"), w)
  /\ @google.Completion fixtures.gemini_decoder (google.NewProvider ∅) req w
     = (Err (errorString "Google API key not set"), w).
Proof.
  intros w req.
  pose proof (@missing_credential_at_call_time
                fixtures.anthropic_decoder fixtures.gemini_decoder fixtures.openai_decoder
                (anthropic.NewProviderWithKey "") (google.NewProvider ∅)
                (openai.NewProviderWithKey "") req w eq_refl eq_refl eq_refl)
    as (Ha & _ & Hg & _ & Ho & _).
  split; [exact Ho|split; [exact Ha|exact Hg]].
Defined.

(** *** Token usage *)

Lemma int_add_exact (a b : Z) : go.in_int (a + b) -> go.int_add a b = a + b.
Proof.
  unfold go.in_int, go.int_min, go.int_max, go.int_add, go.int_wrap. intros H.
  rewrite Z.mod_small; lia.
Qed.

(** C3 as the claim states it fails for the OpenAI adapter: for a vendor
    answer whose usage reports 3 prompt tokens and 4 completion tokens and
    no total, the response has a total of 0. *)
Lemma openai_total_not_recomputed :
  match fst (@openai.Completion fixtures.openai_decoder
               (openai.NewProviderWithKey "sk-test")
               (llm.newRequest "gpt-4o" fixtures.hello false)
               (fixtures.world (fixtures.ok200 fixtures.openai_body))) with
  | Ok resp =>
      let usage := llm.CompletionResponse.Usage resp in
      llm.CompletionUsage.PromptTokens usage = 3
      /\ llm.CompletionUsage.CompletionTokens usage = 4
      /\ llm.CompletionUsage.TotalTokens usage = 0
      /\ llm.CompletionUsage.TotalTokens usage
         <> llm.CompletionUsage.PromptTokens usage
            + llm.CompletionUsage.CompletionTokens usage
  | Err _ => False
  end.
Proof. vm_compute. repeat split. discriminate. Qed.

Section usage.
Context `{!go.Unmarshal anthropic.anthropicResponse.t}
        `{!go.Unmarshal google.geminiResponse.t}
        `{!go.Unmarshal openai.openAIResponse.t}.

(** C3, amended. In every response of the Anthropic adapter's
    [Completion] the total is the sum of the prompt and completion counts,
    computed by the adapter (in [int] arithmetic, so it is the exact sum
    whenever that fits an [int]) from the two counts of the decoded vendor
    answer.  The OpenAI and Google adapters copy the three counts of the
    decoded vendor answer, the total included: the total is the sum exactly
    when the vendor's total is, and a total the vendor leaves out stays 0.
    The decoded vendor answer is what [json.Unmarshal] gives on the body of
    the answer the network gave to the one request the call sent. *)
Theorem usage_total
  (pa : anthropic.Provider.t) (pg : google.Provider.t) (po : openai.Provider.t)
  (req : llm.CompletionRequest.t) (w : go.World) :
  (forall resp w',
     anthropic.Completion pa req w = (Ok resp, w') ->
     let usage := llm.CompletionResponse.Usage resp in
     llm.CompletionUsage.TotalTokens usage
     = go.int_add (llm.CompletionUsage.PromptTokens usage)
         (llm.CompletionUsage.CompletionTokens usage)
     /\ (go.in_int (llm.CompletionUsage.PromptTokens usage
                    + llm.CompletionUsage.CompletionTokens usage) ->
         llm.CompletionUsage.TotalTokens usage
         = llm.CompletionUsage.PromptTokens usage
           + llm.CompletionUsage.CompletionTokens usage)
     /\ exists (httpReq : go.Request) (httpResp : go.Response) (body : string)
               (vendor : anthropic.anthropicResponse.t),
          go.sent w' = (go.sent w ++ [httpReq])%list
          /\ go.respond w (go.sent w) httpReq = Ok httpResp
          /\ go.io_ReadAll (go.RespBody httpResp) = (body, None)
          /\ go.json_Unmarshal body = Ok vendor
          /\ llm.CompletionResponse.RawResponse resp = go.any_struct vendor
          /\ llm.CompletionUsage.PromptTokens usage
             = anthropic.anthropicUsage.InputTokens (anthropic.anthropicResponse.Usage vendor)
          /\ llm.CompletionUsage.CompletionTokens usage
             = anthropic.anthropicUsage.OutputTokens
                 (anthropic.anthropicResponse.Usage vendor))
  /\ (forall resp w',
        openai.Completion po req w = (Ok resp, w') ->
        exists (httpReq : go.Request) (httpResp : go.Response) (body : string)
               (vendor : openai.openAIResponse.t),
          go.sent w' = (go.sent w ++ [httpReq])%list
          /\ go.respond w (go.sent w) httpReq = Ok httpResp
          /\ go.io_ReadAll (go.RespBody httpResp) = (body, None)
          /\ go.json_Unmarshal body = Ok vendor
          /\ llm.CompletionResponse.RawResponse resp = go.any_struct vendor
          /\ llm.CompletionResponse.Usage resp
             = let usage := openai.openAIResponse.Usage vendor in
               {| llm.CompletionUsage.PromptTokens :=
                    openai.openAIResponseUsage.PromptTokens usage;
                  llm.CompletionUsage.CompletionTokens :=
                    openai.openAIResponseUsage.CompletionTokens usage;
                  llm.CompletionUsage.TotalTokens :=
                    openai.openAIResponseUsage.TotalTokens usage |})
  /\ (forall resp w',
        google.Completion pg req w = (Ok resp, w') ->
        exists (httpReq : go.Request) (httpResp : go.Response) (body : string)
               (vendor : google.geminiResponse.t),
          go.sent w' = (go.sent w ++ [httpReq])%list
          /\ go.respond w (go.sent w) httpReq = Ok httpResp
          /\ go.io_ReadAll (go.RespBody httpResp) = (body, None)
          /\ go.json_Unmarshal body = Ok vendor
          /\ llm.CompletionResponse.RawResponse resp = go.any_struct vendor
          /\ llm.CompletionResponse.Usage resp
             = let usage := google.geminiResponse.Usage vendor in
               {| llm.CompletionUsage.PromptTokens :=
                    google.geminiUsage.PromptTokenCount usage;
                  llm.CompletionUsage.CompletionTokens :=
                    google.geminiUsage.CandidatesTokenCount usage;
                  llm.CompletionUsage.TotalTokens :=
                    google.geminiUsage.TotalTokenCount usage |}).
Proof.
  split; [|split].
  - intros resp w' H2 usage.
    assert (Ht : llm.CompletionUsage.TotalTokens usage
                 = go.int_add (llm.CompletionUsage.PromptTokens usage)
                     (llm.CompletionUsage.CompletionTokens usage)).
    { subst usage. unfold anthropic.Completion in H2. run_M. }
    split; [exact Ht|]. split; [intros Hr; rewrite Ht; now apply int_add_exact|].
    subst usage. clear Ht. unfold anthropic.Completion in H2. run_M.
    do 4 eexists. split; [reflexivity|]. split; [eassumption|]. split; [eassumption|].
    split; [eassumption|]. repeat apply conj; reflexivity.
  - intros resp w' H2. unfold openai.Completion in H2. run_M.
    do 4 eexists. split; [reflexivity|]. split; [eassumption|]. split; [eassumption|].
    split; [eassumption|]. split; reflexivity.
  - intros resp w' H2. unfold google.Completion in H2. run_M.
    do 4 eexists. split; [reflexivity|]. split; [eassumption|]. split; [eassumption|].
    split; [eassumption|]. split; reflexivity.
Qed.

End usage.

Lemma usage_total_witness :
  let w := fixtures.world (fixtures.ok200 fixtures.anthropic_body) in
  let req := llm.newRequest "claude-3-haiku-20240307" fixtures.hello false in
  let p := anthropic.NewProviderWithKey "sk-ant-test" in
  exists resp w',
    @anthropic.Completion fixtures.anthropic_decoder p req w = (Ok resp, w')
    /\ llm.CompletionUsage.TotalTokens (llm.CompletionResponse.Usage resp) = 7.
Proof.
  intros w req p.
  destruct (@anthropic.Completion fixtures.anthropic_decoder p req w) as [r w'] eqn:E.
  assert (Hr : exists resp, r = Ok resp).
  { replace r with (fst (@anthropic.Completion fixtures.anthropic_decoder p req w))
      by now rewrite E.
    vm_compute. eexists. reflexivity. }
  destruct Hr as [resp ->]. exists resp, w'. split; [reflexivity|].
  destruct (@usage_total fixtures.anthropic_decoder fixtures.gemini_decoder
              fixtures.openai_decoder p (google.NewProviderWithKey "")
              (openai.NewProviderWithKey "") req w) as (Ha & _).
  destruct (Ha resp w' E) as (Ht & _). rewrite Ht.
  replace resp with
    (match fst (@anthropic.Completion fixtures.anthropic_decoder p req w) with
     | Ok r => r | Err _ => resp end) by now rewrite E.
  vm_compute. reflexivity.
Defined.

(** *** The token limit of the Anthropic request *)

Lemma Marshal_anthropicRequest_max_tokens (r : anthropic.anthropicRequest.t) (body : go.JSON) :
  anthropic.Marshal_anthropicRequest r = Ok body ->
  go.member "max_tokens" body
  = if Z.eqb (anthropic.anthropicRequest.MaxTokens r) 0 then None
    else Some (go.JInt (anthropic.anthropicRequest.MaxTokens r)).
Proof.
  unfold anthropic.Marshal_anthropicRequest, go.object.
  destruct (go.array _); [|discriminate].
  unfold go.omitempty_float64, go.Marshal_float64.
  cbn [go.fields go.always go.omitempty].
  intros Hb. repeat (case_match; simplify_eq); reflexivity.
Qed.

Lemma newAnthropicRequest_MaxTokens (req : llm.CompletionRequest.t) (stream : bool) :
  anthropic.anthropicRequest.MaxTokens (anthropic.newAnthropicRequest req stream)
  = default 4096 (llm.CompletionRequest.MaxTokens req).
Proof.
  unfold anthropic.newAnthropicRequest.
  destruct (anthropic.convertMessages _), (llm.CompletionRequest.MaxTokens req); reflexivity.
Qed.

Lemma setHeaders_Body (p : anthropic.Provider.t) (stream : bool) (httpReq : go.Request) :
  go.Body (anthropic.setHeaders p stream httpReq) = go.Body httpReq.
Proof. destruct stream; reflexivity. Qed.

(** C10 fails for a max-tokens option of 0.  The adapter stores the
    caller's 0 in the request struct, as it stores every other value the
    caller gives, and sends the request; but the body has no [max_tokens]
    member, neither the caller's 0 nor the default 4096, since the field
    is a plain [int] tagged [omitempty].  The OpenAI and the Google
    adapter, whose field is a pointer, send the same option as 0. *)
Lemma anthropic_max_tokens_zero_omitted :
  let w := fixtures.world (fixtures.ok200 fixtures.anthropic_body) in
  let req := llm.WithMaxTokens 0
               (llm.newRequest "claude-3-haiku-20240307" fixtures.hello false) in
  let p := anthropic.NewProviderWithKey "sk-ant-test" in
  llm.CompletionRequest.MaxTokens req = Some 0
  /\ anthropic.anthropicRequest.MaxTokens (anthropic.newAnthropicRequest req false) = 0
  /\ match go.sent (snd (@anthropic.Completion fixtures.anthropic_decoder p req w)) with
     | [httpReq] =>
         go.member "max_tokens" (go.Body httpReq) = None
         /\ go.member "max_tokens" (go.Body httpReq) <> Some (go.JInt 0)
         /\ go.member "max_tokens" (go.Body httpReq) <> Some (go.JInt 4096)
         /\ go.member "model" (go.Body httpReq)
            = Some (go.JString "claude-3-haiku-20240307")
     | _ => False
     end
  /\ match go.sent (snd (anthropic.CompletionStream p req w)) with
     | [httpReq] => go.member "max_tokens" (go.Body httpReq) = None
     | _ => False
     end
  /\ match go.sent (snd (@openai.Completion fixtures.openai_decoder
                           (openai.NewProviderWithKey "sk-test")
                           (llm.WithMaxTokens 0
                              (llm.newRequest "gpt-4o" fixtures.hello false))
                           (fixtures.world (fixtures.ok200 fixtures.openai_body)))) with
     | [httpReq] => go.member "max_tokens" (go.Body httpReq) = Some (go.JInt 0)
     | _ => False
     end
  /\ match go.sent (snd (@google.Completion fixtures.gemini_decoder
                           (google.NewProviderWithKey "g-test")
                           (llm.WithMaxTokens 0
                              (llm.newRequest "gemini-2.0-flash" fixtures.hello false))
                           (fixtures.world (fixtures.ok200 fixtures.gemini_body)))) with
     | [httpReq] =>
         match go.member "generationConfig" (go.Body httpReq) with
         | Some config => go.member "maxOutputTokens" config = Some (go.JInt 0)
         | None => False
         end
     | _ => False
     end.
Proof. vm_compute. repeat split; discriminate. Qed.

Section max_tokens.
Context `{!go.Unmarshal anthropic.anthropicResponse.t}.

(** What the Anthropic adapter does with the token limit, for every
    request.  The request struct that [Completion] and [CompletionStream]
    build has [MaxTokens] 4096 when the caller gave no max-tokens option,
    and the caller's number otherwise.  Each call sends at most one
    request; with a key, a URL the library accepts and a request that can
    be encoded, it sends exactly one, whose body is the encoded request.
    That body carries [max_tokens] 4096 without the option and the caller's
    number for an option that is not 0; for an option of 0 it has no
    [max_tokens] member. *)
Theorem anthropic_max_tokens
  (p : anthropic.Provider.t) (req : llm.CompletionRequest.t) (w : go.World) :
  (forall stream,
     anthropic.anthropicRequest.MaxTokens (anthropic.newAnthropicRequest req stream)
     = match llm.CompletionRequest.MaxTokens req with
       | Some tokens => tokens
       | None => 4096
       end)
  /\ (forall res w',
        anthropic.Completion p req w = (res, w') ->
        go.sent w' = go.sent w
        \/ exists httpReq,
             go.sent w' = (go.sent w ++ [httpReq])%list
             /\ go.member "max_tokens" (go.Body httpReq) = expected.max_tokens req)
  /\ (forall res w',
        anthropic.CompletionStream p req w = (res, w') ->
        go.sent w' = go.sent w
        \/ exists httpReq,
             go.sent w' = (go.sent w ++ [httpReq])%list
             /\ go.member "max_tokens" (go.Body httpReq) = expected.max_tokens req)
  /\ (anthropic.Provider.apiKey p <> "" ->
      go.url_error w (anthropic.Provider.endpoint p) = None ->
      (forall body,
         anthropic.Marshal_anthropicRequest (anthropic.newAnthropicRequest req false)
         = Ok body ->
         go.member "max_tokens" body = expected.max_tokens req
         /\ go.sent (snd (anthropic.Completion p req w))
            = (go.sent w
               ++ [ anthropic.setHeaders p false
                      {| go.Method := "POST"; go.URL := anthropic.Provider.endpoint p;
                         go.Header := []; go.Body := body |} ])%list)
      /\ (forall body,
            anthropic.Marshal_anthropicRequest (anthropic.newAnthropicRequest req true)
            = Ok body ->
            go.member "max_tokens" body = expected.max_tokens req
            /\ go.sent (snd (anthropic.CompletionStream p req w))
               = (go.sent w
                  ++ [ anthropic.setHeaders p true
                         {| go.Method := "POST"; go.URL := anthropic.Provider.endpoint p;
                            go.Header := []; go.Body := body |} ])%list)).
Proof.
  assert (Hm : forall stream body,
             anthropic.Marshal_anthropicRequest (anthropic.newAnthropicRequest req stream)
             = Ok body ->
             go.member "max_tokens" body = expected.max_tokens req).
  { intros stream body Hb. apply Marshal_anthropicRequest_max_tokens in Hb.
    rewrite Hb, newAnthropicRequest_MaxTokens. unfold expected.max_tokens.
    destruct (llm.CompletionRequest.MaxTokens req); reflexivity. }
  split; [|split; [|split; [|intros Hk Hu; apply String.eqb_neq in Hk; split]]].
  - intros stream. rewrite newAnthropicRequest_MaxTokens.
    destruct (llm.CompletionRequest.MaxTokens req); reflexivity.
  - intros res w' H0. unfold anthropic.Completion in H0.
    destruct (String.eqb (anthropic.Provider.apiKey p) "");
      [left; cbv [go.ret] in H0; congruence|].
    destruct (anthropic.Marshal_anthropicRequest _) as [body|e] eqn:Hb;
      [|left; cbv [go.ret] in H0; congruence].
    specialize (Hm _ _ Hb).
    cbv beta delta [go.bind go.ret go.NewRequestWithContext go.Client_Do go.time_Now] in H0.
    destruct (go.url_error w _); [left; congruence|].
    right.
    exists (anthropic.setHeaders p false
              {| go.Method := "POST"; go.URL := anthropic.Provider.endpoint p;
                 go.Header := []; go.Body := body |}).
    split; [|rewrite setHeaders_Body; exact Hm].
    repeat (case_match; simplify_eq/=); reflexivity.
  - intros res w' H0. unfold anthropic.CompletionStream in H0.
    destruct (String.eqb (anthropic.Provider.apiKey p) "");
      [left; cbv [go.ret] in H0; congruence|].
    destruct (anthropic.Marshal_anthropicRequest _) as [body|e] eqn:Hb;
      [|left; cbv [go.ret] in H0; congruence].
    specialize (Hm _ _ Hb).
    cbv beta delta [go.bind go.ret go.NewRequestWithContext go.Client_Do go.time_Now] in H0.
    destruct (go.url_error w _); [left; congruence|].
    right.
    exists (anthropic.setHeaders p true
              {| go.Method := "POST"; go.URL := anthropic.Provider.endpoint p;
                 go.Header := []; go.Body := body |}).
    split; [|rewrite setHeaders_Body; exact Hm].
    repeat (case_match; simplify_eq/=); reflexivity.
  - intros body Hb. split; [exact (Hm _ _ Hb)|].
    unfold anthropic.Completion. rewrite Hk, Hb.
    cbv beta delta [go.bind go.ret go.NewRequestWithContext go.Client_Do go.time_Now].
    rewrite Hu. repeat (case_match; simplify_eq/=); reflexivity.
  - intros body Hb. split; [exact (Hm _ _ Hb)|].
    unfold anthropic.CompletionStream. rewrite Hk, Hb.
    cbv beta delta [go.bind go.ret go.NewRequestWithContext go.Client_Do go.time_Now].
    rewrite Hu. repeat (case_match; simplify_eq/=); reflexivity.
Qed.

End max_tokens.

(** The default, and a limit of the caller that is not 0. *)
Lemma anthropic_max_tokens_witness :
  let w := fixtures.world (fixtures.ok200 fixtures.anthropic_body) in
  let p := anthropic.NewProviderWithKey "sk-ant-test" in
  let sent (req : llm.CompletionRequest.t) : list go.Request :=
    go.sent (snd (@anthropic.Completion fixtures.anthropic_decoder p req w)) in
  (exists httpReq,
     sent (llm.newRequest "claude-3-haiku-20240307" fixtures.hello false) = [httpReq]
     /\ go.member "max_tokens" (go.Body httpReq) = Some (go.JInt 4096))
  /\ (exists httpReq,
        sent (llm.WithMaxTokens 100
                (llm.newRequest "claude-3-haiku-20240307" fixtures.hello false))
        = [httpReq]
        /\ go.member "max_tokens" (go.Body httpReq) = Some (go.JInt 100)).
Proof.
  intros w p sent. subst sent.
  assert (Hw : forall req body,
             anthropic.Marshal_anthropicRequest (anthropic.newAnthropicRequest req false)
             = Ok body ->
             exists httpReq,
               go.sent (snd (@anthropic.Completion fixtures.anthropic_decoder p req w))
               = [httpReq]
               /\ go.member "max_tokens" (go.Body httpReq) = expected.max_tokens req).
  { intros req body Hb.
    destruct (@anthropic_max_tokens fixtures.anthropic_decoder p req w) as (_ & _ & _ & Hs).
    destruct Hs as [Hc _]; [discriminate|reflexivity|].
    destruct (Hc body Hb) as [Hk Hsent]. eexists. split; [exact Hsent|].
    rewrite setHeaders_Body. exact Hk. }
  split.
  - destruct (anthropic.Marshal_anthropicRequest
                (anthropic.newAnthropicRequest
                   (llm.newRequest "claude-3-haiku-20240307" fixtures.hello false) false))
      as [body|e] eqn:Hb; [|vm_compute in Hb; discriminate].
    exact (Hw _ _ Hb).
  - destruct (anthropic.Marshal_anthropicRequest
                (anthropic.newAnthropicRequest
                   (llm.WithMaxTokens 100
                      (llm.newRequest "claude-3-haiku-20240307" fixtures.hello false))
                   false))
      as [body|e] eqn:Hb; [|vm_compute in Hb; discriminate].
    exact (Hw _ _ Hb).
Defined.

(** ** The line reader *)

Lemma LF_eq : go.LF = String (ascii_of_nat 10) "".
Proof. reflexivity. Qed.

Lemma Index_lt (s : string) (i : nat) :
  go.strings_Index s go.LF = Some i -> (i < String.length s)%nat.
Proof.
  rewrite LF_eq. revert i; induction s as [|c s IH]; intros i.
  - cbn. discriminate.
  - cbn [go.strings_Index String.length].
    destruct (String.prefix _ (String c s)); [intros [= <-]; lia|].
    destruct (go.strings_Index s _) as [j|]; [|discriminate].
    intros [= <-]. specialize (IH j eq_refl). lia.
Qed.

Lemma length_drop (n : nat) (s : string) :
  String.length (go.drop n s) = (String.length s - n)%nat.
Proof. revert s; induction n as [|n IH]; intros [|c s]; cbn; auto. Qed.

Lemma ReadBytes_cases (buf : string) :
  match go.Buffer_ReadBytes buf go.LF with
  | (line, true, buf') => (String.length buf' < String.length buf)%nat
  | (line, false, buf') => line = buf /\ buf' = ""
  end.
Proof.
  unfold go.Buffer_ReadBytes.
  destruct (go.strings_Index buf go.LF) as [i|] eqn:Hi; [|split; reflexivity].
  apply Index_lt in Hi. rewrite length_drop. lia.
Qed.

(** [ReadLine] never adds to what is left to read, and takes from it
    whenever it returns a line. *)
Lemma ReadLine_loop_left (conn : go.Conn) :
  forall buf r rd,
    bufReader.ReadLine_loop conn buf = (r, rd) ->
    (bufReader.left rd <= String.length buf + bufReader.pending conn)%nat
    /\ (forall line, r = Ok line ->
          (bufReader.left rd < String.length buf + bufReader.pending conn)%nat).
Proof.
  unfold bufReader.left.
  induction conn as [|r0 conn IH]; intros buf r rd;
    cbn [bufReader.ReadLine_loop]; pose proof (ReadBytes_cases buf) as Hb;
    destruct (go.Buffer_ReadBytes buf go.LF) as [[line found] buf'];
    destruct found.
  - intros [= <- <-]. cbn [bufReader.reader bufReader.buf].
    split; [lia|intros; lia].
  - destruct Hb as [-> ->].
    destruct (Nat.ltb_spec 0 (String.length buf)); intros [= <- <-];
      cbn [bufReader.reader bufReader.buf bufReader.pending List.map list_sum String.length];
      (split; [lia|intros ? [=]; lia]).
  - intros [= <- <-]. cbn [bufReader.reader bufReader.buf].
    split; [lia|intros; lia].
  - destruct Hb as [-> ->].
    change (bufReader.pending (r0 :: conn))
      with (S (String.length (go.rd_data r0)) + bufReader.pending conn)%nat.
    assert (Hend : forall r rd,
               (if (0 <? String.length buf)%nat then Ok (go.bytes_TrimSpace buf)
                else Err io_EOF, {| bufReader.reader := conn; bufReader.buf := "" |})
               = (r, rd) ->
               (String.length (bufReader.buf rd) + bufReader.pending (bufReader.reader rd)
                <= String.length buf
                   + (S (String.length (go.rd_data r0)) + bufReader.pending conn))%nat
               /\ (forall line, r = Ok line ->
                     (String.length (bufReader.buf rd)
                      + bufReader.pending (bufReader.reader rd)
                      < String.length buf
                        + (S (String.length (go.rd_data r0)) + bufReader.pending conn))%nat)).
    { intros r' rd' [= <- <-]. cbn [bufReader.reader bufReader.buf String.length].
      split; [lia|intros; lia]. }
    assert (Hrec : forall r rd,
               (if (String.length (go.rd_data r0) =? 0)%nat
                then (if (0 <? String.length buf)%nat then Ok (go.bytes_TrimSpace buf)
                      else Err io_EOF,
                      {| bufReader.reader := conn; bufReader.buf := "" |})
                else bufReader.ReadLine_loop conn ("" +:+ go.rd_data r0)) = (r, rd) ->
               (String.length (bufReader.buf rd) + bufReader.pending (bufReader.reader rd)
                <= String.length buf
                   + (S (String.length (go.rd_data r0)) + bufReader.pending conn))%nat
               /\ (forall line, r = Ok line ->
                     (String.length (bufReader.buf rd)
                      + bufReader.pending (bufReader.reader rd)
                      < String.length buf
                        + (S (String.length (go.rd_data r0)) + bufReader.pending conn))%nat)).
    { intros r' rd'. destruct (String.length (go.rd_data r0) =? 0)%nat; [apply Hend|].
      intros Hl. apply IH in Hl as [Hle Hlt]. rewrite app_nil in Hle, Hlt.
      split; [lia|]. intros line Hr. specialize (Hlt line Hr). lia. }
    destruct (go.rd_err r0) as [[| |]|]; try apply Hrec;
      intros [= <- <-]; cbn [bufReader.reader bufReader.buf String.length];
      (split; [lia|intros ? [=]]).
Qed.

Lemma ReadLine_left (b : bufReader.t) (r : result string) (rd : bufReader.t) :
  bufReader.ReadLine b = (r, rd) ->
  (bufReader.left rd <= bufReader.left b)%nat
  /\ (forall line, r = Ok line -> (bufReader.left rd < bufReader.left b)%nat).
Proof. intros H. apply ReadLine_loop_left in H. exact H. Qed.

Lemma data_line (line : string) :
  go.bytes_HasPrefix line "data: " = true ->
  (String.length line =? 0)%nat = false /\ go.bytes_HasPrefix line ":" = false.
Proof.
  unfold go.bytes_HasPrefix. destruct line as [|c l]; [discriminate|].
  change (String.prefix "data: " (String c l))
    with (if ascii_dec "d" c then String.prefix "ata: " l else false).
  destruct (ascii_dec "d" c) as [<-|]; [|discriminate].
  intros _. split; reflexivity.
Qed.


(** ** The streams: [Recv] leaves its loop *)

Section streams.
Context `{!go.Unmarshal anthropic.anthropicEvent.t}
        `{!go.Unmarshal google.geminiResponse.t}
        `{!go.Unmarshal openai.openAIStreamChunk.t}.

(** With more turns than there are lines left to read, the loop of the
    OpenAI [Recv] returns. *)
Lemma openai_Recv_loop_returns (fuel : nat) :
  forall s, (bufReader.left (openai.OpenAIResponseStream.reader s) < fuel)%nat ->
            exists r, openai.Recv_loop fuel s = Some r.
Proof.
  induction fuel as [|fuel IH]; intros s Hlt; [lia|].
  cbn [openai.Recv_loop].
  destruct (bufReader.ReadLine _) as [r rd] eqn:E.
  apply ReadLine_left in E as [_ Hd].
  destruct r as [line|e]; [|eauto]. specialize (Hd line eq_refl).
  repeat case_match; eauto; apply IH; cbn; lia.
Qed.

Lemma openai_Recv_loop_mono (fuel : nat) :
  forall s r, openai.Recv_loop fuel s = Some r -> openai.Recv_loop (S fuel) s = Some r.
Proof.
  induction fuel as [|fuel IH]; intros s r; [discriminate|].
  remember (S fuel) as fuel' eqn:Hf.
  cbn [openai.Recv_loop]. rewrite Hf at 1. cbn [openai.Recv_loop].
  repeat case_match; auto.
Qed.

Lemma openai_Recv_loop_more (k fuel : nat) s r :
  openai.Recv_loop fuel s = Some r -> openai.Recv_loop (k + fuel) s = Some r.
Proof. induction k; [auto|]. intros Hl. cbn [Nat.add]. auto using openai_Recv_loop_mono. Qed.

(** Whatever the loop returns with some number of turns is what [Recv]
    returns. *)
Lemma openai_Recv_of_loop (fuel : nat) s r :
  openai.OpenAIResponseStream.streamFinished s = false ->
  openai.Recv_loop fuel s = Some r ->
  openai.Recv s = r.
Proof.
  intros Hf Hl. unfold openai.Recv. rewrite Hf.
  destruct (openai_Recv_loop_returns
              (S (bufReader.left (openai.OpenAIResponseStream.reader s))) s) as [r' Hr'];
    [lia|].
  rewrite Hr'.
  apply (openai_Recv_loop_more (S (bufReader.left (openai.OpenAIResponseStream.reader s))))
    in Hl.
  apply (openai_Recv_loop_more fuel) in Hr'.
  rewrite Nat.add_comm, Hl in Hr'. congruence.
Qed.

Lemma anthropic_Recv_loop_returns (fuel : nat) :
  forall s w, (bufReader.left (anthropic.AnthropicResponseStream.reader s) < fuel)%nat ->
              exists r w', anthropic.Recv_loop fuel s w = (Some r, w').
Proof.
  induction fuel as [|fuel IH]; intros s w Hlt; [lia|].
  cbn [anthropic.Recv_loop].
  destruct (bufReader.ReadLine _) as [r rd] eqn:E.
  apply ReadLine_left in E as [_ Hd].
  destruct r as [line|e]; [|cbv [go.ret]; eauto]. specialize (Hd line eq_refl).
  cbv beta delta [go.bind go.ret go.time_Now].
  repeat case_match; simplify_eq; eauto; apply IH; cbn; lia.
Qed.

Lemma anthropic_Recv_loop_mono (fuel : nat) :
  forall s w r w',
    anthropic.Recv_loop fuel s w = (Some r, w') ->
    anthropic.Recv_loop (S fuel) s w = (Some r, w').
Proof.
  induction fuel as [|fuel IH]; intros s w r w'; [discriminate|].
  remember (S fuel) as fuel' eqn:Hf.
  cbn [anthropic.Recv_loop]. rewrite Hf at 1. cbn [anthropic.Recv_loop].
  cbv beta delta [go.bind go.ret go.time_Now].
  repeat case_match; simplify_eq; auto.
Qed.

Lemma anthropic_Recv_loop_more (k fuel : nat) s w r w' :
  anthropic.Recv_loop fuel s w = (Some r, w') ->
  anthropic.Recv_loop (k + fuel) s w = (Some r, w').
Proof. induction k; [auto|]. intros Hl. cbn [Nat.add]. auto using anthropic_Recv_loop_mono. Qed.

Lemma anthropic_Recv_of_loop (fuel : nat) s w r w' :
  anthropic.AnthropicResponseStream.streamFinished s = false ->
  anthropic.Recv_loop fuel s w = (Some r, w') ->
  anthropic.Recv s w = (r, w').
Proof.
  intros Hf Hl. unfold anthropic.Recv. rewrite Hf.
  destruct (anthropic_Recv_loop_returns (S (bufReader.left (anthropic.AnthropicResponseStream.reader s))) s w)
    as (r0 & w0 & Hr0); [lia|].
  rewrite Hr0.
  apply (anthropic_Recv_loop_more (S (bufReader.left (anthropic.AnthropicResponseStream.reader s)))) in Hl.
  apply (anthropic_Recv_loop_more fuel) in Hr0.
  rewrite Nat.add_comm, Hl in Hr0. congruence.
Qed.

Lemma google_Recv_loop_returns (fuel : nat) :
  forall s w, (bufReader.left (google.reader s) < fuel)%nat ->
              exists r w', google.Recv_loop fuel s w = (Some r, w').
Proof.
  induction fuel as [|fuel IH]; intros s w Hlt; [lia|].
  cbn [google.Recv_loop].
  destruct (bufReader.ReadLine _) as [r rd] eqn:E.
  apply ReadLine_left in E as [_ Hd].
  destruct r as [line|e]; [|cbv [go.ret]; eauto]. specialize (Hd line eq_refl).
  cbv beta delta [go.bind go.ret go.time_Now].
  repeat case_match; simplify_eq; eauto; apply IH; cbn; lia.
Qed.

Lemma google_Recv_loop_mono (fuel : nat) :
  forall s w r w',
    google.Recv_loop fuel s w = (Some r, w') ->
    google.Recv_loop (S fuel) s w = (Some r, w').
Proof.
  induction fuel as [|fuel IH]; intros s w r w'; [discriminate|].
  remember (S fuel) as fuel' eqn:Hf.
  cbn [google.Recv_loop]. rewrite Hf at 1. cbn [google.Recv_loop].
  cbv beta delta [go.bind go.ret go.time_Now].
  repeat case_match; simplify_eq; auto.
Qed.

Lemma google_Recv_loop_more (k fuel : nat) s w r w' :
  google.Recv_loop fuel s w = (Some r, w') ->
  google.Recv_loop (k + fuel) s w = (Some r, w').
Proof. induction k; [auto|]. intros Hl. cbn [Nat.add]. auto using google_Recv_loop_mono. Qed.

Lemma google_Recv_of_loop (fuel : nat) s w r w' :
  google.streamFinished s = false ->
  google.Recv_loop fuel s w = (Some r, w') ->
  google.Recv s w = (r, w').
Proof.
  intros Hf Hl. unfold google.Recv. rewrite Hf.
  destruct (google_Recv_loop_returns (S (bufReader.left (google.reader s))) s w)
    as (r0 & w0 & Hr0); [lia|].
  rewrite Hr0.
  apply (google_Recv_loop_more (S (bufReader.left (google.reader s)))) in Hl.
  apply (google_Recv_loop_more fuel) in Hr0.
  rewrite Nat.add_comm, Hl in Hr0. congruence.
Qed.

(** *** The end sentinel *)

(** At any turn of the loop of [Recv], a data line whose payload is the
    end sentinel marks the stream finished and ends the call with
    end-of-sequence. *)
Lemma sentinel_marks_finished (line : string) :
  go.bytes_HasPrefix line "data: " = true ->
  go.bytes_TrimPrefix line "data: " = "[DONE]" ->
  (forall (s : openai.OpenAIResponseStream.t) rd fuel,
     bufReader.ReadLine (openai.OpenAIResponseStream.reader s) = (Ok line, rd) ->
     openai.Recv_loop (S fuel) s
     = Some (Err io_EOF,
             openai.OpenAIResponseStream.finished
               (openai.OpenAIResponseStream.with_reader s rd)))
  /\ (forall (s : anthropic.AnthropicResponseStream.t) rd fuel w,
        bufReader.ReadLine (anthropic.AnthropicResponseStream.reader s) = (Ok line, rd) ->
        anthropic.Recv_loop (S fuel) s w
        = (Some (Err io_EOF,
                 anthropic.AnthropicResponseStream.finished
                   (anthropic.AnthropicResponseStream.with_reader s rd)), w))
  /\ (forall (s : google.GeminiResponseStream) rd fuel w,
        bufReader.ReadLine (google.reader s) = (Ok line, rd) ->
        google.Recv_loop (S fuel) s w
        = (Some (Err io_EOF, google.finished (google.with_reader s rd)), w)).
Proof.
  intros Hp Hd. destruct (data_line _ Hp) as [Hl Hc].
  unfold go.bytes_HasPrefix in Hp, Hc.
  split; [|split]; intros s rd fuel.
  - intros Hr. cbn [openai.Recv_loop]. rewrite Hr, Hl.
    unfold go.bytes_HasPrefix. rewrite Hc, Hp. cbn [orb negb]. now rewrite Hd.
  - intros w Hr. cbn [anthropic.Recv_loop]. rewrite Hr, Hl.
    unfold go.bytes_HasPrefix. rewrite Hp. cbn [negb]. now rewrite Hd.
  - intros w Hr. cbn [google.Recv_loop]. rewrite Hr, Hl.
    unfold go.bytes_HasPrefix. rewrite Hp. cbn [negb]. now rewrite Hd.
Qed.

(** C9. Once a stream is marked finished, [Recv] returns end-of-sequence
    at once: the stream, its reader and connection included, and the world
    are left as they were, so no chunk is returned by that call or by any
    number of calls after it. *)
Theorem finished_stream_stays_finished
  (sa : anthropic.AnthropicResponseStream.t) (sg : google.GeminiResponseStream)
  (so : openai.OpenAIResponseStream.t) (w : go.World) (n : nat) :
  anthropic.AnthropicResponseStream.streamFinished sa = true ->
  google.streamFinished sg = true ->
  openai.OpenAIResponseStream.streamFinished so = true ->
  (openai.Recv so = (Err io_EOF, so)
   /\ anthropic.Recv sa w = ((Err io_EOF, sa), w)
   /\ google.Recv sg w = ((Err io_EOF, sg), w))
  /\ expected.calls openai.Recv n so = (repeat (Err io_EOF) n, so)
  /\ expected.calls (expected.with_world anthropic.Recv) n (sa, w)
     = (repeat (Err io_EOF) n, (sa, w))
  /\ expected.calls (expected.with_world google.Recv) n (sg, w)
     = (repeat (Err io_EOF) n, (sg, w)).
Proof.
  intros Ha Hg Ho.
  assert (Eo : openai.Recv so = (Err io_EOF, so))
    by (unfold openai.Recv; now rewrite Ho).
  assert (Ea : anthropic.Recv sa w = ((Err io_EOF, sa), w))
    by (unfold anthropic.Recv; now rewrite Ha).
  assert (Eg : google.Recv sg w = ((Err io_EOF, sg), w))
    by (unfold google.Recv; now rewrite Hg).
  split; [auto|].
  split; [|split]; induction n as [|n IH]; try reflexivity;
    cbn [expected.calls repeat expected.with_world];
    rewrite ?Eo, ?Ea, ?Eg, IH; reflexivity.
Qed.

(** *** A data line that does not decode *)

(** C4, amended. At any turn of the loop of [Recv], for a line read that
    starts with the data marker and whose payload is not the end sentinel
    and does not decode: the OpenAI stream and the Anthropic stream return
    the decoder's error, wrapped, and are not marked finished; the Gemini
    stream returns no error: when the payload contains the text
    [finishReason] it is marked finished and returns end-of-sequence, and
    otherwise the line is passed over and the loop goes on with the next
    one.  In particular this is what [Recv] does when the line is the first
    it reads. *)
Theorem undecodable_data_line (line data : string) :
  go.bytes_HasPrefix line "data: " = true ->
  data = go.bytes_TrimPrefix line "data: " ->
  data <> "[DONE]" ->
  (forall (s : openai.OpenAIResponseStream.t) rd e,
     bufReader.ReadLine (openai.OpenAIResponseStream.reader s) = (Ok line, rd) ->
     go.json_Unmarshal (T := openai.openAIStreamChunk.t) data = Err e ->
     let r := (Err (wrapError "failed to parse stream chunk: " e),
               openai.OpenAIResponseStream.with_reader s rd) in
     (forall fuel, openai.Recv_loop (S fuel) s = Some r)
     /\ (openai.OpenAIResponseStream.streamFinished s = false -> openai.Recv s = r))
  /\ (forall (s : anthropic.AnthropicResponseStream.t) rd e w,
        bufReader.ReadLine (anthropic.AnthropicResponseStream.reader s) = (Ok line, rd) ->
        go.json_Unmarshal (T := anthropic.anthropicEvent.t) data = Err e ->
        let r := (Err (wrapError "failed to parse stream event: " e),
                  anthropic.AnthropicResponseStream.with_reader s rd) in
        (forall fuel, anthropic.Recv_loop (S fuel) s w = (Some r, w))
        /\ (anthropic.AnthropicResponseStream.streamFinished s = false ->
            anthropic.Recv s w = (r, w)))
  /\ (forall (s : google.GeminiResponseStream) rd e w,
        bufReader.ReadLine (google.reader s) = (Ok line, rd) ->
        go.json_Unmarshal (T := google.geminiResponse.t) data = Err e ->
        if go.strings_Contains data "finishReason" then
          let r := (Err io_EOF, google.finished (google.with_reader s rd)) in
          (forall fuel, google.Recv_loop (S fuel) s w = (Some r, w))
          /\ (google.streamFinished s = false -> google.Recv s w = (r, w))
        else
          forall fuel,
            google.Recv_loop (S fuel) s w
            = google.Recv_loop fuel (google.with_reader s rd) w).
Proof.
  intros Hp -> Hd. destruct (data_line _ Hp) as [Hl Hc].
  apply String.eqb_neq in Hd. unfold go.bytes_HasPrefix in Hp, Hc.
  split; [|split].
  - intros s rd e Hr He r.
    assert (Hloop : forall fuel, openai.Recv_loop (S fuel) s = Some r).
    { intros fuel. cbn [openai.Recv_loop]. rewrite Hr, Hl.
      unfold go.bytes_HasPrefix. rewrite Hc, Hp. cbn [orb negb].
      rewrite Hd, He. reflexivity. }
    split; [exact Hloop|]. intros Hf. exact (openai_Recv_of_loop 1 s r Hf (Hloop O)).
  - intros s rd e w Hr He r.
    assert (Hloop : forall fuel, anthropic.Recv_loop (S fuel) s w = (Some r, w)).
    { intros fuel. cbn [anthropic.Recv_loop]. rewrite Hr, Hl.
      unfold go.bytes_HasPrefix. rewrite Hp. cbn [negb].
      rewrite Hd, He. reflexivity. }
    split; [exact Hloop|]. intros Hf.
    exact (anthropic_Recv_of_loop 1 s w r w Hf (Hloop O)).
  - intros s rd e w Hr He.
    destruct (go.strings_Contains _ "finishReason") eqn:Hfr.
    + intros r.
      assert (Hloop : forall fuel, google.Recv_loop (S fuel) s w = (Some r, w)).
      { intros fuel. cbn [google.Recv_loop]. rewrite Hr, Hl.
        unfold go.bytes_HasPrefix. rewrite Hp. cbn [negb].
        rewrite Hd, He, Hfr. reflexivity. }
      split; [exact Hloop|]. intros Hf.
      exact (google_Recv_of_loop 1 s w r w Hf (Hloop O)).
    + intros fuel. cbn [google.Recv_loop]. rewrite Hr, Hl.
      unfold go.bytes_HasPrefix. rewrite Hp. cbn [negb].
      rewrite Hd, He, Hfr. reflexivity.
Qed.

End streams.

Lemma finished_stream_stays_finished_witness :
  let conn := [fixtures.read (fixtures.sse [fixtures.event_hi])] in
  let so := openai.OpenAIResponseStream.finished (fixtures.openai_stream conn) in
  let sa := anthropic.AnthropicResponseStream.finished (fixtures.anthropic_stream conn) in
  let sg := google.finished (fixtures.gemini_stream conn) in
  let w := fixtures.world (fixtures.ok200 "") in
  @openai.Recv fixtures.openai_chunk_decoder so = (Err io_EOF, so)
  /\ @anthropic.Recv fixtures.anthropic_event_decoder sa w = ((Err io_EOF, sa), w)
  /\ @google.Recv fixtures.gemini_chunk_decoder sg w = ((Err io_EOF, sg), w)
  /\ expected.calls (@openai.Recv fixtures.openai_chunk_decoder) 3 so
     = ([Err io_EOF; Err io_EOF; Err io_EOF], so).
Proof.
  intros conn so sa sg w.
  destruct (@finished_stream_stays_finished
              fixtures.anthropic_event_decoder fixtures.gemini_chunk_decoder
              fixtures.openai_chunk_decoder sa sg so w 3 eq_refl eq_refl eq_refl)
    as ((Ho & Ha & Hg) & Hn & _).
  split; [exact Ho|split; [exact Ha|split; [exact Hg|exact Hn]]].
Defined.

(** C4 as the claim states it fails for the Gemini stream.  A data line
    whose payload is cut short (it is not the end sentinel and does not
    decode) and contains the text [finishReason] makes [Recv] return
    end-of-sequence and mark the stream finished, as a clean end does: no
    error is returned, and the event after it is never delivered.  A data
    line that does not decode and has no such text is passed over: [Recv]
    returns the chunk of the next line. *)
Lemma gemini_undecodable_line_is_not_an_error :
  let w := fixtures.world (fixtures.ok200 "") in
  let s := fixtures.gemini_stream
             [fixtures.read (fixtures.sse [fixtures.gemini_event_cut; fixtures.gemini_event])] in
  let s' := fixtures.gemini_stream
              [fixtures.read (fixtures.sse ["{oops"; fixtures.gemini_event])] in
  go.json_Unmarshal (Unmarshal := fixtures.gemini_chunk_decoder) fixtures.gemini_event_cut
  = Err (errorString "unexpected end of JSON input")
  /\ fixtures.gemini_event_cut <> "[DONE]"
  /\ fst (fst (@google.Recv fixtures.gemini_chunk_decoder s w)) = Err io_EOF
  /\ google.streamFinished (snd (fst (@google.Recv fixtures.gemini_chunk_decoder s w))) = true
  /\ go.json_Unmarshal (Unmarshal := fixtures.gemini_chunk_decoder) "{oops"
     = Err (errorString "unexpected end of JSON input")
  /\ match fst (fst (@google.Recv fixtures.gemini_chunk_decoder s' w)) with
     | Ok resp => fixtures.contents [Ok resp] = ["Hi"]
     | Err _ => False
     end.
Proof. vm_compute. repeat split. discriminate. Qed.

Lemma undecodable_data_line_witness :
  let so := fixtures.openai_stream [fixtures.read (fixtures.sse ["{oops"; fixtures.event_hi])] in
  let sa := fixtures.anthropic_stream [fixtures.read (fixtures.sse ["{oops"])] in
  let w := fixtures.world (fixtures.ok200 "") in
  fst (@openai.Recv fixtures.openai_chunk_decoder so)
  = Err (wrapError "failed to parse stream chunk: "
           (errorString "unexpected end of JSON input"))
  /\ fst (fst (@anthropic.Recv fixtures.anthropic_event_decoder sa w))
     = Err (wrapError "failed to parse stream event: "
              (errorString "unexpected end of JSON input")).
Proof.
  intros so sa w.
  destruct (@undecodable_data_line
              fixtures.anthropic_event_decoder fixtures.gemini_chunk_decoder
              fixtures.openai_chunk_decoder "data: {oops" "{oops"
              eq_refl eq_refl ltac:(discriminate)) as (Ho & Ha & _).
  split.
  - destruct (bufReader.ReadLine (openai.OpenAIResponseStream.reader so)) as [l rd] eqn:E.
    assert (El : l = Ok "data: {oops").
    { replace l with (fst (bufReader.ReadLine (openai.OpenAIResponseStream.reader so)))
        by now rewrite E.
      vm_compute. reflexivity. }
    subst l. destruct (Ho so rd _ E eq_refl) as [_ Hr]. now rewrite (Hr eq_refl).
  - destruct (bufReader.ReadLine (anthropic.AnthropicResponseStream.reader sa))
      as [l rd] eqn:E.
    assert (El : l = Ok "data: {oops").
    { replace l with (fst (bufReader.ReadLine (anthropic.AnthropicResponseStream.reader sa)))
        by now rewrite E.
      vm_compute. reflexivity. }
    subst l. destruct (Ha sa rd _ w E eq_refl) as [_ Hr]. now rewrite (Hr eq_refl).
Defined.

(** *** The OpenAI example *)

(** The four events [role], ["Hi"], [" there" / stop], [[DONE]], delivered
    whole (all in one read, or one read for each), with or without a
    further event after the sentinel: [Recv] returns a chunk for each of
    the three events, the first with the role and no text, then
    end-of-sequence for good; the chunks that carry text are ["Hi"] and
    [" there"]. *)
Lemma openai_stream_whole_lines :
  let events := [fixtures.event_role; fixtures.event_hi; fixtures.event_there; "[DONE]"] in
  let expected :=
    [ Ok (fixtures.openai_chunk "assistant" "" "");
      Ok (fixtures.openai_chunk "assistant" "Hi" "");
      Ok (fixtures.openai_chunk "assistant" " there" "stop");
      Err io_EOF; Err io_EOF; Err io_EOF ] in
  let run (conn : go.Conn) :=
    fst (expected.calls (@openai.Recv fixtures.openai_chunk_decoder) 6
           (fixtures.openai_stream conn)) in
  run [fixtures.read (fixtures.sse events)] = expected
  /\ run (List.map (fun e => fixtures.read (fixtures.sse [e])) events) = expected
  /\ run [fixtures.read (fixtures.sse (events ++ [fixtures.event_hi]))] = expected
  /\ run (List.map (fun e => fixtures.read (fixtures.sse [e]))
            (events ++ [fixtures.event_hi])) = expected
  /\ fixtures.contents expected = ["Hi"; " there"].
Proof. vm_compute. repeat split. Qed.

(** C5 does not hold for every way the connection delivers the bytes.
    When a read ends inside a data line (here the first read brings the
    first event and the first eight bytes of the line of the second),
    [ReadLine] drops the part of
    the line it has taken from the buffer and returns only the part that
    comes with the next read, which [Recv] passes over as a line without
    the data marker: the chunk ["Hi"] is lost, and one chunk carries
    text. *)
Theorem openai_stream_loses_split_line :
  let text := fixtures.sse
                [fixtures.event_role; fixtures.event_hi; fixtures.event_there; "[DONE]"] in
  let conn := [fixtures.read (go.take 70 text); fixtures.read (go.drop 70 text)] in
  let results := fst (expected.calls (@openai.Recv fixtures.openai_chunk_decoder) 5
                        (fixtures.openai_stream conn)) in
  go.take 70 text +:+ go.drop 70 text = text
  /\ go.take 70 text = fixtures.sse [fixtures.event_role] +:+ fixtures.json "data: {'"
  /\ results = [ Ok (fixtures.openai_chunk "assistant" "" "");
                 Ok (fixtures.openai_chunk "assistant" " there" "stop");
                 Err io_EOF; Err io_EOF; Err io_EOF ]
  /\ fixtures.contents results = [" there"].
Proof. vm_compute. repeat split. Qed.

(** ** The router *)

Lemma insertRoute_Permutation (c : router.ModelRoute.t) (l : list router.ModelRoute.t) :
  Permutation (router.insertRoute c l) (c :: l).
Proof.
  induction l as [|c' l IH]; cbn [router.insertRoute]; [reflexivity|].
  destruct (Z.ltb _ _); [|reflexivity].
  rewrite IH. apply perm_swap.
Qed.

Lemma insertRoute_HdRel (a c : router.ModelRoute.t) (l : list router.ModelRoute.t) :
  router.descending a c -> HdRel router.descending a l ->
  HdRel router.descending a (router.insertRoute c l).
Proof.
  intros Hac Hl. destruct l as [|c' l]; cbn [router.insertRoute]; [now constructor|].
  destruct (Z.ltb _ _); constructor; [now inversion Hl|assumption].
Qed.

Lemma insertRoute_Sorted (c : router.ModelRoute.t) (l : list router.ModelRoute.t) :
  Sorted router.descending l -> Sorted router.descending (router.insertRoute c l).
Proof.
  induction 1 as [|c' l Hs IH Hh]; cbn [router.insertRoute].
  - repeat constructor.
  - destruct (Z.ltb_spec (router.ModelRoute.Priority c) (router.ModelRoute.Priority c')).
    + constructor; [exact IH|]. apply insertRoute_HdRel; [|exact Hh].
      unfold router.descending. lia.
    + constructor; [now constructor|]. constructor. unfold router.descending. lia.
Qed.

Lemma insertRoute_withPriority (p : Z) (c : router.ModelRoute.t)
  (l : list router.ModelRoute.t) :
  router.withPriority p (router.insertRoute c l) = router.withPriority p (c :: l).
Proof.
  unfold router.withPriority.
  induction l as [|c' l IH]; cbn [router.insertRoute]; [reflexivity|].
  destruct (Z.ltb_spec (router.ModelRoute.Priority c) (router.ModelRoute.Priority c'));
    [|reflexivity].
  cbn [List.filter] in *. rewrite IH.
  destruct (Z.eqb_spec (router.ModelRoute.Priority c') p),
    (Z.eqb_spec (router.ModelRoute.Priority c) p); try reflexivity; lia.
Qed.

(** The order of the candidates is a rearrangement of the routes, by
    descending priority, that keeps the routes of each priority in the
    order they were registered in. *)
Lemma sortRoutes_order (l : list router.ModelRoute.t) :
  Permutation (router.sortRoutes l) l
  /\ Sorted router.descending (router.sortRoutes l)
  /\ forall p, router.withPriority p (router.sortRoutes l) = router.withPriority p l.
Proof.
  unfold router.sortRoutes.
  induction l as [|c l (IHp & IHs & IHf)]; cbn [fold_right].
  - repeat split; constructor.
  - split; [|split].
    + rewrite insertRoute_Permutation. now constructor.
    + now apply insertRoute_Sorted.
    + intros p. rewrite insertRoute_withPriority. unfold router.withPriority in *.
      cbn [List.filter]. now rewrite IHf.
Qed.

(** The candidates before the first one that succeeds are attempted in
    order and fail; the rest of the list is then tried from the world they
    leave. *)
Lemma tryCandidates_app (registeredProviders : llm.Registry)
  (messages : list llm.Message.t) (opts : list llm.CompletionOption)
  (pre post : list router.ModelRoute.t) :
  forall w w',
    router.allFail registeredProviders (List.map router.ModelRoute.ModelID pre)
      messages opts w = Some w' ->
    router.tryCandidates registeredProviders (pre ++ post) messages opts w
    = let '((o, ids), w'') :=
        router.tryCandidates registeredProviders post messages opts w' in
      ((o, (List.map router.ModelRoute.ModelID pre ++ ids)%list), w'').
Proof.
  induction pre as [|c pre IH]; intros w w'.
  - cbn. intros [= ->]. now destruct (router.tryCandidates _ post _ _ _) as [[o ids] w''].
  - cbn [List.map router.allFail app router.tryCandidates]. unfold go.bind at 1.
    destruct (llm.Completion _ _ _ _ w) as [[resp|e] w1]; [discriminate|].
    intros Hf. unfold go.bind, go.ret. rewrite (IH _ _ Hf).
    now destruct (router.tryCandidates _ post _ _ _) as [[o ids] w''].
Qed.

(** C1. Let the candidates be the routes of the task type in priority
    order, and let an initial part of them fail one after the other.  When
    a candidate follows and its [Completion] succeeds, the router returns
    that response, having called [llm.Completion] for the failed
    candidates and for this one and for no other model, the fallback
    included, and it leaves the world as that call left it.  When no
    candidate follows (they all failed, or there was none), the router
    calls the fallback model, once, after the candidates, and returns
    whatever that call returns: its response, or its error. *)
Theorem route_first_success_or_fallback
  (r : router.Router.t) (registeredProviders : llm.Registry)
  (taskType : router.TaskType) (messages : list llm.Message.t)
  (opts : list llm.CompletionOption)
  (pre post : list router.ModelRoute.t) (w w' : go.World) :
  router.sortRoutes (router.routesFor r taskType) = (pre ++ post)%list ->
  router.allFail registeredProviders (List.map router.ModelRoute.ModelID pre)
    messages opts w = Some w' ->
  match post with
  | c :: _ =>
      forall resp w'',
        llm.Completion registeredProviders (router.ModelRoute.ModelID c) messages opts w'
        = (Ok resp, w'') ->
        router.Route_calls r registeredProviders taskType messages opts w
        = ((Ok resp,
            (List.map router.ModelRoute.ModelID pre ++ [router.ModelRoute.ModelID c])%list),
           w'')
        /\ gollm.RouteCompletion r registeredProviders taskType messages opts w
           = (Ok resp, w'')
  | [] =>
      forall res w'',
        llm.Completion registeredProviders (router.Router.fallbackModel r) messages opts w'
        = (res, w'') ->
        router.Route_calls r registeredProviders taskType messages opts w
        = ((res,
            (List.map router.ModelRoute.ModelID pre ++ [router.Router.fallbackModel r])%list),
           w'')
        /\ gollm.RouteCompletion r registeredProviders taskType messages opts w
           = (res, w'')
  end.
Proof.
  intros Hs Hf.
  assert (Hr : forall x,
             router.Route_calls r registeredProviders taskType messages opts w = x ->
             gollm.RouteCompletion r registeredProviders taskType messages opts w
             = (fst (fst x), snd x)).
  { intros x <-. unfold gollm.RouteCompletion, router.Route, go.bind, go.ret.
    now destruct (router.Route_calls _ _ _ _ _ _) as [[res ids] w0]. }
  destruct post as [|c post].
  - intros res w'' Hc.
    assert (Hx : router.Route_calls r registeredProviders taskType messages opts w
                 = ((res, (List.map router.ModelRoute.ModelID pre
                            ++ [router.Router.fallbackModel r])%list), w'')).
    { unfold router.Route_calls, go.bind. rewrite Hs, (tryCandidates_app _ _ _ _ _ _ _ Hf).
      cbn [router.tryCandidates go.ret fst snd]. unfold go.ret.
      now rewrite Hc, app_nil_r. }
    split; [exact Hx|exact (Hr _ Hx)].
  - intros resp w'' Hc.
    assert (Hx : router.Route_calls r registeredProviders taskType messages opts w
                 = ((Ok resp, (List.map router.ModelRoute.ModelID pre
                                ++ [router.ModelRoute.ModelID c])%list), w'')).
    { unfold router.Route_calls, go.bind. rewrite Hs, (tryCandidates_app _ _ _ _ _ _ _ Hf).
      cbn [router.tryCandidates]. unfold go.bind, go.ret. now rewrite Hc. }
    split; [exact Hx|exact (Hr _ Hx)].
Qed.

(** The example of the specification: routes ["a/x"] (priority 3) and
    ["a/y"] (priority 2) for the task type, fallback ["a/z"]. *)
Lemma route_first_success_or_fallback_witness :
  let w := fixtures.world (fixtures.ok200 "") in
  let route (up : list string) :=
    fst (router.Route_calls fixtures.router_T (fixtures.registry_a up) "T"
           fixtures.hello [] w) in
  route ["x"; "y"; "z"] = (Ok (fixtures.answer "x"), ["a/x"])
  /\ route ["y"; "z"] = (Ok (fixtures.answer "y"), ["a/x"; "a/y"])
  /\ route ["z"] = (Ok (fixtures.answer "z"), ["a/x"; "a/y"; "a/z"])
  /\ route [] = (Err (errorString "a: z is down"), ["a/x"; "a/y"; "a/z"]).
Proof.
  intros w route.
  assert (Hgo : forall up pre post w' res w'',
             router.sortRoutes (router.routesFor fixtures.router_T "T") = (pre ++ post)%list ->
             router.allFail (fixtures.registry_a up)
               (List.map router.ModelRoute.ModelID pre) fixtures.hello [] w = Some w' ->
             llm.Completion (fixtures.registry_a up)
               (match post with
                | c :: _ => router.ModelRoute.ModelID c
                | [] => router.Router.fallbackModel fixtures.router_T
                end) fixtures.hello [] w' = (res, w'') ->
             match post, res with c :: _, Err _ => False | _, _ => True end ->
             route up
             = (res, (List.map router.ModelRoute.ModelID pre
                       ++ [match post with
                           | c :: _ => router.ModelRoute.ModelID c
                           | [] => router.Router.fallbackModel fixtures.router_T
                           end])%list)).
  { intros up pre post w' res w'' Hs Hf Hc Hok. unfold route.
    pose proof (route_first_success_or_fallback fixtures.router_T (fixtures.registry_a up)
                  "T" fixtures.hello [] pre post w w' Hs Hf) as Ht.
    destruct post as [|c post].
    - destruct (Ht res w'' Hc) as [-> _]. reflexivity.
    - destruct res as [resp|e]; [|contradiction].
      destruct (Ht resp w'' Hc) as [-> _]. reflexivity. }
  set (rx := {| router.ModelRoute.TaskType := "T";
                router.ModelRoute.ModelID := "a/x";
                router.ModelRoute.Priority := 3;
                router.ModelRoute.MaxTokens := 8192 |}).
  set (ry := {| router.ModelRoute.TaskType := "T";
                router.ModelRoute.ModelID := "a/y";
                router.ModelRoute.Priority := 2;
                router.ModelRoute.MaxTokens := 4096 |}).
  assert (Hsort : router.sortRoutes (router.routesFor fixtures.router_T "T") = [rx; ry])
    by reflexivity.
  split; [|split; [|split]].
  - apply (Hgo ["x"; "y"; "z"] [] [rx; ry] w (Ok (fixtures.answer "x")) (fixtures.after 1 w));
      [exact Hsort|reflexivity|reflexivity|exact I].
  - apply (Hgo ["y"; "z"] [rx] [ry] (fixtures.after 1 w) (Ok (fixtures.answer "y"))
             (fixtures.after 2 w));
      [exact Hsort|reflexivity|reflexivity|exact I].
  - apply (Hgo ["z"] [rx; ry] [] (fixtures.after 2 w) (Ok (fixtures.answer "z"))
             (fixtures.after 3 w));
      [exact Hsort|reflexivity|reflexivity|exact I].
  - apply (Hgo [] [rx; ry] [] (fixtures.after 2 w) (Err (errorString "a: z is down"))
             (fixtures.after 3 w));
      [exact Hsort|reflexivity|reflexivity|exact I].
Defined.

(** * Further properties of the code *)

(** ** Package llm: the registry *)

(** Registration and lookup.  A provider is found under its name once it
    is registered, the other names are not affected, registering a second
    provider with the same name replaces the first, the table stays keyed
    by the providers' own names, and [ListProviders] lists every registered
    name once. *)
Theorem RegisterProvider_GetProvider
  (registeredProviders : llm.Registry) (provider : llm.Provider.t) :
  let table := llm.RegisterProvider provider registeredProviders in
  llm.GetProvider table (llm.Provider.Name provider) = Some provider
  /\ (forall name, name <> llm.Provider.Name provider ->
        llm.GetProvider table name = llm.GetProvider registeredProviders name)
  /\ (forall provider',
        llm.Provider.Name provider' = llm.Provider.Name provider ->
        llm.RegisterProvider provider' table
        = llm.RegisterProvider provider' registeredProviders)
  /\ (notions.keyed registeredProviders -> notions.keyed table)
  /\ NoDup (llm.ListProviders table)
  /\ (forall name, name ∈ llm.ListProviders table <-> is_Some (llm.GetProvider table name)).
Proof.
  intros table. unfold table, llm.RegisterProvider, llm.GetProvider, llm.ListProviders.
  split; [apply lookup_insert_eq|].
  split; [intros name Hn; now apply lookup_insert_ne|].
  split; [intros provider' ->; apply insert_insert_eq|].
  split.
  { intros Hk name p. destruct (decide (llm.Provider.Name provider = name)) as [<-|Hn].
    - rewrite lookup_insert_eq. now intros [= <-].
    - rewrite lookup_insert_ne by exact Hn. apply Hk. }
  split; [apply NoDup_fst_map_to_list|].
  intros name. rewrite list_elem_of_fmap. split.
  - intros ([k p] & -> & Hin). apply elem_of_map_to_list in Hin. cbn. now rewrite Hin.
  - intros [p Hp]. exists (name, p). split; [reflexivity|]. now apply elem_of_map_to_list.
Qed.

Lemma parseModelIdentifier_Ok (modelID provider model : string) :
  llm.parseModelIdentifier modelID = Ok (provider, model) ->
  modelID = provider +:+ "/" +:+ model /\ go.strings_Contains provider "/" = false.
Proof.
  intros Hp. destruct (go.strings_Contains modelID "/") eqn:Hc.
  - destruct (slash_decompose _ Hc) as (p & m & -> & Hn).
    rewrite (parseModelIdentifier_split _ _ Hn) in Hp. injection Hp as <- <-. now split.
  - rewrite (parseModelIdentifier_no_slash _ Hc) in Hp. discriminate.
Qed.

(** Resolution returns a provider and a model name that spell the
    identifier: in a table keyed by the providers' names, the name of the
    provider, a ["/"] and the model name are the identifier that was
    resolved; the provider is the one registered under that name and it
    supports the model. *)
Theorem getProviderForModel_spells_identifier
  (registeredProviders : llm.Registry) (modelID : string)
  (provider : llm.Provider.t) (modelName : string) :
  notions.keyed registeredProviders ->
  llm.getProviderForModel registeredProviders modelID = Ok (provider, modelName) ->
  modelID = llm.Provider.Name provider +:+ "/" +:+ modelName
  /\ go.strings_Contains (llm.Provider.Name provider) "/" = false
  /\ llm.GetProvider registeredProviders (llm.Provider.Name provider) = Some provider
  /\ llm.Provider.SupportsModel provider modelName = true.
Proof.
  intros Hk. unfold llm.getProviderForModel, llm.GetProvider.
  destruct (llm.parseModelIdentifier modelID) as [[p m]|e] eqn:Hp; [|discriminate].
  apply parseModelIdentifier_Ok in Hp as [-> Hn].
  destruct (registeredProviders !! p) as [q|] eqn:Hq; [|discriminate].
  destruct (llm.Provider.SupportsModel q m) eqn:Hs; [|discriminate].
  cbn [negb]. intros [= <- <-]. rewrite (Hk _ _ Hq). auto.
Qed.

Section registry.
Context `{!go.Unmarshal anthropic.anthropicResponse.t}
        `{!go.Unmarshal anthropic.anthropicEvent.t}
        `{!go.Unmarshal google.geminiResponse.t}
        `{!go.Unmarshal openai.openAIResponse.t}
        `{!go.Unmarshal openai.openAIStreamChunk.t}.

Lemma Initialize_lookup (environ : gmap string string) (name : string) :
  providers.Initialize environ !! name
  = if String.eqb name "openai" then
      Some (openai.asProvider (openai.NewProvider environ))
    else if String.eqb name "google" then
      Some (google.asProvider (google.NewProvider environ))
    else if String.eqb name "anthropic" then
      Some (anthropic.asProvider (anthropic.NewProvider environ))
    else None.
Proof.
  unfold providers.Initialize, openai.Initialize, google.Initialize, anthropic.Initialize,
    llm.RegisterProvider.
  unfold openai.Name, google.Name, anthropic.Name.
  destruct (String.eqb_spec name "openai") as [->|N1]; [apply lookup_insert_eq|].
  rewrite lookup_insert_ne by (intros E; apply eq_sym in E; contradiction).
  destruct (String.eqb_spec name "google") as [->|N2]; [apply lookup_insert_eq|].
  rewrite lookup_insert_ne by (intros E; apply eq_sym in E; contradiction).
  destruct (String.eqb_spec name "anthropic") as [->|N3]; [apply lookup_insert_eq|].
  rewrite lookup_insert_ne by (intros E; apply eq_sym in E; contradiction). apply lookup_empty.
Qed.

Lemma Initialize_keyed (environ : gmap string string) :
  notions.keyed (providers.Initialize environ).
Proof.
  intros name p. rewrite Initialize_lookup.
  repeat (case_match; try discriminate); intros [= <-]; symmetry;
    now apply String.eqb_eq.
Qed.

(** The table after the adapters' [init] functions have run: whatever the
    environment holds, exactly the names [anthropic], [google] and [openai]
    are registered, each adapter under its own name, and whether and how an
    identifier resolves does not depend on the environment: a model
    resolves with or without a key for its vendor. *)
Theorem Initialize_registers_the_three_adapters (environ : gmap string string) :
  notions.keyed (providers.Initialize environ)
  /\ Permutation (llm.ListProviders (providers.Initialize environ))
       ["anthropic"; "google"; "openai"]
  /\ (forall modelID,
        match llm.getProviderForModel (providers.Initialize environ) modelID,
              llm.getProviderForModel (providers.Initialize ∅) modelID with
        | Ok (provider, modelName), Ok (provider', modelName') =>
            llm.Provider.Name provider = llm.Provider.Name provider'
            /\ modelName = modelName'
        | Err err, Err err' => err = err'
        | _, _ => False
        end).
Proof.
  split; [apply Initialize_keyed|split].
  - apply NoDup_Permutation.
    + apply NoDup_fst_map_to_list.
    + apply (bool_decide_unpack _). reflexivity.
    + intros name. unfold llm.ListProviders. rewrite list_elem_of_fmap. split.
      * intros ([k p] & -> & Hin). apply elem_of_map_to_list in Hin.
        rewrite Initialize_lookup in Hin. cbn [fst].
        repeat (case_match; try discriminate);
          match goal with H : String.eqb _ _ = true |- _ => apply String.eqb_eq in H as -> end;
          set_solver.
      * intros Hin.
        assert (Hs : is_Some (providers.Initialize environ !! name)).
        { rewrite Initialize_lookup. set_unfold in Hin.
          destruct Hin as [->|[->|[->|[]]]]; cbn; eauto. }
        destruct Hs as [p Hp]. exists (name, p). split; [reflexivity|].
        now apply elem_of_map_to_list.
  - intros modelID. unfold llm.getProviderForModel.
    destruct (llm.parseModelIdentifier modelID) as [[p m]|e]; [|reflexivity].
    rewrite !Initialize_lookup.
    repeat case_match; simplify_eq; cbn in *; try done; try congruence.
Qed.

End registry.

Lemma getProviderForModel_spells_identifier_witness :
  exists provider,
    llm.getProviderForModel fixtures.registry "anthropic/claude-2.1"
    = Ok (provider, "claude-2.1")
    /\ "anthropic/claude-2.1" = llm.Provider.Name provider +:+ "/" +:+ "claude-2.1".
Proof.
  destruct (llm.getProviderForModel fixtures.registry "anthropic/claude-2.1")
    as [[provider modelName]|e] eqn:E.
  - assert (Hm : modelName = "claude-2.1").
    { replace modelName with
        (match llm.getProviderForModel fixtures.registry "anthropic/claude-2.1" with
         | Ok (_, m) => m | Err _ => modelName end) by now rewrite E.
      reflexivity. }
    subst modelName. exists provider. split; [reflexivity|].
    apply (getProviderForModel_spells_identifier fixtures.registry _ provider _);
      [|exact E].
    apply (@Initialize_keyed
             fixtures.anthropic_decoder fixtures.anthropic_event_decoder
             fixtures.gemini_chunk_decoder fixtures.openai_decoder
             fixtures.openai_chunk_decoder ∅).
  - exfalso.
    assert (Hok : match llm.getProviderForModel fixtures.registry "anthropic/claude-2.1" with
                  | Ok _ => True | Err _ => False end) by exact I.
    now rewrite E in Hok.
Defined.

(** ** Package llm: a list of options, and delegation *)

Lemma apply_frame (o : options.t) (f : options.Field) (req : llm.CompletionRequest.t) :
  options.owns o <> f -> options.get f (options.apply o req) = options.get f req.
Proof. intros Hf. destruct o, f; try reflexivity; contradiction. Qed.

Lemma applyOptions_app (opts opts' : list llm.CompletionOption)
  (req : llm.CompletionRequest.t) :
  llm.applyOptions (opts ++ opts')%list req = llm.applyOptions opts' (llm.applyOptions opts req).
Proof. apply fold_left_app. Qed.

Lemma applyOptions_frame (os : list options.t) (f : options.Field) :
  Forall (fun o => options.owns o <> f) os ->
  forall req,
    options.get f (llm.applyOptions (options.apply <$> os) req) = options.get f req.
Proof.
  induction 1 as [|o os Ho _ IH]; intros req; [reflexivity|].
  cbn [fmap list_fmap llm.applyOptions fold_left].
  change (fold_left _ (options.apply <$> os) ?r) with (llm.applyOptions (options.apply <$> os) r).
  rewrite IH. now apply apply_frame.
Qed.

(** The options of a call are applied from left to right, and the last
    option on a field decides it: when no option after [o] writes the
    field of [o], the field holds what [o] stored, given the request as the
    options before [o] left it.  For the four scalar options that is the
    value of [o]; for [WithExtraParams] it is its entries on top of the
    bag the earlier options built. *)
Theorem applyOptions_last_wins
  (before : list options.t) (o : options.t) (after : list options.t)
  (req : llm.CompletionRequest.t) :
  Forall (fun o' => options.owns o' <> options.owns o) after ->
  options.get (options.owns o)
    (llm.applyOptions (options.apply <$> (before ++ o :: after)%list) req)
  = options.writes o (llm.applyOptions (options.apply <$> before) req).
Proof.
  intros Ha. rewrite fmap_app, applyOptions_app.
  cbn [fmap list_fmap llm.applyOptions fold_left].
  change (fold_left _ (options.apply <$> after) ?r)
    with (llm.applyOptions (options.apply <$> after) r).
  rewrite (applyOptions_frame _ _ Ha).
  destruct o; reflexivity.
Qed.

Lemma applyOptions_last_wins_witness :
  llm.CompletionRequest.Temperature
    (llm.applyOptions
       [llm.WithTemperature 0.5; llm.WithUser "u"; llm.WithTemperature 0.25;
        llm.WithMaxTokens 7]
       (llm.newRequest "gpt-4o" fixtures.hello false))
  = Some 0.25%float.
Proof.
  apply (applyOptions_last_wins
           [options.WithTemperature 0.5; options.WithUser "u"]
           (options.WithTemperature 0.25) [options.WithMaxTokens 7]).
  repeat constructor; discriminate.
Defined.

(** What reaches the adapter.  When the identifier does not resolve,
    [Completion] and [CompletionStream] return the error of the resolution
    and the adapter is not called: the world is as it was.  When it
    resolves, the adapter is called once, with a request that carries the
    bare model name, the caller's messages and the stream flag of the entry
    point ([false] for [Completion], [true] for [CompletionStream]); none
    of the five options can change these, nor set the penalties, the stop
    sequences or the logit bias, which are always empty. *)
Theorem Completion_delegates
  (registeredProviders : llm.Registry) (modelID : string)
  (messages : list llm.Message.t) (os : list options.t) :
  match llm.getProviderForModel registeredProviders modelID with
  | Err err =>
      forall w,
        llm.Completion registeredProviders modelID messages (options.apply <$> os) w
        = (Err err, w)
        /\ llm.CompletionStream registeredProviders modelID messages (options.apply <$> os) w
           = (Err err, w)
  | Ok (provider, modelName) =>
      forall stream,
        let req := llm.applyOptions (options.apply <$> os)
                     (llm.newRequest modelName messages stream) in
        llm.Completion registeredProviders modelID messages (options.apply <$> os)
        = llm.Provider.Completion provider
            (llm.applyOptions (options.apply <$> os)
               (llm.newRequest modelName messages false))
        /\ llm.CompletionStream registeredProviders modelID messages (options.apply <$> os)
           = llm.Provider.CompletionStream provider
               (llm.applyOptions (options.apply <$> os)
                  (llm.newRequest modelName messages true))
        /\ llm.CompletionRequest.Model req = modelName
        /\ llm.CompletionRequest.Messages req = messages
        /\ llm.CompletionRequest.Stream req = stream
        /\ llm.CompletionRequest.FrequencyPenalty req = None
        /\ llm.CompletionRequest.PresencePenalty req = None
        /\ llm.CompletionRequest.Stop req = []
        /\ llm.CompletionRequest.LogitBias req = ∅
  end.
Proof.
  unfold llm.Completion, llm.CompletionStream.
  destruct (llm.getProviderForModel registeredProviders modelID) as [[provider modelName]|err];
    cbn beta iota; [|intros w; split; reflexivity].
  intros stream.
  set (req := llm.applyOptions (options.apply <$> os) (llm.newRequest modelName messages stream)).
  assert (Hu : forall f, notions.unowned f ->
                         options.get f req
                         = options.get f (llm.newRequest modelName messages stream)).
  { intros f Hf. apply applyOptions_frame. apply Forall_forall. intros o _. apply Hf. }
  split; [reflexivity|]. split; [reflexivity|].
  split; [apply (Hu options.Model); intros []; discriminate|].
  split; [apply (Hu options.Messages); intros []; discriminate|].
  split; [apply (Hu options.Stream); intros []; discriminate|].
  split; [apply (Hu options.FrequencyPenalty); intros []; discriminate|].
  split; [apply (Hu options.PresencePenalty); intros []; discriminate|].
  split; [apply (Hu options.Stop); intros []; discriminate|].
  apply (Hu options.LogitBias); intros []; discriminate.
Qed.

(** ** The adapters: what becomes of the messages *)

Lemma default_last_cons {A B : Type} (f : A -> B) (d : B) (x : A) (l : list A) :
  default d (f <$> last (x :: l)) = default (f x) (f <$> last l).
Proof.
  destruct l as [|y l]; [reflexivity|].
  change (last (x :: y :: l)) with (last (y :: l)).
  destruct (last (y :: l)) eqn:E; [reflexivity|]. now apply last_None in E.
Qed.

Lemma convertMessages_fold (messages : list llm.Message.t) :
  forall (acc : list anthropic.anthropicMessage.t) (system : string),
    fold_left
      (fun '((anthropicMessages, system) : list anthropic.anthropicMessage.t * string) msg =>
         if String.eqb (llm.Message.Role msg) "system" then
           (anthropicMessages, llm.Message.Content msg)
         else
           let role := llm.Message.Role msg in
           let role := if String.eqb role "assistant" then "assistant" else "user" in
           ((anthropicMessages
               ++ [ {| anthropic.anthropicMessage.Role := role;
                       anthropic.anthropicMessage.Content := llm.Message.Content msg |} ])%list,
            system))
      messages (acc, system)
    = ((acc ++ List.map
                 (fun msg =>
                    {| anthropic.anthropicMessage.Role :=
                         if String.eqb (llm.Message.Role msg) "assistant"
                         then "assistant" else "user";
                       anthropic.anthropicMessage.Content := llm.Message.Content msg |})
                 (List.filter (fun msg => negb (String.eqb (llm.Message.Role msg) "system"))
                    messages))%list,
       default system
         (llm.Message.Content <$>
            last (List.filter (fun msg => String.eqb (llm.Message.Role msg) "system")
                    messages))).
Proof.
  induction messages as [|msg messages IH]; intros acc system.
  - cbn. now rewrite app_nil_r.
  - cbn [fold_left List.filter].
    destruct (String.eqb (llm.Message.Role msg) "system") eqn:E; cbn [negb].
    + rewrite IH. f_equal. symmetry. apply default_last_cons.
    + rewrite IH. cbn [List.map]. now rewrite <- app_assoc.
Qed.

(** [convertMessages] of the Anthropic adapter keeps the messages that are
    not system messages, in order, each with its content and with the role
    [assistant] or [user] (every other role becomes [user]); the system
    prompt is the content of the LAST system message, and empty when there
    is none. *)
Theorem anthropic_convertMessages_spec (messages : list llm.Message.t) :
  let turns :=
    List.filter (fun msg => negb (String.eqb (llm.Message.Role msg) "system")) messages in
  let systems :=
    List.filter (fun msg => String.eqb (llm.Message.Role msg) "system") messages in
  anthropic.convertMessages messages
  = (List.map
       (fun msg =>
          {| anthropic.anthropicMessage.Role :=
               if String.eqb (llm.Message.Role msg) "assistant" then "assistant" else "user";
             anthropic.anthropicMessage.Content := llm.Message.Content msg |})
       turns,
     default "" (llm.Message.Content <$> last systems))
  /\ Forall (fun m => anthropic.anthropicMessage.Role m = "assistant"
                      \/ anthropic.anthropicMessage.Role m = "user")
       (fst (anthropic.convertMessages messages))
  /\ (List.length (fst (anthropic.convertMessages messages))
      + List.length systems = List.length messages)%nat.
Proof.
  intros turns systems.
  assert (E : anthropic.convertMessages messages
              = (List.map
                   (fun msg =>
                      {| anthropic.anthropicMessage.Role :=
                           if String.eqb (llm.Message.Role msg) "assistant"
                           then "assistant" else "user";
                         anthropic.anthropicMessage.Content := llm.Message.Content msg |})
                   turns,
                 default "" (llm.Message.Content <$> last systems))).
  { unfold anthropic.convertMessages. now rewrite convertMessages_fold. }
  split; [exact E|]. rewrite E. cbn [fst]. split.
  - apply List.Forall_forall. intros m Hm. apply in_map_iff in Hm as (msg & <- & _).
    cbn. destruct (String.eqb _ "assistant"); auto.
  - rewrite length_map. subst turns systems. clear E.
    induction messages as [|msg messages IH]; [reflexivity|].
    cbn [List.filter]. destruct (String.eqb _ "system"); cbn [negb length]; lia.
Qed.

Lemma convertMessagesToGeminiFormat_fold (messages : list llm.Message.t) :
  forall acc : list google.geminiContent.t,
    fold_left
      (fun (geminiContents : list google.geminiContent.t) msg =>
         if String.eqb (llm.Message.Role msg) "system" then geminiContents
         else
           let role := llm.Message.Role msg in
           let role :=
             if String.eqb role "assistant" then "model"
             else if negb (String.eqb role "user") then "user"
             else role in
           (geminiContents
              ++ [ {| google.geminiContent.Role := role;
                      google.geminiContent.Parts :=
                        [ {| google.geminiPart.Text := llm.Message.Content msg;
                             google.geminiPart.Role := "" |} ] |} ])%list)
      messages acc
    = (acc ++ List.map
                (fun msg =>
                   {| google.geminiContent.Role :=
                        if String.eqb (llm.Message.Role msg) "assistant" then "model"
                        else "user";
                      google.geminiContent.Parts :=
                        [ {| google.geminiPart.Text := llm.Message.Content msg;
                             google.geminiPart.Role := "" |} ] |})
                (List.filter (fun msg => negb (String.eqb (llm.Message.Role msg) "system"))
                   messages))%list.
Proof.
  induction messages as [|msg messages IH]; intros acc.
  - cbn. now rewrite app_nil_r.
  - cbn [fold_left List.filter].
    destruct (String.eqb (llm.Message.Role msg) "system") eqn:E; cbn [negb].
    + apply IH.
    + rewrite IH. cbn [List.map]. rewrite <- app_assoc. cbn [app].
      do 4 f_equal.
      destruct (String.eqb (llm.Message.Role msg) "assistant"); [reflexivity|].
      destruct (String.eqb (llm.Message.Role msg) "user") eqn:Eu; [|reflexivity].
      cbn [negb]. now apply String.eqb_eq in Eu.
Qed.

(** [convertMessagesToGeminiFormat] keeps the messages that are not system
    messages, in order, each as one part with the role [model] (for
    [assistant]) or [user] (for every other role).  In front of them it
    puts one [user] entry with the content of the FIRST system message,
    when that content is not empty; later system messages are dropped, and
    so is every system message when the first one is empty. *)
Theorem google_convertMessagesToGeminiFormat_spec (messages : list llm.Message.t) :
  let turns :=
    List.filter (fun msg => negb (String.eqb (llm.Message.Role msg) "system")) messages in
  let lead :=
    match List.find (fun msg => String.eqb (llm.Message.Role msg) "system") messages with
    | Some msg =>
        if String.eqb (llm.Message.Content msg) "" then []
        else [ {| google.geminiContent.Role := "user";
                  google.geminiContent.Parts :=
                    [ {| google.geminiPart.Text := llm.Message.Content msg;
                         google.geminiPart.Role := "" |} ] |} ]
    | None => []
    end in
  google.convertMessagesToGeminiFormat messages
  = (lead ++ List.map
               (fun msg =>
                  {| google.geminiContent.Role :=
                       if String.eqb (llm.Message.Role msg) "assistant" then "model"
                       else "user";
                     google.geminiContent.Parts :=
                       [ {| google.geminiPart.Text := llm.Message.Content msg;
                            google.geminiPart.Role := "" |} ] |})
               turns)%list
  /\ Forall (fun c => (google.geminiContent.Role c = "model"
                       \/ google.geminiContent.Role c = "user")
                      /\ List.length (google.geminiContent.Parts c) = 1%nat)
       (google.convertMessagesToGeminiFormat messages).
Proof.
  intros turns lead.
  assert (E : google.convertMessagesToGeminiFormat messages
              = (lead ++ List.map
                           (fun msg =>
                              {| google.geminiContent.Role :=
                                   if String.eqb (llm.Message.Role msg) "assistant"
                                   then "model" else "user";
                                 google.geminiContent.Parts :=
                                   [ {| google.geminiPart.Text := llm.Message.Content msg;
                                        google.geminiPart.Role := "" |} ] |})
                           turns)%list).
  { unfold google.convertMessagesToGeminiFormat.
    rewrite convertMessagesToGeminiFormat_fold. f_equal. subst lead.
    destruct (List.find _ messages) as [msg|]; [|reflexivity].
    destruct (String.eqb (llm.Message.Content msg) ""); reflexivity. }
  split; [exact E|]. rewrite E. apply Forall_app. split.
  - subst lead. destruct (List.find _ messages) as [msg|]; [|constructor].
    destruct (String.eqb (llm.Message.Content msg) ""); [constructor|].
    constructor; [|constructor]. split; [now right|reflexivity].
  - apply List.Forall_forall. intros c Hc. apply in_map_iff in Hc as (msg & <- & _).
    cbn. destruct (String.eqb _ "assistant"); auto.
Qed.

(** ** The adapters: the body of the request *)

Section json.

Local Abbreviation present :=
  (omap (fun f : go.field => match f with Ok o => o | Err _ => None end)).

Lemma fields_present (l : list go.field) :
  forall r, go.fields l = Ok r -> r = present l /\ Forall (fun f => exists o, f = Ok o) l.
Proof.
  induction l as [|f l IH]; intros r Hr.
  - cbn in Hr. injection Hr as <-. split; [reflexivity|constructor].
  - cbn [go.fields] in Hr. destruct f as [o|e]; [|discriminate].
    destruct (go.fields l) as [r'|e]; [|discriminate].
    destruct (IH r' eq_refl) as [-> Hl]. injection Hr as <-.
    split; [destruct o; reflexivity|]. constructor; [now exists o|exact Hl].
Qed.

Lemma member_skip (k : string) (f : go.field) (l : list go.field) :
  (forall kv, f = Ok (Some kv) -> String.eqb (fst kv) k = false) ->
  go.member k (go.JObject (present (f :: l))) = go.member k (go.JObject (present l)).
Proof.
  intros Hf. destruct f as [[kv|]|e]; try reflexivity.
  cbn. now rewrite (Hf kv eq_refl).
Qed.

Lemma member_hit (k : string) (j : go.JSON) (l : list go.field) :
  go.member k (go.JObject (present (Ok (Some (k, j)) :: l))) = Some j.
Proof. cbn. now rewrite String.eqb_refl. Qed.

End json.

Lemma Marshal_float64_Ok (f : float) (j : go.JSON) :
  go.Marshal_float64 f = Ok j -> j = go.JFloat f.
Proof. unfold go.Marshal_float64. repeat case_match; congruence. Qed.

Lemma array_Ok (l : list go.JSON) : go.array (List.map Ok l) = Ok l.
Proof. induction l as [|j l IH]; [reflexivity|]. cbn. now rewrite IH. Qed.

Lemma always_key (k : string) (j : go.JSON) (kv : string * go.JSON) :
  go.always k j = Ok (Some kv) -> fst kv = k.
Proof. now intros [= <-]. Qed.

Lemma omitempty_key (k : string) (empty : bool) (j : go.JSON) (kv : string * go.JSON) :
  go.omitempty k empty j = Ok (Some kv) -> fst kv = k.
Proof. unfold go.omitempty. destruct empty; [discriminate|now intros [= <-]]. Qed.

Lemma omitempty_ptr_key {A : Type} (k : string) (enc : A -> result go.JSON) (p : option A)
  (kv : string * go.JSON) :
  go.omitempty_ptr k enc p = Ok (Some kv) -> fst kv = k.
Proof.
  unfold go.omitempty_ptr. destruct p as [v|]; [|discriminate].
  destruct (enc v); [now intros [= <-]|discriminate].
Qed.

Lemma omitempty_float64_key (k : string) (f : float) (kv : string * go.JSON) :
  go.omitempty_float64 k f = Ok (Some kv) -> fst kv = k.
Proof.
  unfold go.omitempty_float64. destruct (PrimFloat.eqb f 0); [discriminate|].
  destruct (go.Marshal_float64 f); [now intros [= <-]|discriminate].
Qed.

(** Walks a struct, field by field, past the fields whose key is not the
    one looked up. *)
Ltac other_key :=
  let kv := fresh in
  let Hf := fresh in
  intros kv Hf;
  first
    [ discriminate Hf
    | apply always_key in Hf; rewrite Hf; reflexivity
    | apply omitempty_key in Hf; rewrite Hf; reflexivity
    | apply omitempty_ptr_key in Hf; rewrite Hf; reflexivity
    | apply omitempty_float64_key in Hf; rewrite Hf; reflexivity
    | clear - Hf; repeat case_match; simplify_eq; reflexivity ].

Ltac skip_fields := repeat (rewrite member_skip by other_key).

(** A pointer field of a struct that was encoded, at the head of what is
    left of the struct. *)
Ltac all_fields_Ok H :=
  exfalso; clear - H;
  repeat match goal with
         | H : Forall _ (_ :: _) |- _ => apply Forall_cons in H as [? H]
         end;
  repeat match goal with
         | H : exists o, _ = Ok o |- _ => destruct H as [? H]; try discriminate H
         end.

Ltac ptr_field H :=
  lazymatch goal with
  | |- go.member _ (go.JObject (omap _ (go.omitempty_ptr _ ?enc ?p :: _))) = _ =>
      let t := fresh "v" in
      destruct p as [t|] eqn:?; cbn [go.omitempty_ptr fmap option_fmap option_map] in H |- *;
      [ lazymatch enc with
        | go.Marshal_float64 =>
            let E := fresh in
            destruct (go.Marshal_float64 t) eqn:E;
            [ apply Marshal_float64_Ok in E; subst; apply member_hit
            | all_fields_Ok H ]
        | _ => apply member_hit
        end
      | skip_fields; reflexivity ]
  end.

(** A string that is valid UTF-8 is written as it is. *)
Lemma json_string_from_valid (s : string) :
  forall skip, go.utf8_Valid_from skip s = true -> go.json_string_from skip s = s.
Proof.
  induction s as [|c s IH]; intros skip Hv; [reflexivity|].
  cbn [go.utf8_Valid_from go.json_string_from] in Hv |- *.
  destruct skip as [|n]; [|now rewrite IH].
  destruct (go.utf8_DecodeRune_size (String c s)) as [size|]; [|discriminate].
  now rewrite IH.
Qed.

Lemma Marshal_string_valid (s : string) :
  go.utf8_ValidString s = true -> go.Marshal_string s = go.JString s.
Proof.
  intros Hv. unfold go.Marshal_string, go.json_string.
  now rewrite (json_string_from_valid s 0 Hv).
Qed.

(** The body of an OpenAI request that was encoded, by the caller's
    request: the bare model name; the messages one for one, system
    messages included, each with its role and content; the token limit
    under the name [getModelMaxTokensParam] gives for the model and nothing
    under the other name; the temperature and [top_p] whenever the caller
    set them, 0 included; [n] always 1; [stream] only for a stream; the
    user when it is not empty.  A string is written as [json.Marshal]
    writes it: as it is when it is valid UTF-8, and with U+FFFD for every
    byte that starts no valid encoding otherwise. *)
Theorem openai_request_body (req : llm.CompletionRequest.t) (stream : bool) (body : go.JSON) :
  openai.Marshal_openAIRequest (openai.newOpenAIRequest req stream) = Ok body ->
  let model := llm.CompletionRequest.Model req in
  go.member "model" body = Some (go.Marshal_string model)
  /\ go.member "messages" body
     = Some (go.JArray
               (List.map
                  (fun msg =>
                     go.JObject [ ("role", go.Marshal_string (llm.Message.Role msg));
                                  ("content", go.Marshal_string (llm.Message.Content msg)) ])
                  (llm.CompletionRequest.Messages req)))
  /\ go.member (openai.getModelMaxTokensParam model) body
     = go.JInt <$> llm.CompletionRequest.MaxTokens req
  /\ go.member (if String.eqb (openai.getModelMaxTokensParam model) "max_tokens"
                then "max_completion_tokens" else "max_tokens") body = None
  /\ go.member "temperature" body = go.JFloat <$> llm.CompletionRequest.Temperature req
  /\ go.member "top_p" body = go.JFloat <$> llm.CompletionRequest.TopP req
  /\ go.member "n" body = Some (go.JInt 1)
  /\ go.member "stream" body = (if stream then Some (go.JBool true) else None)
  /\ go.member "user" body
     = (if String.eqb (llm.CompletionRequest.User req) "" then None
        else Some (go.Marshal_string (llm.CompletionRequest.User req)))
  /\ (forall s, go.utf8_ValidString s = true -> go.Marshal_string s = go.JString s)
  /\ go.Marshal_string (go.bs [255%nat]) = go.JString go.replacement.
Proof.
  intros Hb model. unfold openai.Marshal_openAIRequest, go.object in Hb.
  assert (Hm : List.map openai.Marshal_openAIMessage
                 (openai.openAIRequest.Messages (openai.newOpenAIRequest req stream))
               = List.map Ok
                   (List.map
                      (fun msg =>
                         go.JObject [ ("role", go.Marshal_string (llm.Message.Role msg));
                                      ("content", go.Marshal_string (llm.Message.Content msg)) ])
                      (llm.CompletionRequest.Messages req))).
  { cbn. rewrite !map_map. reflexivity. }
  rewrite Hm, array_Ok in Hb. clear Hm.
  destruct (go.fields _) as [r|e] eqn:Hf; [|discriminate]. injection Hb as <-.
  apply fields_present in Hf as [-> Hf].
  cbn [openai.newOpenAIRequest openai.openAIRequest.Model openai.openAIRequest.Temperature
       openai.openAIRequest.MaxTokens openai.openAIRequest.MaxCompletionTokens
       openai.openAIRequest.TopP openai.openAIRequest.FrequencyPenalty
       openai.openAIRequest.PresencePenalty openai.openAIRequest.Stop
       openai.openAIRequest.Stream openai.openAIRequest.N openai.openAIRequest.LogitBias
       openai.openAIRequest.User] in *.
  fold model in Hf |- *.
  repeat apply conj.
  - apply member_hit.
  - skip_fields. apply member_hit.
  - unfold openai.getModelMaxTokensParam in *.
    destruct (default false (openai.completionTokenModels !! model));
      cbn [String.eqb Ascii.eqb Bool.eqb] in *; skip_fields; ptr_field Hf.
  - unfold openai.getModelMaxTokensParam in *.
    destruct (default false (openai.completionTokenModels !! model));
      cbn [String.eqb Ascii.eqb Bool.eqb] in *; skip_fields; reflexivity.
  - skip_fields. ptr_field Hf.
  - skip_fields. ptr_field Hf.
  - skip_fields. apply member_hit.
  - skip_fields. destruct stream; cbn [negb go.omitempty]; [apply member_hit|].
    skip_fields. reflexivity.
  - skip_fields. unfold go.omitempty at 1.
    destruct (String.eqb (llm.CompletionRequest.User req) ""); [reflexivity|apply member_hit].
  - exact Marshal_string_valid.
  - reflexivity.
Qed.

Lemma openai_request_body_witness :
  exists body,
    openai.Marshal_openAIRequest
      (openai.newOpenAIRequest
         (llm.WithUser (go.bs [117; 255]%nat)
            (llm.WithMaxTokens 100 (llm.newRequest "o1-mini" fixtures.hello false))) false)
    = Ok body
    /\ go.member "max_completion_tokens" body = Some (go.JInt 100)
    /\ go.member "max_tokens" body = None
    /\ go.member "model" body = Some (go.JString "o1-mini")
    /\ go.member "user" body = Some (go.JString ("u" +:+ go.replacement)).
Proof.
  destruct (openai.Marshal_openAIRequest
              (openai.newOpenAIRequest
                 (llm.WithUser (go.bs [117; 255]%nat)
                    (llm.WithMaxTokens 100 (llm.newRequest "o1-mini" fixtures.hello false)))
                 false))
    as [body|e] eqn:E; [|vm_compute in E; discriminate].
  exists body. split; [reflexivity|].
  destruct (openai_request_body _ _ _ E) as (H0 & _ & H1 & H2 & _ & _ & _ & _ & H3 & _).
  split; [exact H1|]. split; [exact H2|]. split; [exact H0|exact H3].
Defined.

(** A float field tagged [omitempty] (not a pointer) of a struct that was
    encoded, at the head of what is left of the struct. *)
Lemma omitempty_float64_cases (k : string) (f : float) (o : option (string * go.JSON)) :
  go.omitempty_float64 k f = Ok o ->
  o = if PrimFloat.eqb f 0 then None else Some (k, go.JFloat f).
Proof.
  unfold go.omitempty_float64. destruct (PrimFloat.eqb f 0); [congruence|].
  destruct (go.Marshal_float64 f) eqn:E; [|discriminate].
  apply Marshal_float64_Ok in E. congruence.
Qed.

(** The body of an Anthropic request that was encoded, by the caller's
    request: the bare model name; the messages and the system prompt
    [convertMessages] gives, the prompt left out when it is empty; the
    temperature and [top_p] only when the caller set them to something
    other than 0 (for want of a pointer, a 0 is not told from a missing
    option); [stream] only for a stream; and never the user, the penalties,
    the logit bias or [n].  A string is written as [json.Marshal] writes
    it: as it is when it is valid UTF-8, and with U+FFFD for every byte
    that starts no valid encoding otherwise. *)
Theorem anthropic_request_body
  (req : llm.CompletionRequest.t) (stream : bool) (body : go.JSON) :
  anthropic.Marshal_anthropicRequest (anthropic.newAnthropicRequest req stream) = Ok body ->
  let converted := anthropic.convertMessages (llm.CompletionRequest.Messages req) in
  go.member "model" body = Some (go.Marshal_string (llm.CompletionRequest.Model req))
  /\ go.member "messages" body
     = Some (go.JArray
               (List.map
                  (fun m =>
                     go.JObject
                       [ ("role", go.Marshal_string (anthropic.anthropicMessage.Role m));
                         ("content", go.Marshal_string (anthropic.anthropicMessage.Content m)) ])
                  (fst converted)))
  /\ go.member "system" body
     = (if String.eqb (snd converted) "" then None else Some (go.Marshal_string (snd converted)))
  /\ (llm.CompletionRequest.Temperature req = None
      \/ llm.CompletionRequest.Temperature req = Some 0%float ->
      go.member "temperature" body = None)
  /\ (forall temp,
        llm.CompletionRequest.Temperature req = Some temp ->
        PrimFloat.eqb temp 0 = false ->
        go.member "temperature" body = Some (go.JFloat temp))
  /\ (llm.CompletionRequest.TopP req = None
      \/ llm.CompletionRequest.TopP req = Some 0%float ->
      go.member "top_p" body = None)
  /\ (forall topP,
        llm.CompletionRequest.TopP req = Some topP ->
        PrimFloat.eqb topP 0 = false ->
        go.member "top_p" body = Some (go.JFloat topP))
  /\ go.member "stream" body = (if stream then Some (go.JBool true) else None)
  /\ Forall (fun k => go.member k body = None)
       [ "user"; "n"; "frequency_penalty"; "presence_penalty"; "logit_bias"; "stop" ]
  /\ (forall s, go.utf8_ValidString s = true -> go.Marshal_string s = go.JString s)
  /\ go.Marshal_string (go.bs [255%nat]) = go.JString go.replacement.
Proof.
  intros Hb converted. unfold anthropic.Marshal_anthropicRequest, go.object in Hb.
  unfold anthropic.newAnthropicRequest in Hb. fold converted in Hb.
  destruct converted as [messages system].
  cbn [anthropic.anthropicRequest.Model anthropic.anthropicRequest.Messages
       anthropic.anthropicRequest.System anthropic.anthropicRequest.MaxTokens
       anthropic.anthropicRequest.Temperature anthropic.anthropicRequest.TopP
       anthropic.anthropicRequest.Stream anthropic.anthropicRequest.StopSequences
       fst snd] in *.
  assert (Hm : List.map anthropic.Marshal_anthropicMessage messages
               = List.map Ok
                   (List.map
                      (fun m =>
                         go.JObject
                           [ ("role", go.Marshal_string (anthropic.anthropicMessage.Role m));
                             ("content", go.Marshal_string (anthropic.anthropicMessage.Content m)) ])
                      messages)).
  { rewrite map_map. reflexivity. }
  rewrite Hm, array_Ok in Hb. clear Hm.
  destruct (go.fields _) as [r|e] eqn:Hf; [|discriminate]. injection Hb as <-.
  apply fields_present in Hf as [-> Hf].
  repeat match goal with
         | H : Forall _ (_ :: _) |- _ => apply Forall_cons in H as [? H]
         end.
  repeat match goal with
         | H : exists o, go.omitempty_float64 _ _ = Ok o |- _ =>
             let o := fresh "o" in
             destruct H as [o H]; pose proof (omitempty_float64_cases _ _ _ H); subst o
         | H : exists o, _ = Ok o |- _ => clear H
         end.
  repeat apply conj.
  - apply member_hit.
  - skip_fields. apply member_hit.
  - skip_fields. unfold go.omitempty at 1.
    destruct (String.eqb system ""); [|apply member_hit]. skip_fields. reflexivity.
  - intros Ht. skip_fields.
    match goal with H : go.omitempty_float64 "temperature" _ = _ |- _ => rewrite H end.
    destruct Ht as [-> | ->]; skip_fields; reflexivity.
  - intros temp Ht Hz. skip_fields.
    match goal with H : go.omitempty_float64 "temperature" _ = _ |- _ => rewrite H end.
    rewrite Ht, Hz. apply member_hit.
  - intros Ht. skip_fields.
    match goal with H : go.omitempty_float64 "top_p" _ = _ |- _ => rewrite H end.
    destruct Ht as [-> | ->]; skip_fields; reflexivity.
  - intros topP Ht Hz. skip_fields.
    match goal with H : go.omitempty_float64 "top_p" _ = _ |- _ => rewrite H end.
    rewrite Ht, Hz. apply member_hit.
  - skip_fields. destruct stream; cbn [negb go.omitempty]; [apply member_hit|].
    skip_fields. reflexivity.
  - repeat constructor; skip_fields; reflexivity.
  - exact Marshal_string_valid.
  - reflexivity.
Qed.

Lemma anthropic_request_body_witness :
  let messages :=
    [ {| llm.Message.Role := "system"; llm.Message.Content := go.bs [255; 33]%nat |};
      {| llm.Message.Role := "user"; llm.Message.Content := "Hello" |} ] in
  exists body,
    anthropic.Marshal_anthropicRequest
      (anthropic.newAnthropicRequest
         (llm.WithTemperature 0
            (llm.WithUser "u" (llm.newRequest "claude-2.1" messages false))) false)
    = Ok body
    /\ go.member "temperature" body = None
    /\ go.member "user" body = None
    /\ go.member "model" body = Some (go.JString "claude-2.1")
    /\ go.member "system" body = Some (go.JString (go.replacement +:+ "!")).
Proof.
  intros messages.
  destruct (anthropic.Marshal_anthropicRequest
              (anthropic.newAnthropicRequest
                 (llm.WithTemperature 0
                    (llm.WithUser "u" (llm.newRequest "claude-2.1" messages false)))
                 false))
    as [body|e] eqn:E; [|vm_compute in E; discriminate].
  exists body. split; [reflexivity|].
  destruct (anthropic_request_body _ _ _ E)
    as (H0 & _ & Hs & H1 & _ & _ & _ & _ & H2 & _).
  split; [apply H1; right; reflexivity|].
  split; [now apply Forall_cons in H2 as [H2 _]|].
  split; [exact H0|exact Hs].
Defined.

(** The body of a Google request that was encoded, by the caller's request:
    a [generationConfig] object, always, with the temperature, the token
    limit and [topP] whenever the caller set them (0 included), and [topK]
    when the extra parameters hold an integer under [topK]; [contents] is
    [null] for an empty conversation; [stream] only for a stream; and never
    the model (it is in the URL), the user or safety settings. *)
Theorem google_request_body
  (req : llm.CompletionRequest.t) (stream : bool) (body : go.JSON) :
  google.Marshal_geminiRequest (google.newGeminiRequest req stream) = Ok body ->
  (exists config,
     go.member "generationConfig" body = Some config
     /\ go.member "temperature" config = go.JFloat <$> llm.CompletionRequest.Temperature req
     /\ go.member "maxOutputTokens" config = go.JInt <$> llm.CompletionRequest.MaxTokens req
     /\ go.member "topP" config = go.JFloat <$> llm.CompletionRequest.TopP req
     /\ go.member "topK" config
        = go.JInt <$> (extra ← llm.CompletionRequest.ExtraParams req;
                       go.assert_int (extra !! "topK")))
  /\ (llm.CompletionRequest.Messages req = [] -> go.member "contents" body = Some go.JNull)
  /\ go.member "stream" body = (if stream then Some (go.JBool true) else None)
  /\ Forall (fun k => go.member k body = None) [ "model"; "user"; "safetySettings" ].
Proof.
  intros Hb.
  set (topK := extra ← llm.CompletionRequest.ExtraParams req;
               go.assert_int (extra !! "topK")).
  assert (E : google.newGeminiRequest req stream
              = {| google.geminiRequest.Contents :=
                     google.convertMessagesToGeminiFormat (llm.CompletionRequest.Messages req);
                   google.geminiRequest.GenerationConfig :=
                     Some {| google.GenerationConfig.Temperature :=
                               llm.CompletionRequest.Temperature req;
                             google.GenerationConfig.MaxOutputTokens :=
                               llm.CompletionRequest.MaxTokens req;
                             google.GenerationConfig.TopP := llm.CompletionRequest.TopP req;
                             google.GenerationConfig.TopK := topK;
                             google.GenerationConfig.StopSequences :=
                               llm.CompletionRequest.Stop req |};
                   google.geminiRequest.SafetySettings := [];
                   google.geminiRequest.Stream := stream |}).
  { unfold google.newGeminiRequest. subst topK.
    destruct (llm.CompletionRequest.ExtraParams req) as [extra|]; [|reflexivity].
    cbn. destruct (go.assert_int _); reflexivity. }
  rewrite E in Hb. clear E.
  unfold google.Marshal_geminiRequest, go.object in Hb.
  cbn [google.geminiRequest.Contents google.geminiRequest.GenerationConfig
       google.geminiRequest.SafetySettings google.geminiRequest.Stream
       List.map go.array go.omitempty_ptr] in Hb.
  destruct (go.array _) as [contents|e] eqn:Hc; [|discriminate].
  destruct (google.Marshal_GenerationConfig _) as [config|e] eqn:Hcfg;
    [|cbn in Hb; discriminate].
  destruct (go.fields _) as [r|e] eqn:Hf; [|discriminate]. injection Hb as <-.
  apply fields_present in Hf as [-> Hf].
  unfold google.Marshal_GenerationConfig, go.object in Hcfg.
  cbn [google.GenerationConfig.Temperature google.GenerationConfig.MaxOutputTokens
       google.GenerationConfig.TopP google.GenerationConfig.TopK
       google.GenerationConfig.StopSequences] in Hcfg.
  destruct (go.fields _) as [cfg|e] eqn:Hg in Hcfg; [|discriminate]. injection Hcfg as <-.
  apply fields_present in Hg as [-> Hg].
  repeat apply conj.
  - eexists. split; [skip_fields; apply member_hit|].
    repeat apply conj.
    + ptr_field Hg.
    + skip_fields. ptr_field Hg.
    + skip_fields. ptr_field Hg.
    + skip_fields. ptr_field Hg.
  - intros Hm. rewrite Hm in Hc. cbn in Hc. injection Hc as <-. apply member_hit.
  - skip_fields. destruct stream; cbn [negb go.omitempty]; [apply member_hit|].
    skip_fields. reflexivity.
  - repeat constructor; skip_fields; reflexivity.
Qed.

Lemma google_request_body_witness :
  exists body config,
    google.Marshal_geminiRequest
      (google.newGeminiRequest
         (llm.WithExtraParams {[ "topK" := go.any_int 40 ]}
            (llm.WithTemperature 0 (llm.newRequest "gemini-2.0-flash" fixtures.hello false)))
         false)
    = Ok body
    /\ go.member "generationConfig" body = Some config
    /\ go.member "temperature" config = Some (go.JFloat 0)
    /\ go.member "topK" config = Some (go.JInt 40).
Proof.
  destruct (google.Marshal_geminiRequest
              (google.newGeminiRequest
                 (llm.WithExtraParams {[ "topK" := go.any_int 40 ]}
                    (llm.WithTemperature 0
                       (llm.newRequest "gemini-2.0-flash" fixtures.hello false)))
                 false))
    as [body|e] eqn:E; [|vm_compute in E; discriminate].
  destruct (google_request_body _ _ _ E) as ((config & H0 & H1 & _ & _ & H2) & _).
  exists body, config. split; [reflexivity|]. split; [exact H0|].
  split; [exact H1|exact H2].
Defined.

(** ** The adapters: the exchange with the vendor *)

Section exchange.
Context `{!go.Unmarshal anthropic.anthropicResponse.t}
        `{!go.Unmarshal anthropic.anthropicEvent.t}
        `{!go.Unmarshal google.geminiResponse.t}
        `{!go.Unmarshal openai.openAIResponse.t}
        `{!go.Unmarshal openai.openAIStreamChunk.t}.

(** One call of the OpenAI adapter hands at most one request to the HTTP
    client, and there is no retry: an answer comes from exactly one
    request, and an error from one or from none.  The request is a POST to
    the endpoint of the adapter whose body is the encoded request, with the
    content type, the key as a bearer token, and for a stream the header
    that asks for server-sent events.  The adapter never reads the
    clock. *)
Theorem openai_one_request
  (p : openai.Provider.t) (req : llm.CompletionRequest.t) (w : go.World) :
  let wire (stream : bool) (body : go.JSON) : go.Request :=
    {| go.Method := "POST";
       go.URL := openai.Provider.endpoint p;
       go.Header :=
         [ ("Content-Type", "application/json");
           ("Authorization", "Bearer " +:+ openai.Provider.apiKey p) ]
         ++ (if stream then [ ("Accept", "text/event-stream") ] else []);
       go.Body := body |} in
  let sends (stream : bool) (w' : go.World) : Prop :=
    exists body,
      openai.Marshal_openAIRequest (openai.newOpenAIRequest req stream) = Ok body
      /\ go.sent w' = (go.sent w ++ [wire stream body])%list in
  (let '(res, w') := openai.Completion p req w in
   go.ticks w' = go.ticks w
   /\ match res with
      | Ok _ => sends false w'
      | Err _ => go.sent w' = go.sent w \/ sends false w'
      end)
  /\ (let '(res, w') := openai.CompletionStream p req w in
      go.ticks w' = go.ticks w
      /\ match res with
         | Ok _ => sends true w'
         | Err _ => go.sent w' = go.sent w \/ sends true w'
         end).
Proof.
  intros wire sends. subst sends wire.
  unfold openai.Completion, openai.CompletionStream.
  destruct (String.eqb (openai.Provider.apiKey p) ""); [split; split; auto|].
  split.
  - destruct (openai.Marshal_openAIRequest _) as [body|e]; [|split; auto].
    cbv beta delta [go.bind go.ret go.NewRequestWithContext go.Client_Do].
    destruct (go.url_error w _); [split; auto|].
    repeat (case_match; simplify_eq/=); (split; [reflexivity|]);
      try right; exists body; split; reflexivity.
  - destruct (openai.Marshal_openAIRequest _) as [body|e]; [|split; auto].
    cbv beta delta [go.bind go.ret go.NewRequestWithContext go.Client_Do].
    destruct (go.url_error w _); [split; auto|].
    repeat (case_match; simplify_eq/=); (split; [reflexivity|]);
      try right; exists body; split; reflexivity.
Qed.

(** One call of the Anthropic adapter hands at most one request to the HTTP
    client: a POST to the endpoint of the adapter whose body is the encoded
    request, with the content type, the key under [x-api-key], the API
    version, and for a stream the header that asks for server-sent events.
    The clock is read once, and only for an answer. *)
Theorem anthropic_one_request
  (p : anthropic.Provider.t) (req : llm.CompletionRequest.t) (w : go.World) :
  let wire (stream : bool) (body : go.JSON) : go.Request :=
    {| go.Method := "POST";
       go.URL := anthropic.Provider.endpoint p;
       go.Header :=
         [ ("Content-Type", "application/json");
           ("x-api-key", anthropic.Provider.apiKey p);
           ("anthropic-version", anthropic.Provider.apiVersion p) ]
         ++ (if stream then [ ("Accept", "text/event-stream") ] else []);
       go.Body := body |} in
  let sends (stream : bool) (w' : go.World) : Prop :=
    exists body,
      anthropic.Marshal_anthropicRequest (anthropic.newAnthropicRequest req stream) = Ok body
      /\ go.sent w' = (go.sent w ++ [wire stream body])%list in
  (let '(res, w') := anthropic.Completion p req w in
   match res with
   | Ok resp =>
       sends false w' /\ go.ticks w' = S (go.ticks w)
       /\ llm.CompletionResponse.Created resp = go.Unix (go.clock w (go.ticks w))
   | Err _ => (go.sent w' = go.sent w \/ sends false w') /\ go.ticks w' = go.ticks w
   end)
  /\ (let '(res, w') := anthropic.CompletionStream p req w in
      go.ticks w' = go.ticks w
      /\ match res with
         | Ok _ => sends true w'
         | Err _ => go.sent w' = go.sent w \/ sends true w'
         end).
Proof.
  intros wire sends. subst sends wire.
  unfold anthropic.Completion, anthropic.CompletionStream.
  destruct (String.eqb (anthropic.Provider.apiKey p) ""); [split; split; auto|].
  split.
  - destruct (anthropic.Marshal_anthropicRequest _) as [body|e]; [|split; auto].
    cbv beta delta [go.bind go.ret go.NewRequestWithContext go.Client_Do go.time_Now].
    destruct (go.url_error w _); [split; auto|].
    repeat (case_match; simplify_eq/=);
      (split; [|try split; reflexivity]);
      try right; exists body; split; reflexivity.
  - destruct (anthropic.Marshal_anthropicRequest _) as [body|e]; [|split; auto].
    cbv beta delta [go.bind go.ret go.NewRequestWithContext go.Client_Do].
    destruct (go.url_error w _); [split; auto|].
    repeat (case_match; simplify_eq/=); (split; [reflexivity|]);
      try right; exists body; split; reflexivity.
Qed.

(** One call of the Google adapter hands at most one request to the HTTP
    client: a POST whose URL names the model and the method
    ([generateContent], or [streamGenerateContent] for a stream) and
    carries the key in its query, with the content type as its only header
    (and for a stream the one that asks for server-sent events); the key is
    in no header.  The clock is read twice for an answer, first for its
    identifier and then for its creation time. *)
Theorem google_one_request
  (p : google.Provider.t) (req : llm.CompletionRequest.t) (w : go.World) :
  let wire (stream : bool) (body : go.JSON) : go.Request :=
    {| go.Method := "POST";
       go.URL := google.Provider.endpoint p +:+ "/" +:+ llm.CompletionRequest.Model req
                 +:+ (if stream then ":streamGenerateContent?key=" else ":generateContent?key=")
                 +:+ google.Provider.apiKey p;
       go.Header :=
         [ ("Content-Type", "application/json") ]
         ++ (if stream then [ ("Accept", "text/event-stream") ] else []);
       go.Body := body |} in
  let sends (stream : bool) (w' : go.World) : Prop :=
    exists body,
      google.Marshal_geminiRequest (google.newGeminiRequest req stream) = Ok body
      /\ go.sent w' = (go.sent w ++ [wire stream body])%list in
  (let '(res, w') := google.Completion p req w in
   match res with
   | Ok resp =>
       sends false w' /\ go.ticks w' = S (S (go.ticks w))
       /\ llm.CompletionResponse.ID resp
          = "google-" +:+ go.itoa (go.clock w (go.ticks w))
       /\ llm.CompletionResponse.Created resp = go.Unix (go.clock w (S (go.ticks w)))
   | Err _ => (go.sent w' = go.sent w \/ sends false w') /\ go.ticks w' = go.ticks w
   end)
  /\ (let '(res, w') := google.CompletionStream p req w in
      go.ticks w' = go.ticks w
      /\ match res with
         | Ok _ => sends true w'
         | Err _ => go.sent w' = go.sent w \/ sends true w'
         end).
Proof.
  intros wire sends. subst sends wire.
  unfold google.Completion, google.CompletionStream.
  destruct (String.eqb (google.Provider.apiKey p) ""); [split; split; auto|].
  split.
  - destruct (google.Marshal_geminiRequest _) as [body|e]; [|split; auto].
    cbv beta delta [go.bind go.ret go.NewRequestWithContext go.Client_Do go.time_Now].
    destruct (go.url_error w _); [split; auto|].
    repeat (case_match; simplify_eq/=);
      (split; [|try (split; [|split]); reflexivity]);
      try right; exists body; split; reflexivity.
  - destruct (google.Marshal_geminiRequest _) as [body|e]; [|split; auto].
    cbv beta delta [go.bind go.ret go.NewRequestWithContext go.Client_Do].
    destruct (go.url_error w _); [split; auto|].
    repeat (case_match; simplify_eq/=); (split; [reflexivity|]);
      try right; exists body; split; reflexivity.
Qed.

(** An answer whose status is not 200 is an error, whatever its body holds,
    and the error of each adapter quotes the status line and the body.
    [Completion] reads the body before it looks at the status, so a body
    that cannot be read is reported as such; [CompletionStream] looks at
    the status first and quotes what could be read of the body. *)
Theorem status_not_ok
  (pa : anthropic.Provider.t) (pg : google.Provider.t) (po : openai.Provider.t)
  (req : llm.CompletionRequest.t) (w : go.World) (resp : go.Response) :
  (forall earlier httpReq, go.respond w earlier httpReq = Ok resp) ->
  go.StatusCode resp <> go.StatusOK ->
  let whole (apiError : go.Response -> string -> error) : error :=
    match go.io_ReadAll (go.RespBody resp) with
    | (_, Some err) => wrapError "failed to read response body: " err
    | (body, None) => apiError resp body
    end in
  let partial (apiError : go.Response -> string -> error) : error :=
    apiError resp (fst (go.io_ReadAll (go.RespBody resp))) in
  (go.sent (snd (anthropic.Completion pa req w)) <> go.sent w ->
   fst (anthropic.Completion pa req w) = Err (whole anthropic.apiError))
  /\ (go.sent (snd (anthropic.CompletionStream pa req w)) <> go.sent w ->
      fst (anthropic.CompletionStream pa req w) = Err (partial anthropic.apiError))
  /\ (go.sent (snd (google.Completion pg req w)) <> go.sent w ->
      fst (google.Completion pg req w) = Err (whole google.apiError))
  /\ (go.sent (snd (google.CompletionStream pg req w)) <> go.sent w ->
      fst (google.CompletionStream pg req w) = Err (partial google.apiError))
  /\ (go.sent (snd (openai.Completion po req w)) <> go.sent w ->
      fst (openai.Completion po req w) = Err (whole openai.apiError))
  /\ (go.sent (snd (openai.CompletionStream po req w)) <> go.sent w ->
      fst (openai.CompletionStream po req w) = Err (partial openai.apiError)).
Proof.
  intros Hr Hs whole partial. subst whole partial.
  assert (Hs' : negb (Z.eqb (go.StatusCode resp) go.StatusOK) = true).
  { apply negb_true_iff, Z.eqb_neq, Hs. }
  unfold anthropic.Completion, anthropic.CompletionStream, google.Completion,
    google.CompletionStream, openai.Completion, openai.CompletionStream.
  repeat apply conj.
  all: destruct (String.eqb _ ""); [intros Hn; now contradiction Hn|].
  all: match goal with
       | |- context [match ?m with Ok _ => _ | Err _ => _ end] =>
           destruct m; [|intros Hn; now contradiction Hn]
       end.
  all: cbv beta delta [go.bind go.ret go.NewRequestWithContext go.Client_Do go.time_Now].
  all: destruct (go.url_error w _); [intros Hn; now contradiction Hn|].
  all: rewrite Hr, Hs'; intros _.
  all: destruct (go.io_ReadAll (go.RespBody resp)) as [body [err|]]; reflexivity.
Qed.

End exchange.

Lemma status_not_ok_witness :
  let resp := {| go.StatusCode := 429; go.Status := "429 Too Many Requests";
                 go.RespBody := [ fixtures.read "slow down" ] |} in
  let w := fixtures.world (fun _ => Ok resp) in
  fst (@openai.Completion fixtures.openai_decoder (openai.NewProviderWithKey "sk-test")
         (llm.newRequest "gpt-4o" fixtures.hello false) w)
  = Err (errorString "OpenAI API returned error: 429 Too Many Requests - slow down").
Proof.
  intros resp w.
  destruct (@status_not_ok fixtures.anthropic_decoder fixtures.gemini_decoder
              fixtures.openai_decoder
              (anthropic.NewProviderWithKey "") (google.NewProviderWithKey "")
              (openai.NewProviderWithKey "sk-test")
              (llm.newRequest "gpt-4o" fixtures.hello false) w resp)
    as (_ & _ & _ & _ & Ho & _).
  - reflexivity.
  - discriminate.
  - apply Ho. vm_compute. discriminate.
Defined.

(** ** The adapters: the answer *)

Lemma concat_cons (s : string) (l : list string) :
  String.concat "" (s :: l) = s +:+ String.concat "" l.
Proof.
  destruct l as [|t l]; [|reflexivity].
  cbn. induction s as [|c s IH]; [reflexivity|]. rewrite app_cons. now f_equal.
Qed.

Lemma anthropic_textOf_fold (content : list anthropic.anthropicResponseContent.t) :
  forall acc,
    fold_left
      (fun content c =>
         if String.eqb (anthropic.anthropicResponseContent.Type_ c) "text"
         then content +:+ anthropic.anthropicResponseContent.Text c else content)
      content acc
    = acc +:+ String.concat ""
                (List.map anthropic.anthropicResponseContent.Text
                   (List.filter
                      (fun c => String.eqb (anthropic.anthropicResponseContent.Type_ c) "text")
                      content)).
Proof.
  induction content as [|c content IH]; intros acc.
  - cbn. induction acc as [|a acc IHa]; [reflexivity|]. rewrite app_cons. now f_equal.
  - cbn [fold_left List.filter]. rewrite IH.
    destruct (String.eqb (anthropic.anthropicResponseContent.Type_ c) "text"); [|reflexivity].
    cbn [List.map]. now rewrite concat_cons, string_app_assoc.
Qed.

Lemma google_textOf_fold (parts : list google.geminiResponsePart.t) :
  forall acc,
    fold_left (fun content part => content +:+ google.geminiResponsePart.Text part) parts acc
    = acc +:+ String.concat "" (List.map google.geminiResponsePart.Text parts).
Proof.
  induction parts as [|part parts IH]; intros acc.
  - cbn. induction acc as [|a acc IHa]; [reflexivity|]. rewrite app_cons. now f_equal.
  - cbn [fold_left List.map]. now rewrite IH, concat_cons, string_app_assoc.
Qed.

Section answer.
Context `{!go.Unmarshal anthropic.anthropicResponse.t}
        `{!go.Unmarshal google.geminiResponse.t}.

(** An answer of the Anthropic adapter is built from the vendor's answer:
    what [json.Unmarshal] gives on the body, read to its end, of the answer
    with status 200 that the network gave to the one request of the call.
    It has exactly one choice, with index 0 and the role [assistant]; its
    text is the texts of the vendor's content blocks of type [text], in
    order and with nothing between them (blocks of any other type are left
    out), and its finish reason is the stop reason of the vendor.  The
    identifier and the model are the vendor's; the provider is
    [anthropic]. *)
Theorem anthropic_answer
  (p : anthropic.Provider.t) (req : llm.CompletionRequest.t) (w w' : go.World)
  (resp : llm.CompletionResponse.t) :
  anthropic.Completion p req w = (Ok resp, w') ->
  exists (httpReq : go.Request) (httpResp : go.Response) (body : string)
         (vendor : anthropic.anthropicResponse.t),
    go.sent w' = (go.sent w ++ [httpReq])%list
    /\ go.respond w (go.sent w) httpReq = Ok httpResp
    /\ go.StatusCode httpResp = go.StatusOK
    /\ go.io_ReadAll (go.RespBody httpResp) = (body, None)
    /\ go.json_Unmarshal body = Ok vendor
    /\ llm.CompletionResponse.RawResponse resp = go.any_struct vendor
    /\ llm.CompletionResponse.Choices resp
       = [ {| llm.CompletionChoice.Index := 0;
              llm.CompletionChoice.Message :=
                {| llm.Message.Role := "assistant";
                   llm.Message.Content :=
                     String.concat ""
                       (List.map anthropic.anthropicResponseContent.Text
                          (List.filter
                             (fun c =>
                                String.eqb (anthropic.anthropicResponseContent.Type_ c) "text")
                             (anthropic.anthropicResponse.Content vendor))) |};
              llm.CompletionChoice.FinishReason :=
                anthropic.anthropicResponse.StopReason vendor |} ]
    /\ llm.CompletionResponse.ID resp = anthropic.anthropicResponse.ID vendor
    /\ llm.CompletionResponse.Model resp = anthropic.anthropicResponse.Model vendor
    /\ llm.CompletionResponse.Object resp = "chat.completion"
    /\ llm.CompletionResponse.Provider resp = "anthropic".
Proof.
  intros Hc. unfold anthropic.Completion in Hc. run_M.
  do 4 eexists. split; [reflexivity|]. split; [eassumption|].
  split; [match goal with
          | Hs : negb (Z.eqb _ go.StatusOK) = false |- _ =>
              now apply negb_false_iff, Z.eqb_eq in Hs
          end|].
  split; [eassumption|]. split; [eassumption|]. split; [reflexivity|]. cbn.
  unfold anthropic.textOf. rewrite anthropic_textOf_fold, app_nil.
  repeat apply conj; reflexivity.
Qed.

(** An answer of the Google adapter is built from the vendor's answer: what
    [json.Unmarshal] gives on the body, read to its end, of the answer with
    status 200 that the network gave to the one request of the call.  It
    has one choice per candidate of the vendor, in order, and at least one:
    an answer without candidates is an error.  Each choice has the role
    [assistant], the index and the finish reason of its candidate, and as
    text the texts of the parts of the candidate, in order and with nothing
    between them.  The model of the answer is the model of the request, not
    one the vendor named; the provider is [google]. *)
Theorem google_answer
  (p : google.Provider.t) (req : llm.CompletionRequest.t) (w w' : go.World)
  (resp : llm.CompletionResponse.t) :
  google.Completion p req w = (Ok resp, w') ->
  exists (httpReq : go.Request) (httpResp : go.Response) (body : string)
         (vendor : google.geminiResponse.t),
    go.sent w' = (go.sent w ++ [httpReq])%list
    /\ go.respond w (go.sent w) httpReq = Ok httpResp
    /\ go.StatusCode httpResp = go.StatusOK
    /\ go.io_ReadAll (go.RespBody httpResp) = (body, None)
    /\ go.json_Unmarshal body = Ok vendor
    /\ llm.CompletionResponse.RawResponse resp = go.any_struct vendor
    /\ google.geminiResponse.Candidates vendor <> []
    /\ llm.CompletionResponse.Choices resp
       = List.map
           (fun candidate =>
              {| llm.CompletionChoice.Index := google.geminiCandidate.Index candidate;
                 llm.CompletionChoice.Message :=
                   {| llm.Message.Role := "assistant";
                      llm.Message.Content :=
                        String.concat ""
                          (List.map google.geminiResponsePart.Text
                             (google.geminiResponseContent.Parts
                                (google.geminiCandidate.Content candidate))) |};
                 llm.CompletionChoice.FinishReason :=
                   google.geminiCandidate.FinishReason candidate |})
           (google.geminiResponse.Candidates vendor)
    /\ llm.CompletionResponse.Model resp = llm.CompletionRequest.Model req
    /\ llm.CompletionResponse.Object resp = "chat.completion"
    /\ llm.CompletionResponse.Provider resp = "google".
Proof.
  intros Hc. unfold google.Completion in Hc. run_M.
  do 4 eexists. split; [reflexivity|]. split; [eassumption|].
  split; [match goal with
          | Hs : negb (Z.eqb _ go.StatusOK) = false |- _ =>
              now apply negb_false_iff, Z.eqb_eq in Hs
          end|].
  split; [eassumption|]. split; [eassumption|]. split; [reflexivity|]. cbn.
  split.
  { intros Hn. match goal with H : (_ =? 0)%nat = false |- _ => rewrite Hn in H end.
    discriminate. }
  split; [|repeat apply conj; reflexivity].
  apply map_ext. intros candidate. unfold google.textOf.
  now rewrite google_textOf_fold, app_nil.
Qed.

End answer.

Lemma anthropic_answer_witness :
  exists resp w',
    @anthropic.Completion fixtures.anthropic_decoder
      (anthropic.NewProviderWithKey "sk-ant-test")
      (llm.newRequest "claude-3-haiku-20240307" fixtures.hello false)
      (fixtures.world (fixtures.ok200 fixtures.anthropic_body))
    = (Ok resp, w')
    /\ llm.CompletionResponse.Provider resp = "anthropic"
    /\ llm.CompletionResponse.Choices resp
       = [ {| llm.CompletionChoice.Index := 0;
              llm.CompletionChoice.Message :=
                {| llm.Message.Role := "assistant"; llm.Message.Content := "Hi" |};
              llm.CompletionChoice.FinishReason := "end_turn" |} ].
Proof.
  destruct (@anthropic.Completion fixtures.anthropic_decoder
              (anthropic.NewProviderWithKey "sk-ant-test")
              (llm.newRequest "claude-3-haiku-20240307" fixtures.hello false)
              (fixtures.world (fixtures.ok200 fixtures.anthropic_body)))
    as [[resp|e] w'] eqn:E.
  - exists resp, w'. split; [reflexivity|].
    destruct (anthropic_answer _ _ _ _ _ E)
      as (httpReq & httpResp & body & vendor & _ & Hr & _ & Hb & Hd & _ & Hch & _ & _ & _ & Hp).
    split; [exact Hp|]. rewrite Hch.
    injection Hr as <-. injection Hb as <-.
    vm_compute in Hd. injection Hd as <-. reflexivity.
  - exfalso. apply (f_equal fst) in E. vm_compute in E. discriminate.
Defined.

Lemma google_answer_witness :
  exists resp w',
    @google.Completion fixtures.gemini_decoder
      (google.NewProviderWithKey "g-test")
      (llm.newRequest "gemini-2.0-flash" fixtures.hello false)
      (fixtures.world (fixtures.ok200 fixtures.gemini_body))
    = (Ok resp, w')
    /\ llm.CompletionResponse.Model resp = "gemini-2.0-flash"
    /\ llm.CompletionResponse.Choices resp
       = [ {| llm.CompletionChoice.Index := 0;
              llm.CompletionChoice.Message :=
                {| llm.Message.Role := "assistant"; llm.Message.Content := "Hi" |};
              llm.CompletionChoice.FinishReason := "STOP" |} ].
Proof.
  destruct (@google.Completion fixtures.gemini_decoder
              (google.NewProviderWithKey "g-test")
              (llm.newRequest "gemini-2.0-flash" fixtures.hello false)
              (fixtures.world (fixtures.ok200 fixtures.gemini_body)))
    as [[resp|e] w'] eqn:E.
  - exists resp, w'. split; [reflexivity|].
    destruct (google_answer _ _ _ _ _ E)
      as (httpReq & httpResp & body & vendor & _ & Hr & _ & Hb & Hd & _ & _ & Hch & Hm & _).
    split; [exact Hm|]. rewrite Hch.
    injection Hr as <-. injection Hb as <-.
    vm_compute in Hd. injection Hd as <-. reflexivity.
  - exfalso. apply (f_equal fst) in E. vm_compute in E. discriminate.
Defined.

(** ** From the facade to the adapter *)

Section facade.
Context `{!go.Unmarshal anthropic.anthropicResponse.t}
        `{!go.Unmarshal anthropic.anthropicEvent.t}
        `{!go.Unmarshal google.geminiResponse.t}
        `{!go.Unmarshal openai.openAIResponse.t}
        `{!go.Unmarshal openai.openAIStreamChunk.t}.

Lemma getProviderForModel_Initialize
  (environ : gmap string string) (name model : string) (provider : llm.Provider.t) :
  go.strings_Contains name "/" = false ->
  providers.Initialize environ !! name = Some provider ->
  llm.getProviderForModel (providers.Initialize environ) (name +:+ "/" +:+ model)
  = if llm.Provider.SupportsModel provider model then Ok (provider, model)
    else Err (errorString ("model " +:+ model +:+ " not supported by provider " +:+ name)).
Proof.
  intros Hn Hl. unfold llm.getProviderForModel.
  rewrite (parseModelIdentifier_split _ _ Hn), Hl.
  destruct (llm.Provider.SupportsModel provider model); reflexivity.
Qed.

(** In a process whose table was filled by the adapters' [init] functions,
    [Completion] of the facade on [openai/<model>] is [Completion] of the
    OpenAI adapter, built from the environment, on the request with the
    bare model name and the options applied in order, when the adapter
    lists the model, and the unsupported-model error otherwise, with
    nothing sent; likewise for [google/] and [anthropic/].  When the model
    is listed and the environment has no key for the vendor, the call
    returns the missing-key error of the adapter and sends nothing. *)
Theorem facade_reaches_the_adapter
  (environ : gmap string string) (model : string) (messages : list llm.Message.t)
  (opts : list llm.CompletionOption) :
  let req := llm.applyOptions opts (llm.newRequest model messages false) in
  let unsupported (name : string) : go.M (result llm.CompletionResponse.t) :=
    go.ret (Err (errorString ("model " +:+ model +:+ " not supported by provider "
                              +:+ name))) in
  gollm.Completion (providers.Initialize environ) ("openai/" +:+ model) messages opts
  = (if openai.SupportsModel (openai.NewProvider environ) model
     then openai.Completion (openai.NewProvider environ) req else unsupported "openai")
  /\ gollm.Completion (providers.Initialize environ) ("google/" +:+ model) messages opts
     = (if google.SupportsModel (google.NewProvider environ) model
        then google.Completion (google.NewProvider environ) req else unsupported "google")
  /\ gollm.Completion (providers.Initialize environ) ("anthropic/" +:+ model) messages opts
     = (if anthropic.SupportsModel (anthropic.NewProvider environ) model
        then anthropic.Completion (anthropic.NewProvider environ) req
        else unsupported "anthropic")
  /\ (forall w,
        environ !! "OPENAI_API_KEY" = None ->
        openai.SupportsModel (openai.NewProvider environ) model = true ->
        gollm.Completion (providers.Initialize environ) ("openai/" +:+ model) messages opts w
        = (Err (errorString "OpenAI API key not set"), w)).
Proof.
  intros req unsupported. subst req unsupported.
  unfold gollm.Completion, llm.Completion.
  assert (Ho := getProviderForModel_Initialize environ "openai" model _ eq_refl
                  (Initialize_lookup environ "openai")).
  assert (Hg := getProviderForModel_Initialize environ "google" model _ eq_refl
                  (Initialize_lookup environ "google")).
  assert (Ha := getProviderForModel_Initialize environ "anthropic" model _ eq_refl
                  (Initialize_lookup environ "anthropic")).
  cbn [llm.Provider.SupportsModel openai.asProvider google.asProvider anthropic.asProvider]
    in Ho, Hg, Ha.
  change ("openai/" +:+ model) with ("openai" +:+ "/" +:+ model).
  change ("google/" +:+ model) with ("google" +:+ "/" +:+ model).
  change ("anthropic/" +:+ model) with ("anthropic" +:+ "/" +:+ model).
  repeat apply conj.
  - rewrite Ho. destruct (openai.SupportsModel _ model); reflexivity.
  - rewrite Hg. destruct (google.SupportsModel _ model); reflexivity.
  - rewrite Ha. destruct (anthropic.SupportsModel _ model); reflexivity.
  - intros w Hk Hs. rewrite Ho, Hs. cbn [llm.Provider.Completion openai.asProvider].
    unfold openai.Completion, openai.NewProvider. rewrite Hk. reflexivity.
Qed.

End facade.

(** ** The line reader, further *)

Lemma length_zero (s : string) : (String.length s =? 0)%nat = true <-> s = "".
Proof. destruct s; cbn; split; congruence. Qed.

Lemma Contains_Index (s sep : string) :
  go.strings_Contains s sep = false <-> go.strings_Index s sep = None.
Proof.
  unfold go.strings_Contains. destruct (go.strings_Index s sep); split; congruence.
Qed.

(** The three ways a turn of [ReadLine] goes. *)
Lemma ReadLine_loop_found (conn : go.Conn) (buf : string) (i : nat) :
  go.strings_Index buf go.LF = Some i ->
  bufReader.ReadLine_loop conn buf
  = (Ok (go.bytes_TrimSpace (go.take (S i) buf)),
     {| bufReader.reader := conn; bufReader.buf := go.drop (S i) buf |}).
Proof.
  intros Hi. destruct conn; cbn [bufReader.ReadLine_loop];
    unfold go.Buffer_ReadBytes; rewrite Hi; reflexivity.
Qed.

Lemma ReadLine_loop_nil (buf : string) :
  go.strings_Index buf go.LF = None ->
  bufReader.ReadLine_loop [] buf
  = (if (0 <? String.length buf)%nat then Ok (go.bytes_TrimSpace buf) else Err io_EOF,
     {| bufReader.reader := []; bufReader.buf := "" |}).
Proof.
  intros Hi. cbn [bufReader.ReadLine_loop]. unfold go.Buffer_ReadBytes. rewrite Hi.
  reflexivity.
Qed.

Lemma ReadLine_loop_cons (r : go.ReadResult) (conn : go.Conn) (buf : string) :
  go.strings_Index buf go.LF = None ->
  bufReader.ReadLine_loop (r :: conn) buf
  = match go.rd_err r with
    | Some (errorString _ as err) | Some (wrapError _ _ as err) =>
        (Err err, {| bufReader.reader := conn; bufReader.buf := "" |})
    | Some io_EOF | None =>
        if (String.length (go.rd_data r) =? 0)%nat then
          (if (0 <? String.length buf)%nat then Ok (go.bytes_TrimSpace buf) else Err io_EOF,
           {| bufReader.reader := conn; bufReader.buf := "" |})
        else bufReader.ReadLine_loop conn (go.rd_data r)
    end.
Proof.
  intros Hi. cbn [bufReader.ReadLine_loop]. unfold go.Buffer_ReadBytes. rewrite Hi.
  rewrite app_nil. reflexivity.
Qed.

(** What becomes of a line that is in the buffer without its line feed.
    When the connection has ended, or the next read brings no byte, the
    line is returned, trimmed (and end-of-file when there is none).  When
    the next read brings bytes, the line is DROPPED: [ReadLine] goes on
    with those bytes alone, as if the buffer had been empty.  When the next
    read fails with an error other than end-of-file, the error is returned
    and the line and the bytes of that read are both dropped. *)
Theorem ReadLine_unfinished_line (buf : string) (r : go.ReadResult) (conn : go.Conn) :
  go.strings_Contains buf go.LF = false ->
  let at_end (conn' : go.Conn) : result string * bufReader.t :=
    (if (0 <? String.length buf)%nat then Ok (go.bytes_TrimSpace buf) else Err io_EOF,
     {| bufReader.reader := conn'; bufReader.buf := "" |}) in
  bufReader.ReadLine {| bufReader.reader := []; bufReader.buf := buf |} = at_end []
  /\ (go.rd_err r = None \/ go.rd_err r = Some io_EOF ->
      (go.rd_data r = "" ->
       bufReader.ReadLine {| bufReader.reader := r :: conn; bufReader.buf := buf |}
       = at_end conn)
      /\ (go.rd_data r <> "" ->
          bufReader.ReadLine {| bufReader.reader := r :: conn; bufReader.buf := buf |}
          = bufReader.ReadLine {| bufReader.reader := conn; bufReader.buf := go.rd_data r |}))
  /\ (forall err,
        go.rd_err r = Some err -> err <> io_EOF ->
        bufReader.ReadLine {| bufReader.reader := r :: conn; bufReader.buf := buf |}
        = (Err err, {| bufReader.reader := conn; bufReader.buf := "" |})).
Proof.
  intros Hb at_end. subst at_end. apply Contains_Index in Hb.
  unfold bufReader.ReadLine. cbn [bufReader.reader bufReader.buf].
  split; [now apply ReadLine_loop_nil|]. rewrite (ReadLine_loop_cons _ _ _ Hb). split.
  - intros He. split.
    + intros Hd. apply length_zero in Hd. rewrite Hd.
      destruct He as [-> | ->]; reflexivity.
    + intros Hd. destruct (String.length (go.rd_data r) =? 0)%nat eqn:Hl;
        [now apply length_zero in Hl|].
      destruct He as [-> | ->]; reflexivity.
  - intros err -> Hn. destruct err; [contradiction|reflexivity|reflexivity].
Qed.

Lemma ReadLine_unfinished_line_witness :
  bufReader.ReadLine
    {| bufReader.reader := [ fixtures.read ("tail" +:+ go.LF) ];
       bufReader.buf := "data: head" |}
  = bufReader.ReadLine
      {| bufReader.reader := []; bufReader.buf := "tail" +:+ go.LF |}.
Proof.
  destruct (ReadLine_unfinished_line "data: head" (fixtures.read ("tail" +:+ go.LF)) [])
    as (_ & H & _); [reflexivity|].
  destruct (H (or_introl eq_refl)) as [_ Hd]. apply Hd. discriminate.
Defined.

Lemma prefix_LF (c : ascii) (s : string) :
  String.prefix (String (ascii_of_nat 10) "") (String c s)
  = if ascii_dec (ascii_of_nat 10) c then true else false.
Proof.
  change (String.prefix (String (ascii_of_nat 10) "") (String c s))
    with (if ascii_dec (ascii_of_nat 10) c then String.prefix "" s else false).
  destruct (ascii_dec (ascii_of_nat 10) c); [destruct s|]; reflexivity.
Qed.

Lemma Index_LF_app (line rest : string) :
  go.strings_Contains line go.LF = false ->
  go.strings_Index (line +:+ go.LF +:+ rest) go.LF = Some (String.length line).
Proof.
  rewrite LF_eq. induction line as [|c line IH]; intros Hc.
  - change ("" +:+ String (ascii_of_nat 10) "" +:+ rest)
      with (String (ascii_of_nat 10) rest).
    cbn [go.strings_Index]. rewrite prefix_LF.
    destruct (ascii_dec (ascii_of_nat 10) (ascii_of_nat 10)); [reflexivity|congruence].
  - unfold go.strings_Contains in Hc. cbn [go.strings_Index] in Hc.
    rewrite prefix_LF in Hc.
    change (String c line +:+ String (ascii_of_nat 10) "" +:+ rest)
      with (String c (line +:+ String (ascii_of_nat 10) "" +:+ rest)).
    cbn [go.strings_Index]. rewrite prefix_LF.
    destruct (ascii_dec (ascii_of_nat 10) c) as [E|_]; [discriminate Hc|].
    rewrite IH; [reflexivity|]. unfold go.strings_Contains.
    destruct (go.strings_Index line _); [discriminate Hc|reflexivity].
Qed.

Lemma ReadLine_first_line (conn : go.Conn) (line rest : string) :
  go.strings_Contains line go.LF = false ->
  bufReader.ReadLine {| bufReader.reader := conn; bufReader.buf := (line +:+ go.LF) +:+ rest |}
  = (Ok (go.bytes_TrimSpace (line +:+ go.LF)),
     {| bufReader.reader := conn; bufReader.buf := rest |}).
Proof.
  intros Hl. unfold bufReader.ReadLine. cbn [bufReader.reader bufReader.buf].
  rewrite string_app_assoc, (ReadLine_loop_found _ _ _ (Index_LF_app line rest Hl)).
  rewrite <- string_app_assoc.
  replace (S (String.length line)) with (String.length (line +:+ go.LF))
    by (rewrite string_length_app; cbn; lia).
  now rewrite take_app, drop_app.
Qed.

(** The lines of a buffer that holds whole lines only are returned one
    after the other, without a read of the connection. *)
Lemma ReadLine_buffered_lines (conn : go.Conn) (lines : list string) :
  Forall (fun line => go.strings_Contains line go.LF = false) lines ->
  expected.calls bufReader.ReadLine (List.length lines)
    {| bufReader.reader := conn;
       bufReader.buf := String.concat "" (List.map (fun line => line +:+ go.LF) lines) |}
  = (List.map (fun line => Ok (go.bytes_TrimSpace (line +:+ go.LF))) lines,
     {| bufReader.reader := conn; bufReader.buf := "" |}).
Proof.
  induction 1 as [|line lines Hl _ IH]; [reflexivity|].
  cbn [List.map List.length expected.calls]. rewrite concat_cons.
  rewrite (ReadLine_first_line _ _ _ Hl), IH. reflexivity.
Qed.

Lemma calls_app {S R : Type} (method : S -> R * S) (n m : nat) (s : S) :
  expected.calls method (n + m) s
  = let '(rs, s') := expected.calls method n s in
    let '(rs', s'') := expected.calls method m s' in
    ((rs ++ rs')%list, s'').
Proof.
  revert s; induction n as [|n IH]; intros s.
  - cbn. now destruct (expected.calls method m s).
  - cbn [Nat.add expected.calls]. destruct (method s) as [r s1]. rewrite IH.
    destruct (expected.calls method n s1) as [rs s2].
    now destruct (expected.calls method m s2).
Qed.

(** When every read of the connection brings whole lines (one line or
    more, each with its line feed, and no error), [ReadLine] returns every
    line of the connection, trimmed, in order, and then end-of-file: no
    line is lost, joined to another or returned twice. *)
Theorem ReadLine_whole_lines (groups : list (list string)) :
  Forall (fun group =>
            group <> []
            /\ Forall (fun line => go.strings_Contains line go.LF = false) group) groups ->
  let conn :=
    List.map
      (fun group =>
         {| go.rd_data := String.concat "" (List.map (fun line => line +:+ go.LF) group);
            go.rd_err := None |})
      groups in
  let lines := List.concat groups in
  let done := {| bufReader.reader := []; bufReader.buf := "" |} in
  expected.calls bufReader.ReadLine (List.length lines) (bufReader.newBufReader conn)
  = (List.map (fun line => Ok (go.bytes_TrimSpace (line +:+ go.LF))) lines, done)
  /\ bufReader.ReadLine done = (Err io_EOF, done).
Proof.
  intros Hg conn lines done. subst conn lines done. split; [|reflexivity].
  unfold bufReader.newBufReader.
  induction Hg as [|group groups [Hne Hl] _ IH]; [reflexivity|].
  cbn [List.map List.concat]. rewrite length_app, calls_app, map_app.
  assert (E : expected.calls bufReader.ReadLine (List.length group)
                {| bufReader.reader :=
                     {| go.rd_data :=
                          String.concat "" (List.map (fun line => line +:+ go.LF) group);
                        go.rd_err := None |}
                     :: List.map
                          (fun group =>
                             {| go.rd_data :=
                                  String.concat ""
                                    (List.map (fun line => line +:+ go.LF) group);
                                go.rd_err := None |})
                          groups;
                   bufReader.buf := "" |}
              = expected.calls bufReader.ReadLine (List.length group)
                  {| bufReader.reader :=
                       List.map
                         (fun group =>
                            {| go.rd_data :=
                                 String.concat ""
                                   (List.map (fun line => line +:+ go.LF) group);
                               go.rd_err := None |})
                         groups;
                     bufReader.buf :=
                       String.concat "" (List.map (fun line => line +:+ go.LF) group) |}).
  { destruct group as [|line group]; [contradiction|].
    cbn [List.length expected.calls]. f_equal.
    unfold bufReader.ReadLine. cbn [bufReader.reader bufReader.buf].
    rewrite ReadLine_loop_cons by reflexivity. cbn [go.rd_err go.rd_data List.map].
    rewrite concat_cons, !string_length_app. rewrite LF_eq at 1. cbn [String.length].
    replace (_ =? 0)%nat with false; [reflexivity|].
    symmetry. apply Nat.eqb_neq. lia. }
  rewrite E, (ReadLine_buffered_lines _ _ Hl), IH. reflexivity.
Qed.

Lemma ReadLine_whole_lines_witness :
  fst (expected.calls bufReader.ReadLine 3
         (bufReader.newBufReader
            [ fixtures.read ("a" +:+ go.LF +:+ "b" +:+ go.LF); fixtures.read ("c" +:+ go.LF) ]))
  = [ Ok (go.bytes_TrimSpace ("a" +:+ go.LF)); Ok (go.bytes_TrimSpace ("b" +:+ go.LF));
      Ok (go.bytes_TrimSpace ("c" +:+ go.LF)) ].
Proof.
  destruct (ReadLine_whole_lines [ ["a"; "b"]; ["c"] ]) as [H _].
  - repeat constructor; discriminate.
  - exact (f_equal fst H).
Defined.

(** ** The streams, further *)

(** [ReadLine] moves along the connection: what is left of it afterwards
    is an end part of what there was, and an error it returns is
    end-of-file or the error of one of the reads it made. *)
Lemma ReadLine_loop_suffix (conn : go.Conn) :
  forall buf r rd,
    bufReader.ReadLine_loop conn buf = (r, rd) ->
    exists pre,
      conn = (pre ++ bufReader.reader rd)%list
      /\ forall e, r = Err e -> e = io_EOF \/ In (Some e) (List.map go.rd_err pre).
Proof.
  induction conn as [|r0 conn IH]; intros buf r rd Hl.
  - exists []. cbn [bufReader.ReadLine_loop] in Hl.
    destruct (go.Buffer_ReadBytes buf go.LF) as [[line found] buf'].
    destruct found; [|destruct (0 <? String.length line)%nat];
      injection Hl as <- <-; (split; [reflexivity|]); intros e [=]; auto.
  - cbn [bufReader.ReadLine_loop] in Hl.
    destruct (go.Buffer_ReadBytes buf go.LF) as [[line found] buf'].
    destruct found.
    { exists []. injection Hl as <- <-. split; [reflexivity|]. intros e [=]. }
    assert (Hend : forall r rd,
               (if (0 <? String.length line)%nat then Ok (go.bytes_TrimSpace line)
                else Err io_EOF, {| bufReader.reader := conn; bufReader.buf := buf' |})
               = (r, rd) ->
               exists pre,
                 r0 :: conn = (pre ++ bufReader.reader rd)%list
                 /\ forall e, r = Err e -> e = io_EOF \/ In (Some e) (List.map go.rd_err pre)).
    { intros r' rd' Hr. exists [r0].
      destruct (0 <? String.length line)%nat; injection Hr as <- <-;
        (split; [reflexivity|]); intros e [=]; auto. }
    assert (Hrec : forall r rd,
               (if (String.length (go.rd_data r0) =? 0)%nat
                then (if (0 <? String.length line)%nat then Ok (go.bytes_TrimSpace line)
                      else Err io_EOF,
                      {| bufReader.reader := conn; bufReader.buf := buf' |})
                else bufReader.ReadLine_loop conn (buf' +:+ go.rd_data r0)) = (r, rd) ->
               exists pre,
                 r0 :: conn = (pre ++ bufReader.reader rd)%list
                 /\ forall e, r = Err e -> e = io_EOF \/ In (Some e) (List.map go.rd_err pre)).
    { intros r' rd'. destruct (String.length (go.rd_data r0) =? 0)%nat; [apply Hend|].
      intros Hr. apply IH in Hr as (pre & -> & He). exists (r0 :: pre).
      split; [reflexivity|]. intros e Hre. destruct (He e Hre) as [->|Hin]; [now left|].
      right. cbn. now right. }
    destruct (go.rd_err r0) as [[| |]|] eqn:E0; try (apply Hrec; exact Hl);
      exists [r0]; injection Hl as <- <-; (split; [reflexivity|]);
      intros e [= <-]; right; cbn; left; congruence.
Qed.

Lemma ReadLine_suffix (b : bufReader.t) (r : result string) (rd : bufReader.t) :
  bufReader.ReadLine b = (r, rd) ->
  exists pre,
    bufReader.reader b = (pre ++ bufReader.reader rd)%list
    /\ forall e, r = Err e -> e = io_EOF \/ In (Some e) (List.map go.rd_err pre).
Proof. apply ReadLine_loop_suffix. Qed.

Section recv.
Context `{!go.Unmarshal anthropic.anthropicEvent.t}
        `{!go.Unmarshal google.geminiResponse.t}
        `{!go.Unmarshal openai.openAIStreamChunk.t}.

Lemma openai_Recv_loop_spec (fuel : nat) :
  forall s r s',
    openai.Recv_loop fuel s = Some (r, s') ->
    (bufReader.left (openai.OpenAIResponseStream.reader s')
     <= bufReader.left (openai.OpenAIResponseStream.reader s))%nat
    /\ openai.OpenAIResponseStream.provider s' = openai.OpenAIResponseStream.provider s
    /\ (openai.OpenAIResponseStream.id s <> "" ->
        openai.OpenAIResponseStream.id s' = openai.OpenAIResponseStream.id s
        /\ openai.OpenAIResponseStream.model s' = openai.OpenAIResponseStream.model s
        /\ openai.OpenAIResponseStream.created s' = openai.OpenAIResponseStream.created s
        /\ openai.OpenAIResponseStream.fingerprint s'
           = openai.OpenAIResponseStream.fingerprint s)
    /\ (openai.OpenAIResponseStream.currentRole s <> "" ->
        openai.OpenAIResponseStream.currentRole s' <> "")
    /\ match r with
       | Ok resp =>
           (bufReader.left (openai.OpenAIResponseStream.reader s')
            < bufReader.left (openai.OpenAIResponseStream.reader s))%nat
           /\ openai.OpenAIResponseStream.streamFinished s'
              = openai.OpenAIResponseStream.streamFinished s
           /\ openai.OpenAIResponseStream.chunkIndex s'
              = go.int_add (openai.OpenAIResponseStream.chunkIndex s) 1
           /\ llm.CompletionResponse.Object resp = "chat.completion.chunk"
           /\ llm.CompletionResponse.Provider resp = openai.OpenAIResponseStream.provider s
           /\ llm.CompletionResponse.RawResponse resp = go.any_nil
           /\ llm.CompletionResponse.Usage resp
              = {| llm.CompletionUsage.PromptTokens := 0;
                   llm.CompletionUsage.CompletionTokens := 0;
                   llm.CompletionUsage.TotalTokens := 0 |}
           /\ llm.CompletionResponse.ID resp = openai.OpenAIResponseStream.id s'
           /\ llm.CompletionResponse.Model resp = openai.OpenAIResponseStream.model s'
           /\ llm.CompletionResponse.Created resp = openai.OpenAIResponseStream.created s'
           /\ llm.CompletionResponse.SystemFingerprint resp
              = openai.OpenAIResponseStream.fingerprint s'
           /\ exists choice,
                llm.CompletionResponse.Choices resp = [choice]
                /\ llm.Message.Role (llm.CompletionChoice.Message choice)
                   = openai.OpenAIResponseStream.currentRole s'
       | Err e =>
           openai.OpenAIResponseStream.chunkIndex s' = openai.OpenAIResponseStream.chunkIndex s
           /\ (e = io_EOF
               \/ (exists err, e = wrapError "failed to parse stream chunk: " err)
               \/ In (Some e)
                    (List.map go.rd_err
                       (bufReader.reader (openai.OpenAIResponseStream.reader s))))
       end.
Proof.
  induction fuel as [|fuel IH]; intros s r s' Hl; [discriminate|].
  cbn [openai.Recv_loop] in Hl.
  destruct (bufReader.ReadLine _) as [rl rd] eqn:E.
  pose proof (ReadLine_left _ _ _ E) as [Hle Hlt].
  pose proof (ReadLine_suffix _ _ _ E) as (pre & Hpre & Herr).
  assert (Hin : forall e,
             In (Some e) (List.map go.rd_err (bufReader.reader rd)) ->
             In (Some e)
               (List.map go.rd_err (bufReader.reader (openai.OpenAIResponseStream.reader s)))).
  { intros e He. rewrite Hpre, map_app. apply in_or_app. now right. }
  destruct rl as [line|e].
  2:{ injection Hl as <- <-. cbn. repeat (split; [done|]).
      destruct (Herr e eq_refl) as [->|He]; [now left|]. right. right.
      rewrite Hpre, map_app. apply in_or_app. now left. }
  specialize (Hlt line eq_refl). clear E Herr Hpre.
  repeat (case_match; simplify_eq);
    try (apply IH in Hl; cbn in Hl);
    cbn;
    repeat match goal with
           | H : String.eqb _ "" = true |- _ => apply String.eqb_eq in H
           | H : String.eqb _ "" = false |- _ => apply String.eqb_neq in H
           | H : negb _ = true |- _ => apply negb_true_iff in H
           | H : negb _ = false |- _ => apply negb_false_iff in H
           end;
    try (destruct Hl as (H1 & H2 & H3 & H4 & H5));
    intuition (auto; try lia; try congruence; eauto).
Qed.

(** The event behind a chunk of the OpenAI stream: a data line that
    [ReadLine] returned, after any number of lines passed over, whose
    payload decodes to a chunk of the vendor with a choice. *)
Lemma openai_Recv_loop_event (fuel : nat) :
  forall s resp s',
    openai.Recv_loop fuel s = Some (Ok resp, s') ->
    exists (b : bufReader.t) (line : string) (chunk : openai.openAIStreamChunk.t)
           (choice : openai.openAIStreamChoice.t) (rest : list openai.openAIStreamChoice.t),
      notions.reached (openai.OpenAIResponseStream.reader s) b
      /\ bufReader.ReadLine b = (Ok line, openai.OpenAIResponseStream.reader s')
      /\ go.bytes_HasPrefix line "data: " = true
      /\ go.json_Unmarshal (go.bytes_TrimPrefix line "data: ") = Ok chunk
      /\ openai.openAIStreamChunk.Choices chunk = choice :: rest
      /\ openai.OpenAIResponseStream.currentRole s'
         = (if String.eqb (openai.openAIStreamDelta.Role
                             (openai.openAIStreamChoice.Delta choice)) ""
            then openai.OpenAIResponseStream.currentRole s
            else openai.openAIStreamDelta.Role (openai.openAIStreamChoice.Delta choice))
      /\ llm.CompletionResponse.Choices resp
         = [ {| llm.CompletionChoice.Index := openai.openAIStreamChoice.Index choice;
                llm.CompletionChoice.FinishReason :=
                  openai.openAIStreamChoice.FinishReason choice;
                llm.CompletionChoice.Message :=
                  {| llm.Message.Role := openai.OpenAIResponseStream.currentRole s';
                     llm.Message.Content :=
                       openai.openAIStreamDelta.Content
                         (openai.openAIStreamChoice.Delta choice) |} |} ].
Proof.
  induction fuel as [|fuel IH]; intros s resp s' Hl; [discriminate|].
  cbn [openai.Recv_loop] in Hl.
  destruct (bufReader.ReadLine _) as [rl rd] eqn:E.
  destruct rl as [line|e]; [|discriminate].
  assert (Hskip : forall s1,
             openai.OpenAIResponseStream.reader s1 = rd ->
             openai.OpenAIResponseStream.currentRole s1
             = openai.OpenAIResponseStream.currentRole s ->
             openai.Recv_loop fuel s1 = Some (Ok resp, s') ->
             exists b line chunk choice rest,
               notions.reached (openai.OpenAIResponseStream.reader s) b
               /\ bufReader.ReadLine b = (Ok line, openai.OpenAIResponseStream.reader s')
               /\ go.bytes_HasPrefix line "data: " = true
               /\ go.json_Unmarshal (go.bytes_TrimPrefix line "data: ") = Ok chunk
               /\ openai.openAIStreamChunk.Choices chunk = choice :: rest
               /\ openai.OpenAIResponseStream.currentRole s'
                  = (if String.eqb (openai.openAIStreamDelta.Role
                                      (openai.openAIStreamChoice.Delta choice)) ""
                     then openai.OpenAIResponseStream.currentRole s
                     else openai.openAIStreamDelta.Role
                            (openai.openAIStreamChoice.Delta choice))
               /\ llm.CompletionResponse.Choices resp
                  = [ {| llm.CompletionChoice.Index := openai.openAIStreamChoice.Index choice;
                         llm.CompletionChoice.FinishReason :=
                           openai.openAIStreamChoice.FinishReason choice;
                         llm.CompletionChoice.Message :=
                           {| llm.Message.Role := openai.OpenAIResponseStream.currentRole s';
                              llm.Message.Content :=
                                openai.openAIStreamDelta.Content
                                  (openai.openAIStreamChoice.Delta choice) |} |} ]).
  { intros s1 Hrd Hrole Hl1.
    apply IH in Hl1 as (b & line1 & chunk & choice & rest & Hre & Hl1).
    rewrite Hrd, Hrole in *. exists b, line1, chunk, choice, rest.
    split; [exact (notions.reached_line _ _ _ _ E Hre)|exact Hl1]. }
  destruct ((String.length line =? 0)%nat || go.bytes_HasPrefix line ":") eqn:Hcomment;
    [refine (Hskip _ _ _ Hl); reflexivity|].
  destruct (go.bytes_HasPrefix line "data: ") eqn:Hp; cbn [negb] in Hl;
    [|refine (Hskip _ _ _ Hl); reflexivity].
  destruct (String.eqb _ "[DONE]"); [discriminate|].
  destruct (go.json_Unmarshal _) as [chunk|e] eqn:Hd; [|discriminate].
  destruct (openai.openAIStreamChunk.Choices chunk) as [|choice rest] eqn:Hc.
  { refine (Hskip _ _ _ Hl); destruct (String.eqb _ ""); reflexivity. }
  injection Hl as <- <-.
  exists (openai.OpenAIResponseStream.reader s), line, chunk, choice, rest.
  split; [apply notions.reached_now|].
  split; [rewrite E; f_equal; repeat (case_match; try reflexivity)|].
  split; [exact Hp|]. split; [exact Hd|]. split; [exact Hc|].
  split; cbn; repeat (case_match; simplify_eq/=; try reflexivity; try discriminate).
Qed.

Lemma anthropic_Recv_loop_spec (fuel : nat) :
  forall s w r s' w',
    anthropic.Recv_loop fuel s w = (Some (r, s'), w') ->
    (bufReader.left (anthropic.AnthropicResponseStream.reader s')
     <= bufReader.left (anthropic.AnthropicResponseStream.reader s))%nat
    /\ anthropic.AnthropicResponseStream.provider s'
       = anthropic.AnthropicResponseStream.provider s
    /\ go.sent w' = go.sent w
    /\ match r with
       | Ok resp =>
           (bufReader.left (anthropic.AnthropicResponseStream.reader s')
            < bufReader.left (anthropic.AnthropicResponseStream.reader s))%nat
           /\ go.ticks w' = S (go.ticks w)
           /\ llm.CompletionResponse.Created resp = go.Unix (go.clock w (go.ticks w))
           /\ llm.CompletionResponse.Object resp = "chat.completion.chunk"
           /\ llm.CompletionResponse.Provider resp
              = anthropic.AnthropicResponseStream.provider s
           /\ llm.CompletionResponse.Model resp = ""
           /\ llm.CompletionResponse.RawResponse resp = go.any_nil
           /\ llm.CompletionResponse.Usage resp
              = {| llm.CompletionUsage.PromptTokens := 0;
                   llm.CompletionUsage.CompletionTokens := 0;
                   llm.CompletionUsage.TotalTokens := 0 |}
           /\ llm.CompletionResponse.ID resp = anthropic.AnthropicResponseStream.id s'
           /\ exists content,
                llm.CompletionResponse.Choices resp
                = [ {| llm.CompletionChoice.Index := 0;
                       llm.CompletionChoice.Message :=
                         {| llm.Message.Role := "assistant";
                            llm.Message.Content := content |};
                       llm.CompletionChoice.FinishReason := "" |} ]
       | Err e =>
           w' = w
           /\ (e = io_EOF
               \/ (exists err, e = wrapError "failed to parse stream event: " err)
               \/ In (Some e)
                    (List.map go.rd_err
                       (bufReader.reader (anthropic.AnthropicResponseStream.reader s))))
       end.
Proof.
  induction fuel as [|fuel IH]; intros s w r s' w' Hl; [discriminate|].
  cbn [anthropic.Recv_loop] in Hl.
  destruct (bufReader.ReadLine _) as [rl rd] eqn:E.
  pose proof (ReadLine_left _ _ _ E) as [Hle Hlt].
  pose proof (ReadLine_suffix _ _ _ E) as (pre & Hpre & Herr).
  assert (Hin : forall e,
             In (Some e) (List.map go.rd_err (bufReader.reader rd)) ->
             In (Some e)
               (List.map go.rd_err
                  (bufReader.reader (anthropic.AnthropicResponseStream.reader s)))).
  { intros e He. rewrite Hpre, map_app. apply in_or_app. now right. }
  destruct rl as [line|e].
  2:{ cbv [go.ret] in Hl. injection Hl as <- <- <-. cbn. repeat (split; [done|]).
      destruct (Herr e eq_refl) as [->|He]; [now left|]. right. right.
      rewrite Hpre, map_app. apply in_or_app. now left. }
  specialize (Hlt line eq_refl). clear E Herr Hpre.
  cbv beta delta [go.bind go.ret go.time_Now] in Hl.
  repeat (case_match; simplify_eq);
    try (apply IH in Hl; cbn in Hl);
    cbn;
    intuition (auto; try lia; try congruence; eauto).
Qed.

(** The event behind a chunk of the Anthropic stream: a data line that
    [ReadLine] returned, after any number of lines passed over, whose
    payload decodes to an event of type [content_block_start] or
    [content_block_delta].  The text of the chunk is the text of the
    content block of the event, else of its delta; the stream is marked
    finished by a delta with a stop reason read in the absence of a content
    block, and by nothing else. *)
Lemma anthropic_Recv_loop_event (fuel : nat) :
  forall s w resp s' w',
    anthropic.Recv_loop fuel s w = (Some (Ok resp, s'), w') ->
    exists (b : bufReader.t) (line : string) (event : anthropic.anthropicEvent.t),
      notions.reached (anthropic.AnthropicResponseStream.reader s) b
      /\ bufReader.ReadLine b = (Ok line, anthropic.AnthropicResponseStream.reader s')
      /\ go.bytes_HasPrefix line "data: " = true
      /\ go.json_Unmarshal (go.bytes_TrimPrefix line "data: ") = Ok event
      /\ (anthropic.anthropicEvent.Type_ event = "content_block_start"
          \/ anthropic.anthropicEvent.Type_ event = "content_block_delta")
      /\ llm.CompletionResponse.Choices resp
         = [ {| llm.CompletionChoice.Index := 0;
                llm.CompletionChoice.Message :=
                  {| llm.Message.Role := "assistant";
                     llm.Message.Content :=
                       match anthropic.anthropicEvent.ContentBlock event with
                       | Some block => anthropic.ContentBlock.Text block
                       | None =>
                           match anthropic.anthropicEvent.Delta event with
                           | Some delta => anthropic.Delta.Text delta
                           | None => ""
                           end
                       end |};
                llm.CompletionChoice.FinishReason := "" |} ]
      /\ anthropic.AnthropicResponseStream.streamFinished s'
         = match anthropic.anthropicEvent.ContentBlock event with
           | Some _ => anthropic.AnthropicResponseStream.streamFinished s
           | None =>
               match anthropic.anthropicEvent.Delta event with
               | Some delta =>
                   if negb (String.eqb (anthropic.Delta.StopReason delta) "")
                   then true
                   else anthropic.AnthropicResponseStream.streamFinished s
               | None => anthropic.AnthropicResponseStream.streamFinished s
               end
           end.
Proof.
  induction fuel as [|fuel IH]; intros s w resp s' w' Hl; [discriminate|].
  cbn [anthropic.Recv_loop] in Hl.
  destruct (bufReader.ReadLine _) as [rl rd] eqn:E.
  destruct rl as [line|e]; [|discriminate].
  assert (Hskip : forall s1,
             anthropic.AnthropicResponseStream.reader s1 = rd ->
             anthropic.AnthropicResponseStream.streamFinished s1
             = anthropic.AnthropicResponseStream.streamFinished s ->
             anthropic.Recv_loop fuel s1 w = (Some (Ok resp, s'), w') ->
             exists b line event,
               notions.reached (anthropic.AnthropicResponseStream.reader s) b
               /\ bufReader.ReadLine b
                  = (Ok line, anthropic.AnthropicResponseStream.reader s')
               /\ go.bytes_HasPrefix line "data: " = true
               /\ go.json_Unmarshal (go.bytes_TrimPrefix line "data: ") = Ok event
               /\ (anthropic.anthropicEvent.Type_ event = "content_block_start"
                   \/ anthropic.anthropicEvent.Type_ event = "content_block_delta")
               /\ llm.CompletionResponse.Choices resp
                  = [ {| llm.CompletionChoice.Index := 0;
                         llm.CompletionChoice.Message :=
                           {| llm.Message.Role := "assistant";
                              llm.Message.Content :=
                                match anthropic.anthropicEvent.ContentBlock event with
                                | Some block => anthropic.ContentBlock.Text block
                                | None =>
                                    match anthropic.anthropicEvent.Delta event with
                                    | Some delta => anthropic.Delta.Text delta
                                    | None => ""
                                    end
                                end |};
                         llm.CompletionChoice.FinishReason := "" |} ]
               /\ anthropic.AnthropicResponseStream.streamFinished s'
                  = match anthropic.anthropicEvent.ContentBlock event with
                    | Some _ => anthropic.AnthropicResponseStream.streamFinished s
                    | None =>
                        match anthropic.anthropicEvent.Delta event with
                        | Some delta =>
                            if negb (String.eqb (anthropic.Delta.StopReason delta) "")
                            then true
                            else anthropic.AnthropicResponseStream.streamFinished s
                        | None => anthropic.AnthropicResponseStream.streamFinished s
                        end
                    end).
  { intros s1 Hrd Hfin Hl1.
    apply IH in Hl1 as (b & line1 & event & Hre & Hl1).
    rewrite Hrd, Hfin in *. exists b, line1, event.
    split; [exact (notions.reached_line _ _ _ _ E Hre)|exact Hl1]. }
  destruct (String.length line =? 0)%nat eqn:Hempty;
    [refine (Hskip _ _ _ Hl); reflexivity|].
  destruct (go.bytes_HasPrefix line "data: ") eqn:Hp; cbn [negb] in Hl;
    [|refine (Hskip _ _ _ Hl); reflexivity].
  destruct (String.eqb _ "[DONE]"); [discriminate|].
  destruct (go.json_Unmarshal _) as [event|e] eqn:Hd; [|discriminate].
  destruct (String.eqb (anthropic.anthropicEvent.Type_ event) "content_block_start"
            || String.eqb (anthropic.anthropicEvent.Type_ event) "content_block_delta")
    eqn:Hty.
  2:{ destruct (String.eqb _ "message_start");
        [destruct (anthropic.anthropicEvent.Message event)|];
        refine (Hskip _ _ _ Hl); reflexivity. }
  apply orb_true_iff in Hty. rewrite !String.eqb_eq in Hty.
  exists (anthropic.AnthropicResponseStream.reader s), line, event.
  split; [apply notions.reached_now|].
  cbv beta delta [go.bind go.ret go.time_Now] in Hl.
  destruct (anthropic.anthropicEvent.ContentBlock event) as [block|];
    [|destruct (anthropic.anthropicEvent.Delta event) as [delta|];
      [destruct (negb (String.eqb (anthropic.Delta.StopReason delta) ""))|]];
    injection Hl as <- <- <-; rewrite E; repeat apply conj; try reflexivity; assumption.
Qed.

Lemma google_Recv_loop_spec (fuel : nat) :
  forall s w r s' w',
    google.Recv_loop fuel s w = (Some (r, s'), w') ->
    (bufReader.left (google.reader s') <= bufReader.left (google.reader s))%nat
    /\ google.provider s' = google.provider s
    /\ go.sent w' = go.sent w
    /\ match r with
       | Ok resp =>
           (bufReader.left (google.reader s') < bufReader.left (google.reader s))%nat
           /\ google.streamFinished s' = google.streamFinished s
           /\ go.ticks w' = S (S (go.ticks w))
           /\ llm.CompletionResponse.ID resp
              = "google-" +:+ go.itoa (go.clock w (go.ticks w))
           /\ llm.CompletionResponse.Created resp = go.Unix (go.clock w (S (go.ticks w)))
           /\ llm.CompletionResponse.Object resp = "chat.completion.chunk"
           /\ llm.CompletionResponse.Provider resp = google.provider s
           /\ llm.CompletionResponse.Model resp = ""
           /\ llm.CompletionResponse.RawResponse resp = go.any_nil
           /\ llm.CompletionResponse.Usage resp
              = {| llm.CompletionUsage.PromptTokens := 0;
                   llm.CompletionUsage.CompletionTokens := 0;
                   llm.CompletionUsage.TotalTokens := 0 |}
           /\ exists content finish,
                llm.CompletionResponse.Choices resp
                = [ {| llm.CompletionChoice.Index := 0;
                       llm.CompletionChoice.Message :=
                         {| llm.Message.Role := "assistant";
                            llm.Message.Content := content |};
                       llm.CompletionChoice.FinishReason := finish |} ]
       | Err e =>
           w' = w
           /\ (e = io_EOF
               \/ In (Some e) (List.map go.rd_err (bufReader.reader (google.reader s))))
       end.
Proof.
  induction fuel as [|fuel IH]; intros s w r s' w' Hl; [discriminate|].
  cbn [google.Recv_loop] in Hl.
  destruct (bufReader.ReadLine _) as [rl rd] eqn:E.
  pose proof (ReadLine_left _ _ _ E) as [Hle Hlt].
  pose proof (ReadLine_suffix _ _ _ E) as (pre & Hpre & Herr).
  assert (Hin : forall e,
             In (Some e) (List.map go.rd_err (bufReader.reader rd)) ->
             In (Some e) (List.map go.rd_err (bufReader.reader (google.reader s)))).
  { intros e He. rewrite Hpre, map_app. apply in_or_app. now right. }
  destruct rl as [line|e].
  2:{ cbv [go.ret] in Hl. injection Hl as <- <- <-. cbn. repeat (split; [done|]).
      destruct (Herr e eq_refl) as [->|He]; [now left|]. right.
      rewrite Hpre, map_app. apply in_or_app. now left. }
  specialize (Hlt line eq_refl). clear E Herr Hpre.
  cbv beta delta [go.bind go.ret go.time_Now] in Hl.
  repeat (case_match; simplify_eq);
    try (apply IH in Hl; cbn in Hl);
    cbn;
    intuition (auto; try lia; try congruence; eauto).
Qed.

(** What [Recv] returns is what its loop returns, unless the stream is
    finished. *)
Lemma openai_Recv_inv s r s' :
  openai.Recv s = (r, s') ->
  (openai.OpenAIResponseStream.streamFinished s = true /\ r = Err io_EOF /\ s' = s)
  \/ (openai.OpenAIResponseStream.streamFinished s = false
      /\ exists fuel, openai.Recv_loop fuel s = Some (r, s')).
Proof.
  unfold openai.Recv.
  destruct (openai.OpenAIResponseStream.streamFinished s); [intros [= <- <-]; now left|].
  destruct (openai_Recv_loop_returns
              (S (bufReader.left (openai.OpenAIResponseStream.reader s))) s) as [r0 Hr0];
    [lia|].
  rewrite Hr0. intros ->. right. split; [reflexivity|]. eauto.
Qed.

Lemma anthropic_Recv_inv s w r s' w' :
  anthropic.Recv s w = ((r, s'), w') ->
  (anthropic.AnthropicResponseStream.streamFinished s = true
   /\ r = Err io_EOF /\ s' = s /\ w' = w)
  \/ (anthropic.AnthropicResponseStream.streamFinished s = false
      /\ exists fuel, anthropic.Recv_loop fuel s w = (Some (r, s'), w')).
Proof.
  unfold anthropic.Recv.
  destruct (anthropic.AnthropicResponseStream.streamFinished s);
    [intros [= <- <- <-]; now left|].
  destruct (anthropic_Recv_loop_returns
              (S (bufReader.left (anthropic.AnthropicResponseStream.reader s))) s w)
    as (r0 & w0 & Hr0); [lia|].
  rewrite Hr0. intros [= -> ->]. right. split; [reflexivity|]. eauto.
Qed.

Lemma google_Recv_inv s w r s' w' :
  google.Recv s w = ((r, s'), w') ->
  (google.streamFinished s = true /\ r = Err io_EOF /\ s' = s /\ w' = w)
  \/ (google.streamFinished s = false
      /\ exists fuel, google.Recv_loop fuel s w = (Some (r, s'), w')).
Proof.
  unfold google.Recv.
  destruct (google.streamFinished s); [intros [= <- <- <-]; now left|].
  destruct (google_Recv_loop_returns (S (bufReader.left (google.reader s))) s w)
    as (r0 & w0 & Hr0); [lia|].
  rewrite Hr0. intros [= -> ->]. right. split; [reflexivity|]. eauto.
Qed.

(** A chunk of the OpenAI stream.  Its object is [chat.completion.chunk],
    it has exactly one choice, no usage and no raw response, and the
    provider of the stream; its identifier, model, creation time and
    fingerprint are the ones the stream holds after the call.  The call
    that returns it reads at least one byte of the connection or the
    buffer, counts the chunk and does not finish the stream.

    The chunk is made from one event: a [data: ] line that [ReadLine]
    returned, after the lines the call passed over, whose payload
    [json.Unmarshal] decoded to a chunk of the vendor with at least one
    choice.  The index, the finish reason and the text of the one choice
    are those of the FIRST choice of that event.  Its role is the role the
    stream holds after the call, which is the role the delta of that choice
    names and, when it names none, the role the stream held before the
    call: so the last role a delta named. *)
Theorem openai_Recv_chunk
  (s s' : openai.OpenAIResponseStream.t) (resp : llm.CompletionResponse.t) :
  openai.Recv s = (Ok resp, s') ->
  llm.CompletionResponse.Object resp = "chat.completion.chunk"
  /\ llm.CompletionResponse.Provider resp = openai.OpenAIResponseStream.provider s
  /\ llm.CompletionResponse.RawResponse resp = go.any_nil
  /\ llm.CompletionResponse.Usage resp
     = {| llm.CompletionUsage.PromptTokens := 0;
          llm.CompletionUsage.CompletionTokens := 0;
          llm.CompletionUsage.TotalTokens := 0 |}
  /\ llm.CompletionResponse.ID resp = openai.OpenAIResponseStream.id s'
  /\ llm.CompletionResponse.Model resp = openai.OpenAIResponseStream.model s'
  /\ llm.CompletionResponse.Created resp = openai.OpenAIResponseStream.created s'
  /\ llm.CompletionResponse.SystemFingerprint resp
     = openai.OpenAIResponseStream.fingerprint s'
  /\ (exists choice,
        llm.CompletionResponse.Choices resp = [choice]
        /\ llm.Message.Role (llm.CompletionChoice.Message choice)
           = openai.OpenAIResponseStream.currentRole s')
  /\ (openai.OpenAIResponseStream.currentRole s <> "" ->
      openai.OpenAIResponseStream.currentRole s' <> "")
  /\ openai.OpenAIResponseStream.chunkIndex s'
     = go.int_add (openai.OpenAIResponseStream.chunkIndex s) 1
  /\ openai.OpenAIResponseStream.streamFinished s' = false
  /\ (bufReader.left (openai.OpenAIResponseStream.reader s')
      < bufReader.left (openai.OpenAIResponseStream.reader s))%nat
  /\ exists (b : bufReader.t) (line : string) (chunk : openai.openAIStreamChunk.t)
            (first : openai.openAIStreamChoice.t) (rest : list openai.openAIStreamChoice.t),
       notions.reached (openai.OpenAIResponseStream.reader s) b
       /\ bufReader.ReadLine b = (Ok line, openai.OpenAIResponseStream.reader s')
       /\ go.bytes_HasPrefix line "data: " = true
       /\ go.json_Unmarshal (go.bytes_TrimPrefix line "data: ") = Ok chunk
       /\ openai.openAIStreamChunk.Choices chunk = first :: rest
       /\ openai.OpenAIResponseStream.currentRole s'
          = (if String.eqb (openai.openAIStreamDelta.Role
                              (openai.openAIStreamChoice.Delta first)) ""
             then openai.OpenAIResponseStream.currentRole s
             else openai.openAIStreamDelta.Role (openai.openAIStreamChoice.Delta first))
       /\ llm.CompletionResponse.Choices resp
          = [ {| llm.CompletionChoice.Index := openai.openAIStreamChoice.Index first;
                 llm.CompletionChoice.FinishReason :=
                   openai.openAIStreamChoice.FinishReason first;
                 llm.CompletionChoice.Message :=
                   {| llm.Message.Role := openai.OpenAIResponseStream.currentRole s';
                      llm.Message.Content :=
                        openai.openAIStreamDelta.Content
                          (openai.openAIStreamChoice.Delta first) |} |} ].
Proof.
  intros Hr. apply openai_Recv_inv in Hr as [(_ & [=] & _)|(Hf & fuel & Hl)].
  pose proof (openai_Recv_loop_event _ _ _ _ Hl) as Hev.
  apply openai_Recv_loop_spec in Hl.
  destruct Hl as (_ & _ & _ & Hrole & Hlt & Hfin & Hl).
  repeat apply conj; try (intuition congruence); exact Hev.
Qed.

(** Once the OpenAI stream holds an identifier, it keeps it, with the
    model, the creation time and the fingerprint that came with it: every
    chunk of every later call carries these four, whatever the later events
    of the vendor say. *)
Theorem openai_header_is_sticky (s : openai.OpenAIResponseStream.t) (n : nat) :
  openai.OpenAIResponseStream.id s <> "" ->
  Forall (fun r =>
            match r with
            | Ok resp =>
                llm.CompletionResponse.ID resp = openai.OpenAIResponseStream.id s
                /\ llm.CompletionResponse.Model resp = openai.OpenAIResponseStream.model s
                /\ llm.CompletionResponse.Created resp
                   = openai.OpenAIResponseStream.created s
                /\ llm.CompletionResponse.SystemFingerprint resp
                   = openai.OpenAIResponseStream.fingerprint s
            | Err _ => True
            end)
    (fst (expected.calls openai.Recv n s)).
Proof.
  revert s; induction n as [|n IH]; intros s Hid; [constructor|].
  cbn [expected.calls]. destruct (openai.Recv s) as [r s'] eqn:Hr.
  assert (Hs : openai.OpenAIResponseStream.id s' = openai.OpenAIResponseStream.id s
               /\ openai.OpenAIResponseStream.model s' = openai.OpenAIResponseStream.model s
               /\ openai.OpenAIResponseStream.created s'
                  = openai.OpenAIResponseStream.created s
               /\ openai.OpenAIResponseStream.fingerprint s'
                  = openai.OpenAIResponseStream.fingerprint s
               /\ match r with
                  | Ok resp =>
                      llm.CompletionResponse.ID resp = openai.OpenAIResponseStream.id s'
                      /\ llm.CompletionResponse.Model resp
                         = openai.OpenAIResponseStream.model s'
                      /\ llm.CompletionResponse.Created resp
                         = openai.OpenAIResponseStream.created s'
                      /\ llm.CompletionResponse.SystemFingerprint resp
                         = openai.OpenAIResponseStream.fingerprint s'
                  | Err _ => True
                  end).
  { apply openai_Recv_inv in Hr as [(_ & -> & ->)|(_ & fuel & Hl)]; [now repeat split|].
    apply openai_Recv_loop_spec in Hl. destruct r; intuition. }
  destruct Hs as (Hi & Hm & Hc & Hp & Hresp).
  specialize (IH s'). rewrite Hi, Hm, Hc, Hp in IH. specialize (IH Hid).
  destruct (expected.calls openai.Recv n s') as [rs s'']. cbn [fst] in *.
  constructor; [|exact IH].
  destruct r; [|exact I]. rewrite <- Hi, <- Hm, <- Hc, <- Hp. exact Hresp.
Qed.

(** [Recv] never puts back what it read, and reads something for every
    chunk it returns: what is left to read (the buffer and the connection)
    never grows and shrinks with every chunk.  So a consumer that calls
    [Recv] until it gets an error stops: of any number of calls larger than
    what is left to read, one at least returns an error. *)
Theorem Recv_consumes :
  (forall s r s',
     openai.Recv s = (r, s') ->
     (bufReader.left (openai.OpenAIResponseStream.reader s')
      <= bufReader.left (openai.OpenAIResponseStream.reader s))%nat
     /\ (forall resp, r = Ok resp ->
           (bufReader.left (openai.OpenAIResponseStream.reader s')
            < bufReader.left (openai.OpenAIResponseStream.reader s))%nat))
  /\ (forall s w r s' w',
        anthropic.Recv s w = ((r, s'), w') ->
        (bufReader.left (anthropic.AnthropicResponseStream.reader s')
         <= bufReader.left (anthropic.AnthropicResponseStream.reader s))%nat
        /\ (forall resp, r = Ok resp ->
              (bufReader.left (anthropic.AnthropicResponseStream.reader s')
               < bufReader.left (anthropic.AnthropicResponseStream.reader s))%nat))
  /\ (forall s w r s' w',
        google.Recv s w = ((r, s'), w') ->
        (bufReader.left (google.reader s') <= bufReader.left (google.reader s))%nat
        /\ (forall resp, r = Ok resp ->
              (bufReader.left (google.reader s') < bufReader.left (google.reader s))%nat))
  /\ (forall n s,
        (bufReader.left (openai.OpenAIResponseStream.reader s) < n)%nat ->
        exists e, In (Err e) (fst (expected.calls openai.Recv n s))).
Proof.
  assert (Ho : forall s r s',
             openai.Recv s = (r, s') ->
             (bufReader.left (openai.OpenAIResponseStream.reader s')
              <= bufReader.left (openai.OpenAIResponseStream.reader s))%nat
             /\ (forall resp, r = Ok resp ->
                   (bufReader.left (openai.OpenAIResponseStream.reader s')
                    < bufReader.left (openai.OpenAIResponseStream.reader s))%nat)).
  { intros s r s' Hr.
    apply openai_Recv_inv in Hr as [(_ & -> & ->)|(_ & fuel & Hl)];
      [split; [lia|discriminate]|].
    apply openai_Recv_loop_spec in Hl as (Hle & _ & _ & _ & Hr).
    split; [exact Hle|]. intros resp ->. apply Hr. }
  split; [exact Ho|]. split; [|split].
  - intros s w r s' w' Hr.
    apply anthropic_Recv_inv in Hr as [(_ & -> & -> & _)|(_ & fuel & Hl)];
      [split; [lia|discriminate]|].
    apply anthropic_Recv_loop_spec in Hl as (Hle & _ & _ & Hr).
    split; [exact Hle|]. intros resp ->. apply Hr.
  - intros s w r s' w' Hr.
    apply google_Recv_inv in Hr as [(_ & -> & -> & _)|(_ & fuel & Hl)];
      [split; [lia|discriminate]|].
    apply google_Recv_loop_spec in Hl as (Hle & _ & _ & Hr).
    split; [exact Hle|]. intros resp ->. apply Hr.
  - induction n as [|n IH]; intros s Hn; [lia|].
    cbn [expected.calls]. destruct (openai.Recv s) as [r s'] eqn:Hr.
    destruct (Ho _ _ _ Hr) as [_ Hlt].
    destruct r as [resp|e].
    + specialize (Hlt resp eq_refl).
      destruct (IH s') as [e He]; [lia|].
      destruct (expected.calls openai.Recv n s') as [rs s'']. exists e. now right.
    + destruct (expected.calls openai.Recv n s') as [rs s'']. exists e. now left.
Qed.

(** The errors of [Recv].  Each stream returns end-of-file, or an error of
    one of the reads of the connection, as it is; the OpenAI and the
    Anthropic stream also return the decoder's error, wrapped.  The Gemini
    stream returns nothing else: no error of the decoder ever reaches its
    caller.  A call of the Anthropic or the Gemini stream that returns an
    error leaves the world as it was. *)
Theorem Recv_errors :
  (forall s e s',
     openai.Recv s = (Err e, s') ->
     e = io_EOF
     \/ (exists err, e = wrapError "failed to parse stream chunk: " err)
     \/ In (Some e)
          (List.map go.rd_err (bufReader.reader (openai.OpenAIResponseStream.reader s))))
  /\ (forall s w e s' w',
        anthropic.Recv s w = ((Err e, s'), w') ->
        w' = w
        /\ (e = io_EOF
            \/ (exists err, e = wrapError "failed to parse stream event: " err)
            \/ In (Some e)
                 (List.map go.rd_err
                    (bufReader.reader (anthropic.AnthropicResponseStream.reader s)))))
  /\ (forall s w e s' w',
        google.Recv s w = ((Err e, s'), w') ->
        w' = w
        /\ (e = io_EOF
            \/ In (Some e) (List.map go.rd_err (bufReader.reader (google.reader s))))).
Proof.
  split; [|split].
  - intros s e s' Hr.
    apply openai_Recv_inv in Hr as [(_ & [= ->] & _)|(_ & fuel & Hl)]; [now left|].
    now apply openai_Recv_loop_spec in Hl as (_ & _ & _ & _ & _ & Hr).
  - intros s w e s' w' Hr.
    apply anthropic_Recv_inv in Hr as [(_ & [= ->] & _ & ->)|(_ & fuel & Hl)];
      [split; [reflexivity|now left]|].
    now apply anthropic_Recv_loop_spec in Hl as (_ & _ & _ & Hr).
  - intros s w e s' w' Hr.
    apply google_Recv_inv in Hr as [(_ & [= ->] & _ & ->)|(_ & fuel & Hl)];
      [split; [reflexivity|now left]|].
    now apply google_Recv_loop_spec in Hl as (_ & _ & _ & Hr).
Qed.

(** A chunk of the Anthropic stream.  Its object is
    [chat.completion.chunk] and it has exactly one choice, with index 0,
    the role [assistant] and NO finish reason: a stop reason of the vendor
    is never passed on in a chunk.  It has no model, no usage and no raw
    response; its identifier is the one the stream holds, and its creation
    time is the reading of the clock, which is read once.  The call sends
    nothing and reads at least one byte.

    The chunk is made from one event: a [data: ] line that [ReadLine]
    returned, after the lines the call passed over, whose payload
    [json.Unmarshal] decoded to an event of type [content_block_start] or
    [content_block_delta].  The text of the chunk is the text of the
    content block of that event and, without one, of its delta.  All a stop
    reason does is mark the stream finished: the stream, not finished
    before the call, is finished after it exactly when the event has no
    content block and its delta has a stop reason. *)
Theorem anthropic_Recv_chunk
  (s s' : anthropic.AnthropicResponseStream.t) (w w' : go.World)
  (resp : llm.CompletionResponse.t) :
  anthropic.Recv s w = ((Ok resp, s'), w') ->
  llm.CompletionResponse.Object resp = "chat.completion.chunk"
  /\ llm.CompletionResponse.Provider resp = anthropic.AnthropicResponseStream.provider s
  /\ llm.CompletionResponse.Model resp = ""
  /\ llm.CompletionResponse.RawResponse resp = go.any_nil
  /\ llm.CompletionResponse.Usage resp
     = {| llm.CompletionUsage.PromptTokens := 0;
          llm.CompletionUsage.CompletionTokens := 0;
          llm.CompletionUsage.TotalTokens := 0 |}
  /\ llm.CompletionResponse.ID resp = anthropic.AnthropicResponseStream.id s'
  /\ llm.CompletionResponse.Created resp = go.Unix (go.clock w (go.ticks w))
  /\ (exists content,
        llm.CompletionResponse.Choices resp
        = [ {| llm.CompletionChoice.Index := 0;
               llm.CompletionChoice.Message :=
                 {| llm.Message.Role := "assistant"; llm.Message.Content := content |};
               llm.CompletionChoice.FinishReason := "" |} ])
  /\ go.sent w' = go.sent w
  /\ go.ticks w' = S (go.ticks w)
  /\ (bufReader.left (anthropic.AnthropicResponseStream.reader s')
      < bufReader.left (anthropic.AnthropicResponseStream.reader s))%nat
  /\ anthropic.AnthropicResponseStream.streamFinished s = false
  /\ exists (b : bufReader.t) (line : string) (event : anthropic.anthropicEvent.t),
       notions.reached (anthropic.AnthropicResponseStream.reader s) b
       /\ bufReader.ReadLine b = (Ok line, anthropic.AnthropicResponseStream.reader s')
       /\ go.bytes_HasPrefix line "data: " = true
       /\ go.json_Unmarshal (go.bytes_TrimPrefix line "data: ") = Ok event
       /\ (anthropic.anthropicEvent.Type_ event = "content_block_start"
           \/ anthropic.anthropicEvent.Type_ event = "content_block_delta")
       /\ llm.CompletionResponse.Choices resp
          = [ {| llm.CompletionChoice.Index := 0;
                 llm.CompletionChoice.Message :=
                   {| llm.Message.Role := "assistant";
                      llm.Message.Content :=
                        match anthropic.anthropicEvent.ContentBlock event with
                        | Some block => anthropic.ContentBlock.Text block
                        | None =>
                            match anthropic.anthropicEvent.Delta event with
                            | Some delta => anthropic.Delta.Text delta
                            | None => ""
                            end
                        end |};
                 llm.CompletionChoice.FinishReason := "" |} ]
       /\ anthropic.AnthropicResponseStream.streamFinished s'
          = match anthropic.anthropicEvent.ContentBlock event with
            | Some _ => false
            | None =>
                match anthropic.anthropicEvent.Delta event with
                | Some delta => negb (String.eqb (anthropic.Delta.StopReason delta) "")
                | None => false
                end
            end.
Proof.
  intros Hr. apply anthropic_Recv_inv in Hr as [(_ & [=] & _)|(Hf & fuel & Hl)].
  pose proof (anthropic_Recv_loop_event _ _ _ _ _ _ Hl)
    as (b & line & event & Hre & Hline & Hp & Hd & Hty & Hch & Hfin).
  apply anthropic_Recv_loop_spec in Hl.
  repeat apply conj; try (intuition congruence).
  exists b, line, event. repeat apply conj; try assumption.
  rewrite Hfin, Hf.
  destruct (anthropic.anthropicEvent.ContentBlock event); [reflexivity|].
  destruct (anthropic.anthropicEvent.Delta event) as [delta|]; [|reflexivity].
  now destruct (negb (String.eqb (anthropic.Delta.StopReason delta) "")).
Qed.

(** A chunk of the Gemini stream.  Its object is [chat.completion.chunk]
    and it has exactly one choice, with index 0 and the role [assistant],
    whatever the number of candidates of the event.  It has no model, no
    usage and no raw response; its identifier is [google-] followed by a
    first reading of the clock in nanoseconds, and its creation time is a
    second reading.  The call sends nothing, reads at least one byte, and
    does not finish the stream, even when the chunk has a finish
    reason. *)
Theorem google_Recv_chunk
  (s s' : google.GeminiResponseStream) (w w' : go.World) (resp : llm.CompletionResponse.t) :
  google.Recv s w = ((Ok resp, s'), w') ->
  llm.CompletionResponse.Object resp = "chat.completion.chunk"
  /\ llm.CompletionResponse.Provider resp = google.provider s
  /\ llm.CompletionResponse.Model resp = ""
  /\ llm.CompletionResponse.RawResponse resp = go.any_nil
  /\ llm.CompletionResponse.Usage resp
     = {| llm.CompletionUsage.PromptTokens := 0;
          llm.CompletionUsage.CompletionTokens := 0;
          llm.CompletionUsage.TotalTokens := 0 |}
  /\ llm.CompletionResponse.ID resp = "google-" +:+ go.itoa (go.clock w (go.ticks w))
  /\ llm.CompletionResponse.Created resp = go.Unix (go.clock w (S (go.ticks w)))
  /\ (exists content finish,
        llm.CompletionResponse.Choices resp
        = [ {| llm.CompletionChoice.Index := 0;
               llm.CompletionChoice.Message :=
                 {| llm.Message.Role := "assistant"; llm.Message.Content := content |};
               llm.CompletionChoice.FinishReason := finish |} ])
  /\ go.sent w' = go.sent w
  /\ go.ticks w' = S (S (go.ticks w))
  /\ google.streamFinished s' = false
  /\ (bufReader.left (google.reader s') < bufReader.left (google.reader s))%nat.
Proof.
  intros Hr. apply google_Recv_inv in Hr as [(_ & [=] & _)|(Hf & fuel & Hl)].
  apply google_Recv_loop_spec in Hl. intuition congruence.
Qed.

End recv.

Lemma openai_Recv_chunk_witness :
  exists resp s',
    @openai.Recv fixtures.openai_chunk_decoder
      (fixtures.openai_stream
         [ fixtures.read (fixtures.sse [ fixtures.event_role; fixtures.event_hi ]) ])
    = (Ok resp, s')
    /\ llm.CompletionResponse.Object resp = "chat.completion.chunk"
    /\ openai.OpenAIResponseStream.chunkIndex s' = 1
    /\ openai.OpenAIResponseStream.currentRole s' = "assistant"
    /\ exists choice,
         llm.CompletionResponse.Choices resp = [choice]
         /\ llm.Message.Role (llm.CompletionChoice.Message choice) = "assistant".
Proof.
  destruct (@openai.Recv fixtures.openai_chunk_decoder
              (fixtures.openai_stream
                 [ fixtures.read (fixtures.sse [ fixtures.event_role; fixtures.event_hi ]) ]))
    as [[resp|e] s'] eqn:E.
  - exists resp, s'. split; [reflexivity|].
    destruct (@openai_Recv_chunk fixtures.openai_chunk_decoder _ _ _ E)
      as (Ho & _ & _ & _ & _ & _ & _ & _ & (choice & Hc & Hrole) & _ & Hi & _).
    assert (Hs : openai.OpenAIResponseStream.currentRole s' = "assistant").
    { apply (f_equal (fun x => openai.OpenAIResponseStream.currentRole (snd x))) in E.
      vm_compute in E. symmetry. exact E. }
    split; [exact Ho|]. split; [exact Hi|]. split; [exact Hs|].
    exists choice. split; [exact Hc|]. rewrite Hrole. exact Hs.
  - exfalso. apply (f_equal fst) in E. vm_compute in E. discriminate.
Defined.

Lemma openai_header_is_sticky_witness :
  let s := openai.OpenAIResponseStream.with_header
             (fixtures.openai_stream
                [ fixtures.read (fixtures.sse [ fixtures.event_hi; fixtures.event_there ]) ])
             "chatcmpl-1" "gpt-4o" 1700000000 "fp_1" in
  Forall (fun r =>
            match r with
            | Ok resp =>
                llm.CompletionResponse.ID resp = "chatcmpl-1"
                /\ llm.CompletionResponse.Model resp = "gpt-4o"
                /\ llm.CompletionResponse.Created resp = 1700000000
                /\ llm.CompletionResponse.SystemFingerprint resp = "fp_1"
            | Err _ => True
            end)
    (fst (expected.calls (@openai.Recv fixtures.openai_chunk_decoder) 3 s)).
Proof.
  intros s. apply (@openai_header_is_sticky fixtures.openai_chunk_decoder s 3). discriminate.
Defined.

Lemma anthropic_Recv_chunk_witness :
  exists resp s' w',
    @anthropic.Recv fixtures.anthropic_delta_decoder
      (fixtures.anthropic_stream
         [ fixtures.read (fixtures.sse [ fixtures.anthropic_event_stop ]) ])
      (fixtures.world (fixtures.ok200 ""))
    = ((Ok resp, s'), w')
    /\ llm.CompletionResponse.Object resp = "chat.completion.chunk"
    /\ go.ticks w' = 1%nat
    /\ anthropic.AnthropicResponseStream.streamFinished s' = true
    /\ exists content,
         llm.CompletionResponse.Choices resp
         = [ {| llm.CompletionChoice.Index := 0;
                llm.CompletionChoice.Message :=
                  {| llm.Message.Role := "assistant"; llm.Message.Content := content |};
                llm.CompletionChoice.FinishReason := "" |} ].
Proof.
  destruct (@anthropic.Recv fixtures.anthropic_delta_decoder
              (fixtures.anthropic_stream
                 [ fixtures.read (fixtures.sse [ fixtures.anthropic_event_stop ]) ])
              (fixtures.world (fixtures.ok200 "")))
    as [[[resp|e] s'] w'] eqn:E.
  - exists resp, s', w'. split; [reflexivity|].
    destruct (@anthropic_Recv_chunk fixtures.anthropic_delta_decoder _ _ _ _ _ E)
      as (Ho & _ & _ & _ & _ & _ & _ & Hc & _ & Ht & _).
    split; [exact Ho|]. split; [exact Ht|]. split; [|exact Hc].
    apply (f_equal (fun x => anthropic.AnthropicResponseStream.streamFinished
                               (snd (fst x)))) in E.
    vm_compute in E. symmetry. exact E.
  - exfalso. apply (f_equal (fun x => fst (fst x))) in E. vm_compute in E. discriminate.
Defined.

Lemma google_Recv_chunk_witness :
  exists resp s' w',
    @google.Recv fixtures.gemini_chunk_decoder
      (fixtures.gemini_stream [ fixtures.read (fixtures.sse [ fixtures.gemini_event ]) ])
      (fixtures.world (fixtures.ok200 ""))
    = ((Ok resp, s'), w')
    /\ llm.CompletionResponse.Object resp = "chat.completion.chunk"
    /\ go.ticks w' = 2%nat.
Proof.
  destruct (@google.Recv fixtures.gemini_chunk_decoder
              (fixtures.gemini_stream [ fixtures.read (fixtures.sse [ fixtures.gemini_event ]) ])
              (fixtures.world (fixtures.ok200 "")))
    as [[[resp|e] s'] w'] eqn:E.
  - exists resp, s', w'. split; [reflexivity|].
    destruct (@google_Recv_chunk fixtures.gemini_chunk_decoder _ _ _ _ _ E)
      as (Ho & _ & _ & _ & _ & _ & _ & _ & _ & Ht & _).
    split; [exact Ho|exact Ht].
  - exfalso. apply (f_equal (fun x => fst (fst x))) in E. vm_compute in E. discriminate.
Defined.

(** ** What the adapters do not look at, and what they cannot encode *)

Section ignored.
Context `{!go.Unmarshal anthropic.anthropicResponse.t}
        `{!go.Unmarshal anthropic.anthropicEvent.t}
        `{!go.Unmarshal google.geminiResponse.t}
        `{!go.Unmarshal openai.openAIResponse.t}
        `{!go.Unmarshal openai.openAIStreamChunk.t}.

(** The OpenAI and the Anthropic adapter never read the extra parameters:
    a call with [WithExtraParams] does what the call without it does (so a
    token limit given as the extra parameter [max_completion_tokens] is not
    sent).  The Anthropic and the Google adapter never read the user. *)
Theorem options_the_adapters_ignore
  (pa : anthropic.Provider.t) (pg : google.Provider.t) (po : openai.Provider.t)
  (req : llm.CompletionRequest.t) (params : gmap string go.any) (user : string) :
  openai.Completion po (llm.WithExtraParams params req) = openai.Completion po req
  /\ openai.CompletionStream po (llm.WithExtraParams params req)
     = openai.CompletionStream po req
  /\ anthropic.Completion pa (llm.WithExtraParams params req) = anthropic.Completion pa req
  /\ anthropic.CompletionStream pa (llm.WithExtraParams params req)
     = anthropic.CompletionStream pa req
  /\ anthropic.Completion pa (llm.WithUser user req) = anthropic.Completion pa req
  /\ anthropic.CompletionStream pa (llm.WithUser user req)
     = anthropic.CompletionStream pa req
  /\ google.Completion pg (llm.WithUser user req) = google.Completion pg req
  /\ google.CompletionStream pg (llm.WithUser user req) = google.CompletionStream pg req.
Proof. repeat apply conj; reflexivity. Qed.

Lemma nan_not_zero (f : float) : PrimFloat.is_nan f = true -> PrimFloat.eqb f 0 = false.
Proof.
  unfold PrimFloat.is_nan. rewrite !FloatAxioms.eqb_spec.
  change (Prim2SF 0) with (S754_zero false).
  destruct (Prim2SF f) as [s|s| |s m e]; cbn; try reflexivity; try discriminate;
    destruct s; reflexivity.
Qed.

Lemma Marshal_float64_nan (f : float) :
  PrimFloat.is_nan f = true ->
  go.Marshal_float64 f = Err (errorString "json: unsupported value: NaN").
Proof. intros Hn. unfold go.Marshal_float64. now rewrite Hn. Qed.

Lemma array_all_Ok {A : Type} (enc : A -> result go.JSON) (l : list A) :
  (forall x, exists j, enc x = Ok j) -> exists js, go.array (List.map enc l) = Ok js.
Proof.
  intros Henc. induction l as [|x l [js IH]]; [now exists []|].
  destruct (Henc x) as [j Hj]. exists (j :: js). cbn. now rewrite Hj, IH.
Qed.

Lemma Marshal_geminiContent_Ok (c : google.geminiContent.t) :
  exists j, google.Marshal_geminiContent c = Ok j.
Proof.
  unfold google.Marshal_geminiContent.
  destruct (array_all_Ok google.Marshal_geminiPart (google.geminiContent.Parts c)) as [js ->].
  - intros p. unfold google.Marshal_geminiPart, go.object. cbn.
    repeat case_match; eauto.
  - unfold go.object. cbn. repeat case_match; eauto.
Qed.

(** A temperature that is not a number cannot be encoded: every entry
    point of every adapter that has a key returns the encoder's error,
    wrapped as a failure to marshal the request, and nothing is sent: the
    world is as it was. *)
Theorem unencodable_temperature
  (pa : anthropic.Provider.t) (pg : google.Provider.t) (po : openai.Provider.t)
  (req : llm.CompletionRequest.t) (w : go.World) (temp : float) :
  llm.CompletionRequest.Temperature req = Some temp ->
  PrimFloat.is_nan temp = true ->
  anthropic.Provider.apiKey pa <> "" ->
  google.Provider.apiKey pg <> "" ->
  openai.Provider.apiKey po <> "" ->
  let failure : error :=
    wrapError "failed to marshal request: " (errorString "json: unsupported value: NaN") in
  anthropic.Completion pa req w = (Err failure, w)
  /\ anthropic.CompletionStream pa req w = (Err failure, w)
  /\ google.Completion pg req w = (Err failure, w)
  /\ google.CompletionStream pg req w = (Err failure, w)
  /\ openai.Completion po req w = (Err failure, w)
  /\ openai.CompletionStream po req w = (Err failure, w).
Proof.
  intros Ht Hn Ha Hg Ho failure. subst failure.
  apply String.eqb_neq in Ha, Hg, Ho.
  pose proof (Marshal_float64_nan _ Hn) as Hm.
  pose proof (nan_not_zero _ Hn) as Hz.
  assert (Ea : forall stream,
             anthropic.Marshal_anthropicRequest (anthropic.newAnthropicRequest req stream)
             = Err (errorString "json: unsupported value: NaN")).
  { intros stream. unfold anthropic.Marshal_anthropicRequest, anthropic.newAnthropicRequest.
    destruct (anthropic.convertMessages _) as [messages system].
    cbn [anthropic.anthropicRequest.Model anthropic.anthropicRequest.Messages
         anthropic.anthropicRequest.System anthropic.anthropicRequest.MaxTokens
         anthropic.anthropicRequest.Temperature anthropic.anthropicRequest.TopP
         anthropic.anthropicRequest.Stream anthropic.anthropicRequest.StopSequences].
    destruct (array_all_Ok anthropic.Marshal_anthropicMessage messages) as [js ->];
      [intros m; eexists; reflexivity|].
    rewrite Ht. unfold go.object, go.omitempty_float64 at 1. rewrite Hz, Hm. reflexivity. }
  assert (Eo : forall stream,
             openai.Marshal_openAIRequest (openai.newOpenAIRequest req stream)
             = Err (errorString "json: unsupported value: NaN")).
  { intros stream. unfold openai.Marshal_openAIRequest.
    destruct (array_all_Ok openai.Marshal_openAIMessage
                (openai.openAIRequest.Messages (openai.newOpenAIRequest req stream)))
      as [js ->]; [intros m; eexists; reflexivity|].
    cbn [openai.newOpenAIRequest openai.openAIRequest.Temperature
         openai.openAIRequest.Model].
    rewrite Ht. unfold go.object. cbn [go.omitempty_ptr]. rewrite Hm. reflexivity. }
  assert (Eg : forall stream,
             google.Marshal_geminiRequest (google.newGeminiRequest req stream)
             = Err (errorString "json: unsupported value: NaN")).
  { intros stream. unfold google.Marshal_geminiRequest.
    destruct (array_all_Ok google.Marshal_geminiContent
                (google.geminiRequest.Contents (google.newGeminiRequest req stream))
                Marshal_geminiContent_Ok) as [js ->].
    assert (Ec : exists config,
               google.geminiRequest.GenerationConfig (google.newGeminiRequest req stream)
               = Some config
               /\ google.GenerationConfig.Temperature config = Some temp).
    { unfold google.newGeminiRequest. cbn [google.geminiRequest.GenerationConfig].
      eexists. split; [reflexivity|].
      destruct (llm.CompletionRequest.ExtraParams req) as [extra|]; [|exact Ht].
      destruct (go.assert_int _); exact Ht. }
    destruct Ec as (config & -> & Hc).
    assert (Es : google.geminiRequest.SafetySettings (google.newGeminiRequest req stream) = [])
      by reflexivity.
    rewrite Es. cbn [List.map go.array].
    assert (Ecfg : google.Marshal_GenerationConfig config
                   = Err (errorString "json: unsupported value: NaN")).
    { unfold google.Marshal_GenerationConfig, go.object. rewrite Hc.
      cbn [go.omitempty_ptr]. rewrite Hm. reflexivity. }
    unfold go.object. cbn [go.omitempty_ptr]. rewrite Ecfg. reflexivity. }
  unfold anthropic.Completion, anthropic.CompletionStream, google.Completion,
    google.CompletionStream, openai.Completion, openai.CompletionStream.
  rewrite Ha, Hg, Ho, !Ea, !Eo, !Eg. repeat apply conj; reflexivity.
Qed.

End ignored.

Lemma unencodable_temperature_witness :
  let w := fixtures.world (fixtures.ok200 fixtures.openai_body) in
  @openai.Completion fixtures.openai_decoder (openai.NewProviderWithKey "sk-test")
    (llm.WithTemperature PrimFloat.nan (llm.newRequest "gpt-4o" fixtures.hello false)) w
  = (Err (wrapError "failed to marshal request: "
            (errorString "json: unsupported value: NaN")), w).
Proof.
  intros w.
  destruct (@unencodable_temperature fixtures.anthropic_decoder fixtures.gemini_decoder
              fixtures.openai_decoder
              (anthropic.NewProviderWithKey "a") (google.NewProviderWithKey "g")
              (openai.NewProviderWithKey "sk-test")
              (llm.WithTemperature PrimFloat.nan
                 (llm.newRequest "gpt-4o" fixtures.hello false)) w PrimFloat.nan)
    as (_ & _ & _ & _ & Ho & _);
    [reflexivity|reflexivity|discriminate|discriminate|discriminate|exact Ho].
Defined.
